(** * WEB_TESLA_ITSE: the frontend's API client and application controller

    A shallow embedding of [frontend/js/api.js] (class [ApiService]) and
    [frontend/js/app.js] (class [App]), with the properties of the
    specification stated and proved over it.

    Layout:
    - [Js]      : the JavaScript values the code handles (strings as UTF-16
                  code units, numbers, JSON values, thrown errors) and the
                  platform operations it calls ([trim], [||], [Math.min],
                  template literals, [RegExp.prototype.test], HTML
                  serialisation of a text node);
    - [Dom]     : the part of the page the controller reads and writes;
    - [Net]     : requests and responses;
    - [Async]   : [async] functions as resumptions over the network;
    - [Api]     : [ApiService];
    - [App]     : the controller;
    - the theorems. *)

From Stdlib Require Import List ZArith NArith Bool Lia String Ascii.
From Stdlib Require Import QArith Qcanon Qround Qabs.
From Stdlib Require Import Numbers.DecimalString.
Import ListNotations.

Close Scope Qc_scope.
Close Scope Q_scope.

Set Implicit Arguments.
Set Warnings "-register-all".

(* ================================================================== *)
(** * JavaScript values *)
(* ================================================================== *)

Module Js.

(** ** Strings

    A JavaScript string is a sequence of UTF-16 code units.  Every
    character the code tests for (white space, [@], [.], [&], [<], [>]) is
    in the Basic Multilingual Plane, so one code unit each. *)

Definition code_unit := N.
Definition jsstring := list code_unit.

Fixpoint bytes_of (s : string) : list N :=
  match s with
  | EmptyString => []
  | String a r => N_of_ascii a :: bytes_of r
  end.

(** Source literals are written here as UTF-8 text; [utf16] decodes one,
    two and three byte sequences (the whole BMP) into code units. *)
Fixpoint utf16 (bs : list N) : jsstring :=
  match bs with
  | [] => []
  | b1 :: r1 =>
      if (b1 <? 128)%N then b1 :: utf16 r1
      else if (b1 <? 224)%N then
        match r1 with
        | b2 :: r2 => ((b1 - 192) * 64 + (b2 - 128))%N :: utf16 r2
        | [] => []
        end
      else
        match r1 with
        | b2 :: b3 :: r3 =>
            ((b1 - 224) * 4096 + (b2 - 128) * 64 + (b3 - 128))%N :: utf16 r3
        | _ => []
        end
  end.

Definition js (s : string) : jsstring := utf16 (bytes_of s).

Definition jsstring_eqb (a b : jsstring) : bool :=
  if list_eq_dec N.eq_dec a b then true else false.

(** [WhiteSpace] and [LineTerminator] of ECMA-262: what
    [String.prototype.trim] strips and what [\s] matches. *)
Definition is_space (c : code_unit) : bool :=
  ((9 <=? c) && (c <=? 13) || (c =? 32) || (c =? 160) || (c =? 5760)
   || (8192 <=? c) && (c <=? 8202) || (c =? 8232) || (c =? 8233)
   || (c =? 8239) || (c =? 8287) || (c =? 12288) || (c =? 65279))%N.

Fixpoint trimStart (s : jsstring) : jsstring :=
  match s with
  | c :: r => if is_space c then trimStart r else s
  | [] => []
  end.

Definition trimEnd (s : jsstring) : jsstring := rev (trimStart (rev s)).

Definition trim (s : jsstring) : jsstring := trimEnd (trimStart s).

(** [String.prototype.toUpperCase], exact on ASCII; the controller only
    upper-cases the notification types, which are ASCII literals. *)
Definition toUpperCase (s : jsstring) : jsstring :=
  map (fun c => if ((97 <=? c) && (c <=? 122))%N then (c - 32)%N else c) s.


(** ** Numbers

    A JavaScript number is an IEEE double: [NaN], one of the two
    infinities, or a finite value, held here as the rational it is
    ([Fin q]).  Every finite double is a rational; the rationals that are
    not doubles are values no program produces.  The two zeros are one
    [Fin 0]: truthiness, printing and comparison with a non-zero number,
    which is all the code does with a number, do not tell them apart.
    The code does no arithmetic on numbers: it compares them, tests them
    for truthiness and prints them, and the platform reads them from
    strings. *)

Inductive number :=
| NaN
| PosInf
| NegInf
| Fin (q : Qc).

(** The double of value [x], for an [x] that is one. *)
Definition double (x : Q) : Qc := Q2Qc (Qred x).

(** The number of integral value [z]: the numeric literals of the code. *)
Definition int (z : Z) : number := Fin (double (inject_Z z)).

Definition Qc_ltb (a b : Qc) : bool :=
  match (a ?= b)%Qc with
  | Lt => true
  | _ => false
  end.

(** [a < b] on numbers; false as soon as one side is [NaN]. *)
Definition num_ltb (a b : number) : bool :=
  match a, b with
  | NaN, _ | _, NaN => false
  | _, NegInf => false
  | NegInf, _ => true
  | PosInf, _ => false
  | _, PosInf => true
  | Fin x, Fin y => Qc_ltb x y
  end.

(** [Math.min(a, b)] and [Math.max(a, b)] on two numbers. *)
Definition Math_min (a b : number) : number :=
  match a, b with
  | NaN, _ | _, NaN => NaN
  | _, _ => if num_ltb b a then b else a
  end.

Definition Math_max (a b : number) : number :=
  match a, b with
  | NaN, _ | _, NaN => NaN
  | _, _ => if num_ltb a b then b else a
  end.

(** [ToBoolean] on a number: [0] and [NaN] are falsy. *)
Definition num_truthy (n : number) : bool :=
  match n with
  | NaN => false
  | Fin q => negb (Qeq_bool q 0)
  | _ => true
  end.

(** *** The binary64 format

    [base ^ e] for any integer [e]; the exponent of the power of two at or
    below a positive [v]; the exponent of the spacing of the doubles
    around [v] (52 fraction bits, least exponent -1074). *)

Definition pow_Q (base e : Z) : Q :=
  if (0 <=? e)%Z then inject_Z (base ^ e) else 1 # Z.to_pos (base ^ (- e)).

Definition Qlt_bool (a b : Q) : bool := negb (Qle_bool b a).

Definition binary_exponent (v : Q) : Z :=
  let e0 := (Z.log2 (Qnum v) - Z.log2 (Zpos (Qden v)))%Z in
  if Qle_bool (pow_Q 2 e0) v then e0 else (e0 - 1)%Z.

Definition quantum_exponent (v : Q) : Z :=
  Z.max (binary_exponent v - 52) (-1074).

(** Rounding to the nearest integer, ties to even. *)
Definition round_half_even (x : Q) : Z :=
  let f := Qfloor x in
  match ((x - inject_Z f) ?= 1 # 2)%Q with
  | Lt => f
  | Gt => (f + 1)%Z
  | Eq => if Z.even f then f else (f + 1)%Z
  end.

(** The Number value for a mathematical value: the nearest double, ties
    to the even significand, the infinities beyond the largest double. *)
Definition RoundToDouble (x : Q) : number :=
  if Qeq_bool x 0 then Fin (double 0)
  else
    let v := Qabs x in
    let qe := quantum_exponent v in
    let r := (inject_Z (round_half_even (v / pow_Q 2 qe)) * pow_Q 2 qe)%Q in
    if Qle_bool (pow_Q 2 1024) r then (if Qle_bool 0 x then PosInf else NegInf)
    else Fin (double (if Qle_bool 0 x then r else - r)).

(** *** [Number::toString]

    For a finite non-zero double [v]: the digits [s] and the exponent [n]
    with [s * 10^(n - k)] reading back as [v] ([k] the number of digits of
    [s]), [k] as small as possible and, among those, [s * 10^(n - k)] as
    close to [v] as possible; then plain decimal notation when
    [-6 < n <= 21] and exponent notation otherwise. *)

Fixpoint decimal_exponent_down (fuel : nat) (v : Q) (e : Z) : Z :=
  match fuel with
  | O => e
  | S f => if Qle_bool (pow_Q 10 e) v then e else decimal_exponent_down f v (e - 1)
  end.

Fixpoint decimal_exponent_up (fuel : nat) (v : Q) (e : Z) : Z :=
  match fuel with
  | O => e
  | S f => if Qle_bool (pow_Q 10 (e + 1)) v then decimal_exponent_up f v (e + 1) else e
  end.

(** The [e] with [10^e <= v < 10^(e+1)], found from the binary exponent. *)
Definition decimal_exponent (v : Q) : Z :=
  let est := (binary_exponent v * 30103 / 100000)%Z in
  decimal_exponent_up 3 v (decimal_exponent_down 3 v est).

Definition Qdistance (a b : Q) : Q := if Qle_bool a b then (b - a)%Q else (a - b)%Q.

(** The shortest digits: [(s, p)] with [s * 10^p] inside the interval
    [lo .. hi] of the reals that round to [v], trying [k] digits, then
    [k + 1], up to 17, which always suffice. *)
Fixpoint shortest_digits (fuel : nat) (k : Z) (v lo hi : Q) (inclusive : bool) (n0 : Z)
  : Z * Z :=
  let p := (n0 - k)%Z in
  let s_lo := Qfloor (Qred (v / pow_Q 10 p)) in
  let s_hi := (s_lo + 1)%Z in
  let c_lo := (inject_Z s_lo * pow_Q 10 p)%Q in
  let c_hi := (inject_Z s_hi * pow_Q 10 p)%Q in
  let inside c :=
    if inclusive then Qle_bool lo c && Qle_bool c hi
    else Qlt_bool lo c && Qlt_bool c hi in
  match fuel with
  | O => (s_lo, p)
  | S f =>
      match inside c_lo, inside c_hi with
      | true, true =>
          let d_lo := Qdistance v c_lo in
          let d_hi := Qdistance v c_hi in
          if Qlt_bool d_lo d_hi then (s_lo, p)
          else if Qlt_bool d_hi d_lo then (s_hi, p)
          else if Z.even s_lo then (s_lo, p) else (s_hi, p)
      | true, false => (s_lo, p)
      | false, true => (s_hi, p)
      | false, false => shortest_digits f (k + 1) v lo hi inclusive n0
      end
  end.

Fixpoint strip_zeros (fuel : nat) (s p : Z) : Z * Z :=
  match fuel with
  | O => (s, p)
  | S f =>
      if ((s mod 10 =? 0) && negb (s =? 0))%Z then strip_zeros f (s / 10) (p + 1)
      else (s, p)
  end.

Definition digits_of (z : Z) : jsstring := js (NilZero.string_of_int (Z.to_int z)).

Definition zeros (n : Z) : jsstring := repeat 48%N (Z.to_nat n).

Definition toString_positive (v : Q) : jsstring :=
  let E := binary_exponent v in
  let qe := quantum_exponent v in
  let m := Qfloor (v / pow_Q 2 qe) in
  (* below a power of two the doubles are twice as dense *)
  let qe_below := if ((m =? 2 ^ 52) && (-1022 <? E))%Z then (qe - 1)%Z else qe in
  let lo := (v - pow_Q 2 (qe_below - 1))%Q in
  let hi := (v + pow_Q 2 (qe - 1))%Q in
  let '(s0, p0) := shortest_digits 17 1 v lo hi (Z.even m) (decimal_exponent v + 1) in
  let '(s, p) := strip_zeros 400 s0 p0 in
  let ds := digits_of s in
  let k := Z.of_nat (List.length ds) in
  let n := (k + p)%Z in
  if ((k <=? n) && (n <=? 21))%Z then ds ++ zeros (n - k)
  else if ((0 <? n) && (n <=? 21))%Z then
    firstn (Z.to_nat n) ds ++ js "." ++ skipn (Z.to_nat n) ds
  else if ((-6 <? n) && (n <=? 0))%Z then
    js "0." ++ zeros (- n) ++ ds
  else
    let e := (n - 1)%Z in
    let exponent := (if (0 <=? e)%Z then js "+" else js "-") ++ digits_of (Z.abs e) in
    if (k =? 1)%Z then ds ++ js "e" ++ exponent
    else firstn 1 ds ++ js "." ++ skipn 1 ds ++ js "e" ++ exponent.

Definition number_toString (n : number) : jsstring :=
  match n with
  | NaN => js "NaN"
  | PosInf => js "Infinity"
  | NegInf => js "-Infinity"
  | Fin q =>
      if Qeq_bool q 0 then js "0"
      else if Qle_bool 0 q then toString_positive q
      else js "-" ++ toString_positive (- q)
  end.

(** *** [StringToNumber]

    The grammar [StringNumericLiteral]: white space around a decimal
    literal with an optional sign ([Infinity], digits with an optional
    fraction and exponent), or around an unsigned binary, octal or
    hexadecimal integer; the empty string is 0, and anything else is
    [NaN]. *)

Definition is_digit (c : code_unit) : bool := ((48 <=? c) && (c <=? 57))%N.

(** The longest prefix of decimal digits, read after [value]: the value,
    the number of digits read and what follows them. *)
Fixpoint decimal_digits (s : jsstring) (value count : Z) : Z * Z * jsstring :=
  match s with
  | c :: r =>
      if is_digit c then decimal_digits r (10 * value + Z.of_N (c - 48)) (count + 1)
      else (value, count, s)
  | [] => (value, count, [])
  end.

Definition digit_in (radix : Z) (c : code_unit) : option Z :=
  let d :=
    if is_digit c then Some (c - 48)%N
    else if ((97 <=? c) && (c <=? 102))%N then Some (c - 87)%N
    else if ((65 <=? c) && (c <=? 70))%N then Some (c - 55)%N
    else None in
  match d with
  | Some v => if (Z.of_N v <? radix)%Z then Some (Z.of_N v) else None
  | None => None
  end.

(** A string made of digits of the radix only, read after [value]. *)
Fixpoint radix_digits (radix : Z) (s : jsstring) (value : Z) : option Z :=
  match s with
  | [] => Some value
  | c :: r =>
      match digit_in radix c with
      | Some d => radix_digits radix r (radix * value + d)
      | None => None
      end
  end.

(** [ExponentPart], or nothing, up to the end of the string. *)
Definition exponent_part (s : jsstring) : option Z :=
  match s with
  | [] => Some 0%Z
  | c :: r =>
      if ((c =? 101) || (c =? 69))%N then
        let '(sign, r') :=
          match r with
          | 43%N :: t => (1%Z, t)
          | 45%N :: t => ((-1)%Z, t)
          | _ => (1%Z, r)
          end in
        match decimal_digits r' 0 0 with
        | (v, n, []) => if (0 <? n)%Z then Some (sign * v)%Z else None
        | _ => None
        end
      else None
  end.

Inductive literal_value :=
| NotALiteral
| InfinityLiteral
| MV (q : Q).

(** [StrUnsignedDecimalLiteral], the whole string. *)
Definition unsigned_decimal (s : jsstring) : literal_value :=
  if jsstring_eqb s (js "Infinity") then InfinityLiteral
  else
    let '(integer, n1, r1) := decimal_digits s 0 0 in
    match r1 with
    | 46%N :: r2 =>
        let '(mantissa, n2, r3) := decimal_digits r2 integer 0 in
        if (0 <? n1 + n2)%Z then
          match exponent_part r3 with
          | Some e => MV (inject_Z mantissa * pow_Q 10 (e - n2))
          | None => NotALiteral
          end
        else NotALiteral
    | _ =>
        if (0 <? n1)%Z then
          match exponent_part r1 with
          | Some e => MV (inject_Z integer * pow_Q 10 e)
          | None => NotALiteral
          end
        else NotALiteral
    end.

Definition signed_decimal (negative : bool) (s : jsstring) : number :=
  match unsigned_decimal s with
  | NotALiteral => NaN
  | InfinityLiteral => if negative then NegInf else PosInf
  | MV q => RoundToDouble (if negative then - q else q)
  end.

Definition non_decimal (radix : Z) (s : jsstring) : number :=
  match s with
  | [] => NaN
  | _ =>
      match radix_digits radix s 0 with
      | Some v => RoundToDouble (inject_Z v)
      | None => NaN
      end
  end.

Definition StringToNumber (s : jsstring) : number :=
  match trim s with
  | [] => Fin (double 0)
  | 43%N :: r => signed_decimal false r
  | 45%N :: r => signed_decimal true r
  | 48%N :: c :: r =>
      if ((c =? 120) || (c =? 88))%N then non_decimal 16 r
      else if ((c =? 111) || (c =? 79))%N then non_decimal 8 r
      else if ((c =? 98) || (c =? 66))%N then non_decimal 2 r
      else signed_decimal false (48%N :: c :: r)
  | t => signed_decimal false t
  end.

(** ** Values decoded from JSON

    What [response.json()] can resolve with, plus [undefined] (the result
    of reading an absent property).  An object is the list of its own
    properties, all of them data properties holding such values. *)

Inductive jsval :=
| JUndefined
| JNull
| JBool (b : bool)
| JNum (n : number)
| JStr (s : jsstring)
| JArr (items : list jsval)
| JObj (props : list (jsstring * jsval)).

(** Property lookup in a property list. *)
Fixpoint lookup {A : Type} (k : jsstring) (ps : list (jsstring * A)) : option A :=
  match ps with
  | [] => None
  | (k', v) :: r => if jsstring_eqb k k' then Some v else lookup k r
  end.

Definition truthy (v : jsval) : bool :=
  match v with
  | JUndefined | JNull => false
  | JBool b => b
  | JNum n => num_truthy n
  | JStr s => match s with [] => false | _ => true end
  | JArr _ | JObj _ => true
  end.

(** [a || b] *)
Definition or_else (a b : jsval) : jsval := if truthy a then a else b.

(** ** Thrown values

    Everything the code throws or catches is an [Error] object; handlers
    read only its [message]. *)

Inductive error_class := ClsError | ClsTypeError | ClsSyntaxError | ClsDOMException.

Record exn := mkExn { exn_class : error_class; message : jsstring }.

(** The [TypeError] an engine raises when a property is read from [null]
    or [undefined], and the one it raises when an object has no usable
    [toString] or [valueOf].  The wording is the engine's (V8's here). *)
Definition TypeError_read (of_what prop : jsstring) : exn :=
  mkExn ClsTypeError
    (js "Cannot read properties of " ++ of_what ++ js " (reading '" ++ prop ++ js "')").

Definition TypeError_convert : exn :=
  mkExn ClsTypeError (js "Cannot convert object to primitive value").

(** ** Conversions

    [ToString].  An array is joined with commas, [null] and [undefined]
    items giving nothing.  An object decoded from JSON answers
    [[object Object]] through [Object.prototype.toString], unless it has
    an own property named [toString]: that value is not callable, neither
    is what [valueOf] would give a primitive, and the conversion throws. *)
Fixpoint ToString (v : jsval) : exn + jsstring :=
  match v with
  | JUndefined => inr (js "undefined")
  | JNull => inr (js "null")
  | JBool true => inr (js "true")
  | JBool false => inr (js "false")
  | JNum n => inr (number_toString n)
  | JStr s => inr s
  | JArr items =>
      (fix join (l : list jsval) (first : bool) : exn + jsstring :=
         match l with
         | [] => inr []
         | x :: r =>
             match (match x with
                    | JUndefined | JNull => inr []
                    | _ => ToString x
                    end) with
             | inl e => inl e
             | inr s =>
                 match join r false with
                 | inl e => inl e
                 | inr t => inr ((if first then [] else js ",") ++ s ++ t)
                 end
             end
         end) items true
  | JObj props =>
      match lookup (js "toString") props with
      | Some _ => inl TypeError_convert
      | None => inr (js "[object Object]")
      end
  end.

(** [ToNumber]: an array or an object goes through its string. *)
Definition ToNumber (v : jsval) : exn + number :=
  match v with
  | JUndefined => inr NaN
  | JNull => inr (int 0)
  | JBool true => inr (int 1)
  | JBool false => inr (int 0)
  | JNum n => inr n
  | JStr s => inr (StringToNumber s)
  | JArr _ | JObj _ =>
      match ToString v with
      | inl e => inl e
      | inr s => inr (StringToNumber s)
      end
  end.

(** [new Error(v)]: the message is [ToString(v)] unless [v] is
    [undefined]; the error made, or the one thrown while making it. *)
Definition new_Error (v : jsval) : exn + exn :=
  match v with
  | JUndefined => inr (mkExn ClsError [])
  | _ =>
      match ToString v with
      | inl e => inl e
      | inr s => inr (mkExn ClsError s)
      end
  end.

(** [v.prop], for the property names the code reads: [message], [reply]
    and the chart keys, which no string, number, boolean or array has and
    no object inherits. *)
Definition get_prop (v : jsval) (prop : jsstring) : exn + jsval :=
  match v with
  | JUndefined => inl (TypeError_read (js "undefined") prop)
  | JNull => inl (TypeError_read (js "null") prop)
  | JObj ps => inr (match lookup prop ps with Some x => x | None => JUndefined end)
  | _ => inr JUndefined
  end.

(** ** Regular expressions

    The fragment of the regular-expression language the code uses, matched
    by derivatives.  [RegExp_test] is [RegExp.prototype.test] for a pattern
    anchored at both ends ([^...$], no flags): the whole string must
    match. *)

Inductive regex :=
| Void
| Eps
| Class (p : code_unit -> bool)
| Seq (r1 r2 : regex)
| Alt (r1 r2 : regex)
| Star (r : regex).

Definition Plus (r : regex) : regex := Seq r (Star r).

Fixpoint nullable (r : regex) : bool :=
  match r with
  | Void => false
  | Eps => true
  | Class _ => false
  | Seq r1 r2 => nullable r1 && nullable r2
  | Alt r1 r2 => nullable r1 || nullable r2
  | Star _ => true
  end.

Fixpoint deriv (c : code_unit) (r : regex) : regex :=
  match r with
  | Void => Void
  | Eps => Void
  | Class p => if p c then Eps else Void
  | Seq r1 r2 =>
      if nullable r1 then Alt (Seq (deriv c r1) r2) (deriv c r2)
      else Seq (deriv c r1) r2
  | Alt r1 r2 => Alt (deriv c r1) (deriv c r2)
  | Star r1 => Seq (deriv c r1) (Star r1)
  end.

Fixpoint RegExp_test (r : regex) (s : jsstring) : bool :=
  match s with
  | [] => nullable r
  | c :: s' => RegExp_test (deriv c r) s'
  end.

(** What a pattern denotes. *)
Inductive matches : regex -> jsstring -> Prop :=
| m_eps : matches Eps []
| m_class p c : p c = true -> matches (Class p) [c]
| m_seq r1 r2 s1 s2 : matches r1 s1 -> matches r2 s2 -> matches (Seq r1 r2) (s1 ++ s2)
| m_alt_l r1 r2 s : matches r1 s -> matches (Alt r1 r2) s
| m_alt_r r1 r2 s : matches r2 s -> matches (Alt r1 r2) s
| m_star_nil r : matches (Star r) []
| m_star_cons r s1 s2 : matches r s1 -> matches (Star r) s2 -> matches (Star r) (s1 ++ s2).

(** ** Serialising a text node

    [div.textContent = s; div.innerHTML] yields the HTML serialisation of
    one text node: the "escaping a string" steps of the HTML standard
    outside attribute mode. *)

Definition escape_unit (c : code_unit) : jsstring :=
  if (c =? 38)%N then js "&amp;"
  else if (c =? 160)%N then js "&nbsp;"
  else if (c =? 60)%N then js "&lt;"
  else if (c =? 62)%N then js "&gt;"
  else [c].

Definition escape_text (s : jsstring) : jsstring := flat_map escape_unit s.

(** Character references in text, as the HTML parser decodes them,
    restricted to the four the serialiser produces. *)
Fixpoint decode_text (s : jsstring) : jsstring :=
  match s with
  | [] => []
  | 38%N :: 97%N :: 109%N :: 112%N :: 59%N :: r => 38%N :: decode_text r
  | 38%N :: 110%N :: 98%N :: 115%N :: 112%N :: 59%N :: r => 160%N :: decode_text r
  | 38%N :: 108%N :: 116%N :: 59%N :: r => 60%N :: decode_text r
  | 38%N :: 103%N :: 116%N :: 59%N :: r => 62%N :: decode_text r
  | c :: r => c :: decode_text r
  end.

End Js.
Import Js.

(* ================================================================== *)
(** * The page *)
(* ================================================================== *)

Module Dom.

(** [#connection-status] *)
Record status_element := mkStatus {
  status_textContent : jsstring;
  status_className : jsstring }.

(** An element matched by [.chart .bar]: the value last assigned to its
    [style.height] (what the style declaration makes of a value that is
    not a length is the browser's business) and the text of its first
    [.tip] descendant, if it has one. *)
Record bar := mkBar {
  style_height : jsstring;
  tip : option jsstring }.

(** The form's [button[type="submit"]]. *)
Record button := mkButton {
  disabled : bool;
  button_textContent : jsstring }.

(** A text control of the contact form: its name, its current value and the
    default value [form.reset()] puts back. *)
Record field := mkField {
  field_name : jsstring;
  field_value : jsstring;
  field_default : jsstring }.

(** [#contact-form], with the number of [submit] listeners bound to it. *)
Record contact_form := mkContact {
  fields : list field;
  submit_button : option button;
  contact_listeners : nat }.

(** [#chat-form]: the value of its [input[type="text"]], if it has one. *)
Record chat_form := mkChat {
  input_value : option jsstring;
  chat_listeners : nat }.

(** A child of [.chat-messages].  A message element is the template of
    [appendMessage] with its holes: the sender in the class name, the
    markup put in [.message-text] and the text put in [.message-time].
    Typing indicators (the elements with id [typing-indicator]) live only
    in this container. *)
Inductive chat_node :=
| MessageEl (sender : jsstring) (text_html : jsstring) (time : jsstring)
| TypingEl.

Inductive console_entry :=
| ConsoleError (label : jsstring) (e : exn)
| ConsoleLog (line : jsstring).

(** What the controller can see and change.  [chat_messages] holds the
    children of [.chat-messages], and [transcript_scrolls] counts the times
    that container was scrolled to its end
    ([scrollTop = scrollHeight]).  [clock] is what [toLocaleTimeString]
    answers at that moment; [console] is in chronological order. *)
Record world := mkWorld {
  connection_status : option status_element;
  bars : list bar;
  contact : option contact_form;
  chat : option chat_form;
  chat_messages : option (list chat_node);
  transcript_scrolls : nat;
  console : list console_entry;
  clock : jsstring }.

Definition set_connection_status (s : option status_element) (w : world) : world :=
  mkWorld s (bars w) (contact w) (chat w) (chat_messages w) (transcript_scrolls w)
          (console w) (clock w).

Definition set_bars (b : list bar) (w : world) : world :=
  mkWorld (connection_status w) b (contact w) (chat w) (chat_messages w) (transcript_scrolls w)
          (console w) (clock w).

Definition set_contact (c : option contact_form) (w : world) : world :=
  mkWorld (connection_status w) (bars w) c (chat w) (chat_messages w) (transcript_scrolls w)
          (console w) (clock w).

Definition set_chat (c : option chat_form) (w : world) : world :=
  mkWorld (connection_status w) (bars w) (contact w) c (chat_messages w) (transcript_scrolls w)
          (console w) (clock w).

Definition set_chat_messages (m : option (list chat_node)) (w : world) : world :=
  mkWorld (connection_status w) (bars w) (contact w) (chat w) m (transcript_scrolls w)
          (console w) (clock w).

(** [chatContainer.scrollTop = chatContainer.scrollHeight] *)
Definition scroll_to_end (w : world) : world :=
  mkWorld (connection_status w) (bars w) (contact w) (chat w) (chat_messages w)
          (S (transcript_scrolls w)) (console w) (clock w).

Definition console_push (e : console_entry) (w : world) : world :=
  mkWorld (connection_status w) (bars w) (contact w) (chat w) (chat_messages w)
          (transcript_scrolls w) (console w ++ [e]) (clock w).

(** [console.error(label, e)] and [console.log(line)] *)
Definition console_error (label : jsstring) (e : exn) : world -> world :=
  console_push (ConsoleError label e).

Definition console_log (line : jsstring) : world -> world :=
  console_push (ConsoleLog line).

(** Assignments to the submit button, through the form that holds it. *)
Definition update_button (f : button -> button) (w : world) : world :=
  match contact w with
  | Some c =>
      set_contact
        (Some (mkContact (fields c) (option_map f (submit_button c)) (contact_listeners c))) w
  | None => w
  end.

(** [form.reset()] *)
Definition reset_field (x : field) : field :=
  mkField (field_name x) (field_default x) (field_default x).

Definition form_reset (w : world) : world :=
  match contact w with
  | Some c =>
      set_contact
        (Some (mkContact (map reset_field (fields c)) (submit_button c) (contact_listeners c))) w
  | None => w
  end.

(** [new FormData(form)] and [formData.get(name)]: the value of the first
    entry of that name, [None] for [null]. *)
Definition FormData := list (jsstring * jsstring).

Definition new_FormData (c : contact_form) : FormData :=
  map (fun x => (field_name x, field_value x)) (fields c).

Definition FormData_get (d : FormData) (name : jsstring) : option jsstring :=
  lookup name d.

(** [document.getElementById('typing-indicator')] followed by [remove()]:
    the first indicator in tree order goes. *)
Fixpoint remove_first_typing (ns : list chat_node) : list chat_node :=
  match ns with
  | [] => []
  | TypingEl :: r => r
  | n :: r => n :: remove_first_typing r
  end.

End Dom.

Import Dom.
(* ================================================================== *)
(** * Asynchronous functions *)
(* ================================================================== *)

(** ** The network *)

Module Net.

(** The arguments of one [fetch(url, init)] call.  [body] is the value that
    was handed to [JSON.stringify]. *)
Record request := mkRequest {
  url : jsstring;
  method : option jsstring;
  headers : list (jsstring * jsstring);
  body : option jsval }.

(** How a promise settles. *)
Inductive settled (T : Type) :=
| Resolved (v : T)
| Rejected (e : exn).
Arguments Rejected {T} e.

(** A [Response].  [response.json()] is read at two places: on an error
    status, for a body of any shape ([json_any]); on a success status, for
    the payload of the endpoint, of type [V] ([json]). *)
Record response (V : Type) := mkResponse {
  status : Z;
  ok : bool;
  json_any : settled jsval;
  json : settled V }.

(** The Fetch standard: [ok] is true exactly for the statuses 200-299. *)
Definition well_formed {V} (r : response V) : Prop :=
  ok r = ((200 <=? status r) && (status r <=? 299))%Z.

End Net.

Import Net.

(** ** Resumptions

    An [async] function runs until it is done, throws, or awaits the
    network; in the last case it hands out the request and the rest of
    itself, which is resumed with the way [fetch] settled and with the page
    as it is by then.  [V] is the type of the payloads of the endpoints the
    function calls. *)

Module Async.

Section Task.

Variable V : Type.

Inductive task (A : Type) :=
| Done (w : world) (a : A)
| Fail (w : world) (e : exn)
| Await (w : world) (r : request) (k : settled (response V) -> world -> task A).

Arguments Fail {A} w e.
Arguments Await {A} w r k.

Definition M (A : Type) := world -> task A.

Definition ret {A} (a : A) : M A := fun w => Done w a.

Definition throw {A} (e : exn) : M A := fun w => Fail w e.

Fixpoint bind_task {A B} (t : task A) (f : A -> M B) : task B :=
  match t with
  | Done w a => f a w
  | Fail w e => Fail w e
  | Await w r k => Await w r (fun o w' => bind_task (k o w') f)
  end.

Definition bind {A B} (m : M A) (f : A -> M B) : M B :=
  fun w => bind_task (m w) f.

(** [try { m } catch (e) { h e }] *)
Fixpoint catch_task {A} (t : task A) (h : exn -> M A) : task A :=
  match t with
  | Done w a => Done w a
  | Fail w e => h e w
  | Await w r k => Await w r (fun o w' => catch_task (k o w') h)
  end.

Definition try_catch {A} (m : M A) (h : exn -> M A) : M A :=
  fun w => catch_task (m w) h.

(** [try { m } finally { f }] *)
Fixpoint finally_task {A} (t : task A) (f : M unit) : task A :=
  match t with
  | Done w a => bind_task (f w) (fun _ => ret a)
  | Fail w e => bind_task (f w) (fun _ => throw e)
  | Await w r k => Await w r (fun o w' => finally_task (k o w') f)
  end.

Definition try_finally {A} (m : M A) (f : M unit) : M A :=
  fun w => finally_task (m w) f.

(** A synchronous effect on the page. *)
Definition effect (f : world -> world) : M unit := fun w => Done (f w) tt.

Definition read {A} (f : world -> A) : M A := fun w => Done w (f w).

(** [await fetch(url, init)]: the response, or the rejection thrown. *)
Definition fetch (r : request) : M (response V) :=
  fun w =>
    Await w r (fun o w' =>
      match o with
      | Resolved response => Done w' response
      | Rejected e => Fail w' e
      end).

(** Running a function to its end against a network that answers each
    request at once, with nothing else touching the page in between: the
    requests made, the page at the end, and the result. *)
Fixpoint run {A} (net : request -> settled (response V)) (t : task A)
  : list request * world * (exn + A) :=
  match t with
  | Done w a => ([], w, inr a)
  | Fail w e => ([], w, inl e)
  | Await w r k =>
      let '(rs, w', x) := run net (k (net r) w) in (r :: rs, w', x)
  end.

(** Where a function is suspended, if it is: the page as it left it and
    the request it is waiting for. *)
Definition pending {A} (t : task A) : option (world * request) :=
  match t with
  | Await w r _ => Some (w, r)
  | _ => None
  end.

(** The function after [fetch] has settled with [o], the page being [w']
    by then.  A function that is not suspended stays as it is. *)
Definition resume {A} (t : task A) (o : settled (response V)) (w' : world) : task A :=
  match t with
  | Await _ _ k => k o w'
  | _ => t
  end.

End Task.

Arguments Fail {V A} w e.
Arguments Await {V A} w r k.
Arguments Done {V A} w a.
Arguments ret {V A} a.
Arguments throw {V A} e.
Arguments effect {V} f.
Arguments read {V A} f.

Declare Scope async_scope.
Delimit Scope async_scope with async.
Notation "x <- m ;; k" := (bind m (fun x => k))
  (at level 61, m at next level, right associativity) : async_scope.
Notation "m ;; k" := (bind m (fun _ => k))
  (at level 61, right associativity) : async_scope.

End Async.

Import Async.
Local Open Scope async_scope.

(* ================================================================== *)
(** * The API client ([api.js]) *)
(* ================================================================== *)
Module Api.

(** [window.API_CONFIG] of [config.js]. *)
Record endpoints_t := mkEndpoints {
  HEALTH : jsstring;
  METRICS : jsstring;
  CHAT : jsstring;
  LEADS : jsstring }.

Record config := mkConfig {
  BASE_URL : jsstring;
  ENDPOINTS : endpoints_t }.

Definition API_CONFIG (hostname : jsstring) : config :=
  mkConfig
    (if jsstring_eqb hostname (js "localhost") || jsstring_eqb hostname (js "127.0.0.1")
     then js "http://127.0.0.1:8000"
     else js "")
    (mkEndpoints (js "/healthz") (js "/api/metrics") (js "/api/chat") (js "/api/leads")).

Record ApiService := mkApi {
  baseUrl : jsstring;
  endpoints : endpoints_t }.

Definition new_ApiService (c : config) : ApiService :=
  mkApi (BASE_URL c) (ENDPOINTS c).

(** The [options] argument of [fetchApi]; [None] is an absent property. *)
Record fetch_options := mkOptions {
  opt_method : option jsstring;
  opt_headers : option (list (jsstring * jsstring));
  opt_body : option jsval }.

Definition no_options : fetch_options := mkOptions None None None.

Definition default_error_message : jsstring := js "Error en la petición".

Section Client.

Variable V : Type.
Variable this : ApiService.

(** [fetchApi(endpoint, options = {})].  The result is [None] for
    JavaScript's [null]. *)
Definition fetchApi (endpoint : jsstring) (options : fetch_options) : M V (option V) :=
  let url := baseUrl this ++ endpoint in
  let defaultOptions :=
    mkRequest url
      (opt_method options)
      (* [headers: {...}] first, then [...options], whose own [headers]
         replaces it *)
      (match opt_headers options with
       | Some h => h
       | None => [(js "Content-Type", js "application/json")]
       end)
      (opt_body options) in
  try_catch
    (response <- fetch V defaultOptions ;;
     if negb (ok response) then
       (* [await response.json().catch(() => ({}))] *)
       let error :=
         match json_any response with
         | Resolved v => v
         | Rejected _ => JObj []
         end in
       match get_prop error (js "message") with
       | inl type_error => throw type_error
       | inr m =>
           match new_Error (or_else m (JStr default_error_message)) with
           | inl type_error => throw type_error
           | inr e => throw e
           end
       end
     else if (status response =? 204)%Z then
       ret None
     else
       match json response with
       | Resolved v => ret (Some v)
       | Rejected e => throw e
       end)
    (fun error =>
       effect (console_error (js "Error en la petición:") error) ;;
       throw error).

Definition checkHealth : M V (option V) :=
  fetchApi (HEALTH (endpoints this)) no_options.

Definition getMetrics : M V (option V) :=
  fetchApi (METRICS (endpoints this)) no_options.

(** [sendChatMessage(message, useAi = true)] *)
Definition sendChatMessage (message : jsstring) (useAi : bool) : M V (option V) :=
  fetchApi (CHAT (endpoints this))
    (mkOptions (Some (js "POST")) None
       (Some (JObj [(js "message", JStr message); (js "use_ai", JBool useAi)]))).

Definition sendLead (lead : jsval) : M V (option V) :=
  fetchApi (LEADS (endpoints this))
    (mkOptions (Some (js "POST")) None (Some lead)).

End Client.

End Api.

Import Api.

(* ================================================================== *)
(** * The controller ([app.js]) *)
(* ================================================================== *)

Module App.

(** [/^[^\s@]+@[^\s@]+\.[^\s@]+$/] *)
Definition not_space_or_at (c : code_unit) : bool :=
  negb (is_space c || (c =? 64)%N).

Definition emailRegex : regex :=
  Seq (Plus (Class not_space_or_at))
   (Seq (Class (N.eqb 64))
     (Seq (Plus (Class not_space_or_at))
       (Seq (Class (N.eqb 46))
            (Plus (Class not_space_or_at))))).

Definition chat_fallback : jsstring :=
  js "Lo siento, ha ocurrido un error al procesar tu mensaje. Por favor, inténtalo de nuevo más tarde.".

Definition busy_label : jsstring := js "Enviando...".

Definition msg_required : jsstring :=
  js "Por favor complete todos los campos obligatorios".

Definition msg_email : jsstring :=
  js "Por favor ingrese un correo electrónico válido".

Definition msg_sent : jsstring := js "¡Mensaje enviado con éxito!".

Definition msg_send_failed : jsstring :=
  js "Error al enviar el mensaje. Por favor, intente nuevamente.".

Definition msg_no_server : jsstring := js "Error al conectar con el servidor".

(** [new Error('...')] with a string literal. *)
Definition Error (message : jsstring) : exn := mkExn ClsError message.

(** The object literal of [loadMetrics]'s [catch]. *)
Definition fallback_metrics : jsval :=
  JObj [(js "itse", JNum (int 80)); (js "pozo", JNum (int 65));
        (js "mant", JNum (int 90)); (js "inc", JNum (int 50))].

Definition keys : list jsstring := [js "itse"; js "pozo"; js "mant"; js "inc"].

(** The value a call of [fetchApi] returned: [None] is [null]. *)
Definition returned (v : option jsval) : jsval :=
  match v with
  | Some x => x
  | None => JNull
  end.

(** [escapeHtml(text)]: the [textContent] setter takes [null] and
    [undefined] to the empty string and anything else to its string;
    [innerHTML] then serialises the text node. *)
Definition escapeHtml (text : jsval) : exn + jsstring :=
  match text with
  | JNull | JUndefined => inr []
  | _ =>
      match ToString text with
      | inl e => inl e
      | inr s => inr (escape_text s)
      end
  end.

Definition getCurrentTime (w : world) : jsstring := clock w.

(** The template literal [`${n}%`], for a number [n]. *)
Definition percent (n : number) : jsstring := number_toString n ++ js "%".

(** One turn of the [forEach] of [updateMetricsUI]: the bar as the turn
    leaves it, and the exception that ended the turn, if any. *)
Definition render_bar (metrics : jsval) (index : nat) (b : bar) : bar * option exn :=
  (* [keys[index]], [undefined] past the end, then used as a property name *)
  let key := match nth_error keys index with Some k => k | None => js "undefined" end in
  match get_prop metrics key with
  | inl type_error => (b, Some type_error)
  | inr x =>
      (* [metrics[key] || 50] *)
      let value := or_else x (JNum (int 50)) in
      (* [Math.min(100, value)] converts [value] to a number *)
      match ToNumber value with
      | inl type_error => (b, Some type_error)
      | inr n =>
          let height := percent (Math_max (int 5) (Math_min (int 100) n)) in
          match tip b with
          | None => (mkBar height None, None)
          | Some t =>
              (* [`${value}%`] converts [value] to a string *)
              match ToString value with
              | inl type_error => (mkBar height (Some t), Some type_error)
              | inr s => (mkBar height (Some (s ++ js "%")), None)
              end
          end
      end
  end.

(** [bars.forEach((bar, index) => ...)]: the bars as the loop leaves them,
    and the exception that stopped it, if any. *)
Fixpoint bars_forEach (metrics : jsval) (index : nat) (bs : list bar)
  : list bar * option exn :=
  match bs with
  | [] => ([], None)
  | b :: r =>
      match render_bar metrics index b with
      | (b', Some e) => (b' :: r, Some e)
      | (b', None) =>
          let (r', x) := bars_forEach metrics (S index) r in (b' :: r', x)
      end
  end.

(** What [showNotification(message, type)] leaves on the console: the
    notification mechanism of the page is this one line. *)
Definition notification (message type : jsstring) : console_entry :=
  ConsoleLog (js "[" ++ toUpperCase type ++ js "] " ++ message).

Section Controller.

Variable V : Type.
Variable api : ApiService.

Definition showNotification (message type : jsstring) : M V unit :=
  effect (console_push (notification message type)).

Definition updateConnectionStatus (isConnected : bool) : M V unit :=
  effect (fun w =>
    match connection_status w with
    | None => w
    | Some _ =>
        if isConnected then
          set_connection_status
            (Some (mkStatus (js "Conectado al servidor") (js "status-connected"))) w
        else
          set_connection_status
            (Some (mkStatus (js "Sin conexión al servidor") (js "status-disconnected"))) w
    end).

Definition checkBackendConnection : M V unit :=
  try_catch
    (checkHealth V api ;;
     updateConnectionStatus true)
    (fun error =>
       effect (console_error (js "No se pudo conectar al backend:") error) ;;
       updateConnectionStatus false ;;
       throw error).

Definition updateMetricsUI (metrics : jsval) : M V unit :=
  fun w =>
    let (bs, x) := bars_forEach metrics 0 (bars w) in
    match x with
    | None => Done (set_bars bs w) tt
    | Some e => Fail (set_bars bs w) e
    end.

Definition initializeEventListeners : M V unit :=
  effect (fun w =>
    match contact w with
    | Some c =>
        set_contact
          (Some (mkContact (fields c) (submit_button c) (S (contact_listeners c)))) w
    | None => w
    end) ;;
  effect (fun w =>
    match chat w with
    | Some c => set_chat (Some (mkChat (input_value c) (S (chat_listeners c)))) w
    | None => w
    end).

(** [formData.get(name)?.trim()] *)
Definition get_trimmed (d : FormData) (name : jsstring) : jsval :=
  match FormData_get d name with
  | Some s => JStr (trim s)
  | None => JUndefined
  end.

(** [handleContactSubmit(e)], with [e.target] the contact form.  An absent
    form stands for a [null] target. *)
Definition handleContactSubmit : M V unit :=
  target <- read contact ;;
  match target with
  | None => throw (TypeError_read (js "null") (js "querySelector"))
  | Some form =>
      let formData := new_FormData form in
      match submit_button form with
      | None => throw (TypeError_read (js "null") (js "textContent"))
      | Some submitButton =>
          let originalButtonText := button_textContent submitButton in
          try_finally
            (try_catch
               (effect (update_button (fun b => mkButton true (button_textContent b))) ;;
                effect (update_button (fun b => mkButton (disabled b) busy_label)) ;;
                let name := get_trimmed formData (js "name") in
                let email := get_trimmed formData (js "email") in
                let phone := get_trimmed formData (js "phone") in
                let message := get_trimmed formData (js "message") in
                if negb (truthy name) || negb (truthy email) || negb (truthy phone) then
                  throw (Error msg_required)
                else
                  (* [emailRegex.test(email)] converts [email] to a string *)
                  match ToString email with
                  | inl type_error => throw type_error
                  | inr address =>
                      if negb (RegExp_test emailRegex address) then
                        throw (Error msg_email)
                      else
                        sendLead V api
                          (JObj [(js "name", name);
                                 (js "email", email);
                                 (js "phone", phone);
                                 (js "message",
                                  or_else message (JStr (js "Sin mensaje adicional")));
                                 (js "source", JStr (js "formulario-web"))]) ;;
                        showNotification msg_sent (js "success") ;;
                        effect form_reset
                  end)
               (fun error =>
                  effect (console_error (js "Error al enviar el formulario:") error) ;;
                  showNotification
                    (match message error with [] => msg_send_failed | m => m end)
                    (js "error")))
            (effect (update_button (fun b => mkButton false (button_textContent b))) ;;
             effect (update_button (fun b => mkButton (disabled b) originalButtonText)))
      end
  end.

(** [appendMessage(text, sender)]: nothing without the container;
    otherwise the element is built, which throws when [text] has no
    string, then appended, and the container scrolled to its end. *)
Definition appendMessage (text : jsval) (sender : jsstring) : M V unit :=
  fun w =>
    match chat_messages w with
    | None => Done w tt
    | Some chatContainer =>
        match escapeHtml text with
        | inl type_error => Fail w type_error
        | inr html =>
            Done (scroll_to_end
                    (set_chat_messages
                       (Some (chatContainer ++ [MessageEl sender html (getCurrentTime w)])) w))
                 tt
        end
    end.

Definition showTypingIndicator : M V unit :=
  effect (fun w =>
    match chat_messages w with
    | None => w
    | Some chatContainer =>
        scroll_to_end (set_chat_messages (Some (chatContainer ++ [TypingEl])) w)
    end).

Definition hideTypingIndicator : M V unit :=
  effect (fun w =>
    match chat_messages w with
    | None => w
    | Some chatContainer => set_chat_messages (Some (remove_first_typing chatContainer)) w
    end).

End Controller.

(** [loadMetrics()].  The metrics endpoint answers with a JSON value. *)
Definition loadMetrics (api : ApiService) : M jsval unit :=
  try_catch
    (metrics <- getMetrics jsval api ;;
     updateMetricsUI jsval (returned metrics))
    (fun error =>
       effect (console_error (js "Error al cargar métricas:") error) ;;
       updateMetricsUI jsval fallback_metrics).

(** [initializeApp()] *)
Definition initializeApp (api : ApiService) : M jsval unit :=
  try_catch
    (checkBackendConnection jsval api ;;
     loadMetrics api ;;
     initializeEventListeners jsval ;;
     effect (console_log (js "Aplicación inicializada correctamente")))
    (fun error =>
       effect (console_error (js "Error al inicializar la aplicación:") error) ;;
       showNotification jsval msg_no_server (js "error")).

(** [handleChatSubmit(e)], with [e.target] the chat form.  The chat
    endpoint answers with a JSON value. *)
Definition handleChatSubmit (api : ApiService) : M jsval unit :=
  target <- read chat ;;
  match target with
  | None => throw (TypeError_read (js "null") (js "querySelector"))
  | Some form =>
      match input_value form with
      | None => throw (TypeError_read (js "null") (js "value"))
      | Some value =>
          let message := trim value in
          match message with
          | [] => ret tt
          | _ =>
              appendMessage jsval (JStr message) (js "user") ;;
              effect (fun w =>
                match chat w with
                | Some c => set_chat (Some (mkChat (Some []) (chat_listeners c))) w
                | None => w
                end) ;;
              try_catch
                (showTypingIndicator jsval ;;
                 response <- sendChatMessage jsval api message true ;;
                 hideTypingIndicator jsval ;;
                 match get_prop (returned response) (js "reply") with
                 | inl type_error => throw type_error
                 | inr reply => appendMessage jsval reply (js "bot")
                 end)
                (fun error =>
                   effect (console_error (js "Error en el chat:") error) ;;
                   hideTypingIndicator jsval ;;
                   appendMessage jsval (JStr chat_fallback) (js "bot"))
          end
      end
  end.

End App.

Import App.

(** [clamp(v, lo, hi)] in its usual meaning, for the statements below;
    the code spells it [Math.max(lo, Math.min(hi, v))]. *)
Definition clamp (v lo hi : Qc) : Qc :=
  if Qc_ltb v lo then lo else if Qc_ltb hi v then hi else v.

(** What [throw new Error(v)] throws: the error, or the [TypeError] of the
    conversion of [v] to a string. *)
Definition thrown_Error (v : jsval) : exn :=
  match new_Error v with
  | inl type_error => type_error
  | inr e => e
  end.

(** What [fetchApi] makes of the way [fetch] settled: the error it throws
    or the value it returns.  [fetchApi_resume] below proves that this is
    what the embedding of [fetchApi] computes. *)
Definition fetchApi_outcome {V} (o : settled (response V)) : exn + option V :=
  match o with
  | Rejected e => inl e
  | Resolved response =>
      if negb (ok response) then
        match json_any response with
        | Resolved JNull => inl (TypeError_read (js "null") (js "message"))
        | Resolved JUndefined => inl (TypeError_read (js "undefined") (js "message"))
        | Resolved (JObj ps) =>
            match lookup (js "message") ps with
            | Some m => inl (thrown_Error (or_else m (JStr default_error_message)))
            | None => inl (Error default_error_message)
            end
        | _ => inl (Error default_error_message)
        end
      else if (status response =? 204)%Z then inr None
      else
        match json response with
        | Resolved v => inr (Some v)
        | Rejected e => inl e
        end
  end.

(** The request [fetchApi(endpoint, options)] makes. *)
Definition fetchApi_request (api : ApiService) (endpoint : jsstring) (options : fetch_options)
  : request :=
  mkRequest (baseUrl api ++ endpoint) (opt_method options)
    (match opt_headers options with
     | Some h => h
     | None => [(js "Content-Type", js "application/json")]
     end)
    (opt_body options).

(** A metrics object all of whose properties hold numbers. *)
Definition is_number (v : jsval) : bool :=
  match v with
  | JNum _ => true
  | _ => false
  end.

Definition numeric_fields (ps : list (jsstring * jsval)) : Prop :=
  Forall (fun p => is_number (snd p) = true) ps.

(** A metrics object none of whose properties throws when it is converted
    to a string or to a number. *)
Definition convertible (v : jsval) : bool :=
  match ToString v with
  | inl _ => false
  | inr _ => true
  end.

Definition convertible_fields (ps : list (jsstring * jsval)) : Prop :=
  Forall (fun p => convertible (snd p) = true) ps.

(** Pages and networks for the examples. *)
Definition four_bars : world :=
  mkWorld None
    [mkBar [] (Some []); mkBar [] (Some []); mkBar [] (Some []); mkBar [] (Some [])]
    None None None 0 [] (js "10:30").

Definition local_api : ApiService := new_ApiService (API_CONFIG (js "localhost")).

Definition home_page : world :=
  mkWorld
    (Some (mkStatus [] []))
    [mkBar [] (Some []); mkBar [] (Some []); mkBar [] (Some []); mkBar [] (Some [])]
    (Some (mkContact
             [mkField (js "name") (js " Ana ") [];
              mkField (js "email") (js "ana@example.com") [];
              mkField (js "phone") (js "999 111 222") [];
              mkField (js "message") [] []]
             (Some (mkButton false (js "Enviar")))
             0))
    (Some (mkChat (Some (js " <b>Hola</b> ")) 0))
    (Some [])
    0
    []
    (js "10:30").

(** The transcript: its message entries, and how many typing indicators
    it shows. *)
Definition is_message (n : chat_node) : bool :=
  match n with
  | MessageEl _ _ _ => true
  | TypingEl => false
  end.

Definition messages (ns : list chat_node) : list chat_node := filter is_message ns.

Definition typing_count (ns : list chat_node) : nat :=
  List.length (filter (fun n => negb (is_message n)) ns).

(** The trimmed value of a field of the contact form, empty when the form
    has no field of that name. *)
Definition trimmed (form : contact_form) (name : jsstring) : jsstring :=
  match FormData_get (new_FormData form) name with
  | Some s => trim s
  | None => []
  end.

(** The condition under which the contact form is turned down. *)
Definition rejected_by_validation (form : contact_form) : Prop :=
  trimmed form (js "name") = [] \/
  trimmed form (js "email") = [] \/
  trimmed form (js "phone") = [] \/
  RegExp_test emailRegex (trimmed form (js "email")) = false.

Definition with_chat_input (s : jsstring) (w : world) : world :=
  set_chat (Some (mkChat (Some s) 0)) w.

Definition page_with_form (name email phone : jsstring) : world :=
  set_contact
    (Some (mkContact
             [mkField (js "name") name [];
              mkField (js "email") email [];
              mkField (js "phone") phone []]
             (Some (mkButton false (js "Enviar")))
             1))
    home_page.

Definition failed_to_fetch : exn := mkExn ClsTypeError (js "Failed to fetch").

Definition network_down {V} : request -> settled (response V) :=
  fun _ => Rejected failed_to_fetch.

(** Two pages that differ at most in what the console holds. *)
Definition same_but_console (w w' : world) : Prop :=
  connection_status w' = connection_status w /\
  bars w' = bars w /\
  contact w' = contact w /\
  chat w' = chat w /\
  chat_messages w' = chat_messages w /\
  transcript_scrolls w' = transcript_scrolls w /\
  clock w' = clock w.

(** Text without any of the four units the serialiser replaces. *)
Definition plain_text (s : jsstring) : bool :=
  forallb (fun c => negb ((c =? 38) || (c =? 160) || (c =? 60) || (c =? 62))%N) s.

Definition is_console_error (e : console_entry) : bool :=
  match e with
  | ConsoleError _ _ => true
  | ConsoleLog _ => false
  end.

(** A backend that answers every request with the status 200 and the JSON
    value [v], and the empty reply of a 204, whose body does not decode. *)
Definition network_up (v : jsval) : request -> settled (response jsval) :=
  fun _ => Resolved (mkResponse 200 true (Resolved v) (Resolved v)).

Definition end_of_input : exn := mkExn ClsSyntaxError (js "Unexpected end of JSON input").

Definition no_content {V} : response V :=
  mkResponse 204 true (Rejected end_of_input) (Rejected end_of_input).

(** The listeners of a form, one more. *)
Definition one_more_contact_listener (c : contact_form) : contact_form :=
  mkContact (fields c) (submit_button c) (S (contact_listeners c)).

Definition one_more_chat_listener (c : chat_form) : chat_form :=
  mkChat (input_value c) (S (chat_listeners c)).

Arguments js : simpl never.
Arguments toUpperCase : simpl never.
Arguments number_toString : simpl never.
Arguments StringToNumber : simpl never.
Arguments double : simpl never.
Arguments int : simpl never.
Arguments percent : simpl never.
Arguments trim : simpl never.
Arguments RegExp_test : simpl never.
Arguments escape_text : simpl never.
Arguments render_bar : simpl never.
Arguments escapeHtml : simpl never.
Arguments fetchApi : simpl never.
Arguments sendChatMessage : simpl never.
Arguments sendLead : simpl never.

(* ================================================================== *)
(** * Properties of the platform operations *)
(* ================================================================== *)

Section PlatformFacts.

Lemma jsstring_eqb_refl (s : jsstring) : jsstring_eqb s s = true.
Proof. unfold jsstring_eqb. destruct (list_eq_dec N.eq_dec s s); congruence. Qed.

Lemma jsstring_eqb_eq (a b : jsstring) : jsstring_eqb a b = true <-> a = b.
Proof.
  unfold jsstring_eqb. destruct (list_eq_dec N.eq_dec a b); split; congruence.
Qed.

(** *** Numbers *)

Lemma Qc_ltb_lt (a b : Qc) : Qc_ltb a b = true <-> (a < b)%Qc.
Proof. unfold Qc_ltb. rewrite Qclt_alt. destruct (a ?= b)%Qc; split; congruence. Qed.

Lemma Qc_ltb_ge (a b : Qc) : Qc_ltb a b = false <-> (b <= a)%Qc.
Proof.
  split.
  - intros H. apply Qcnot_lt_le. intros L. apply Qc_ltb_lt in L. congruence.
  - intros H. destruct (Qc_ltb a b) eqn:E; [|reflexivity].
    apply Qc_ltb_lt in E. apply Qcle_not_lt in H. contradiction.
Qed.

Lemma clamp_bounds (v lo hi : Qc) : (lo <= hi -> lo <= clamp v lo hi <= hi)%Qc.
Proof.
  unfold clamp. intros H.
  destruct (Qc_ltb v lo) eqn:A; [split; [apply Qcle_refl | exact H]|].
  apply Qc_ltb_ge in A.
  destruct (Qc_ltb hi v) eqn:B; [split; [exact H | apply Qcle_refl]|].
  apply Qc_ltb_ge in B. auto.
Qed.

Lemma clamp_inside (v lo hi : Qc) : (lo <= v <= hi -> clamp v lo hi = v)%Qc.
Proof.
  unfold clamp. intros [H1 H2].
  destruct (Qc_ltb v lo) eqn:A.
  - apply Qc_ltb_lt in A. apply Qcle_not_lt in H1. contradiction.
  - destruct (Qc_ltb hi v) eqn:B; [|reflexivity].
    apply Qc_ltb_lt in B. apply Qcle_not_lt in H2. contradiction.
Qed.

Lemma five_lt_hundred : Qc_ltb (double 5) (double 100) = true.
Proof. reflexivity. Qed.

(** [Math.max(5, Math.min(100, v))] is [clamp(v, 5, 100)] on finite
    numbers, and pins the infinities to the bounds. *)
Lemma Math_clamp_Fin (q : Qc) :
  Math_max (int 5) (Math_min (int 100) (Fin q)) = Fin (clamp q (double 5) (double 100)).
Proof.
  unfold clamp, Math_min, Math_max, int, num_ltb.
  change (double (inject_Z 5)) with (double 5).
  change (double (inject_Z 100)) with (double 100).
  assert (L : (double 5 < double 100)%Qc) by (apply Qc_ltb_lt; reflexivity).
  destruct (Qc_ltb q (double 5)) eqn:A.
  - apply Qc_ltb_lt in A.
    assert (B : Qc_ltb q (double 100) = true)
      by (apply Qc_ltb_lt; eapply Qclt_trans; eassumption).
    rewrite B.
    assert (C : Qc_ltb (double 5) q = false)
      by (apply Qc_ltb_ge, Qclt_le_weak; exact A).
    rewrite C. reflexivity.
  - apply Qc_ltb_ge in A.
    destruct (Qc_ltb (double 100) q) eqn:B.
    + apply Qc_ltb_lt in B.
      assert (C : Qc_ltb q (double 100) = false)
        by (apply Qc_ltb_ge, Qclt_le_weak; exact B).
      rewrite C. rewrite five_lt_hundred. reflexivity.
    + apply Qc_ltb_ge in B.
      destruct (Qc_ltb q (double 100)) eqn:C.
      * destruct (Qc_ltb (double 5) q) eqn:D; [reflexivity|].
        apply Qc_ltb_ge in D. f_equal. apply Qcle_antisym; assumption.
      * apply Qc_ltb_ge in C. rewrite five_lt_hundred.
        f_equal. apply Qcle_antisym; assumption.
Qed.

Lemma Math_clamp_infinite :
  Math_max (int 5) (Math_min (int 100) PosInf) = int 100 /\
  Math_max (int 5) (Math_min (int 100) NegInf) = int 5.
Proof. split; reflexivity. Qed.

Lemma Math_clamp_NaN : Math_max (int 5) (Math_min (int 100) NaN) = NaN.
Proof. reflexivity. Qed.

Lemma Math_clamp_50 : Math_max (int 5) (Math_min (int 100) (int 50)) = int 50.
Proof. reflexivity. Qed.

(** The numbers JavaScript takes for false. *)
Lemma num_falsy (v : number) : num_truthy v = false <-> v = int 0 \/ v = NaN.
Proof.
  split.
  - destruct v as [| | |q]; simpl; intros H; try discriminate; auto.
    left. apply negb_false_iff, Qeq_bool_iff in H.
    unfold int. f_equal. apply Qc_is_canon. exact H.
  - intros [->| ->]; reflexivity.
Qed.

Lemma num_truthy_Fin (q : Qc) : q <> double 0 -> num_truthy (Fin q) = true.
Proof.
  intros H. destruct (num_truthy (Fin q)) eqn:E; [reflexivity|].
  apply num_falsy in E. destruct E as [E|E]; [|discriminate E].
  injection E as ->. exfalso. apply H. reflexivity.
Qed.

(** The height the chart is given is within bounds as soon as the value
    that reaches the clamp is a number other than [NaN]. *)
Lemma Math_clamp_range (v : number) :
  v <> NaN ->
  exists h, Math_max (int 5) (Math_min (int 100) v) = Fin h /\
            (double 5 <= h <= double 100)%Qc.
Proof.
  assert (L : (double 5 <= double 100)%Qc)
    by (apply Qclt_le_weak, Qc_ltb_lt; reflexivity).
  destruct v as [| | |q]; intros H; [congruence| | |].
  - exists (double 100). split; [reflexivity|]. split; [exact L | apply Qcle_refl].
  - exists (double 5). split; [reflexivity|]. split; [apply Qcle_refl | exact L].
  - exists (clamp q (double 5) (double 100)).
    split; [apply Math_clamp_Fin | apply clamp_bounds; exact L].
Qed.

(** *** Conversions *)

(** A value that has a number has a string. *)
Lemma ToNumber_ToString (v : jsval) (n : number) :
  ToNumber v = inr n -> exists s, ToString v = inr s.
Proof.
  destruct v as [| |[|]|m|s|items|ps]; intros H; try (eexists; reflexivity).
  - unfold ToNumber in H. destruct (ToString (JArr items)) as [e|s]; [discriminate H|].
    eexists; reflexivity.
  - unfold ToNumber in H. destruct (ToString (JObj ps)) as [e|s]; [discriminate H|].
    eexists; reflexivity.
Qed.

(** The texts of the controller. *)
Lemma msg_required_text :
  msg_required = js "Por favor complete todos los campos obligatorios".
Proof. vm_compute. reflexivity. Qed.

Lemma msg_email_text :
  msg_email = js "Por favor ingrese un correo electrónico válido".
Proof. vm_compute. reflexivity. Qed.

Lemma msg_send_failed_text :
  msg_send_failed = js "Error al enviar el mensaje. Por favor, intente nuevamente.".
Proof. vm_compute. reflexivity. Qed.

Lemma busy_label_text : busy_label = js "Enviando...".
Proof. vm_compute. reflexivity. Qed.

Lemma success_line :
  js "[SUCCESS] " ++ msg_sent = js "[SUCCESS] ¡Mensaje enviado con éxito!".
Proof. vm_compute. reflexivity. Qed.

(** What the notification of an error and of a success look like. *)
Lemma notification_error (msg : jsstring) :
  notification msg (js "error") = ConsoleLog (js "[ERROR] " ++ msg).
Proof. reflexivity. Qed.

Lemma notification_success (msg : jsstring) :
  notification msg (js "success") = ConsoleLog (js "[SUCCESS] " ++ msg).
Proof. reflexivity. Qed.

(** *** The matcher agrees with what patterns denote *)

Lemma matches_nil_nullable (r : regex) (s : jsstring) :
  matches r s -> s = [] -> nullable r = true.
Proof.
  induction 1; intros E; simpl; try reflexivity; try discriminate.
  - apply app_eq_nil in E. destruct E as [E1 E2].
    rewrite IHmatches1, IHmatches2 by assumption. reflexivity.
  - rewrite IHmatches by assumption. reflexivity.
  - rewrite IHmatches by assumption. apply orb_true_r.
Qed.

Lemma nullable_matches_nil (r : regex) : nullable r = true -> matches r [].
Proof.
  induction r; simpl; intros E; try discriminate.
  - constructor.
  - apply andb_true_iff in E. destruct E as [E1 E2].
    change (@nil code_unit) with (@nil code_unit ++ []). constructor; auto.
  - apply orb_true_iff in E. destruct E; [apply m_alt_l | apply m_alt_r]; auto.
  - constructor.
Qed.

Lemma deriv_sound (c : code_unit) (r : regex) :
  forall s, matches (deriv c r) s -> matches r (c :: s).
Proof.
  induction r; simpl; intros s H.
  - inversion H.
  - inversion H.
  - destruct (p c) eqn:E; inversion H; subst. constructor. exact E.
  - destruct (nullable r1) eqn:E.
    + inversion H; subst.
      * match goal with X : matches (Seq _ _) _ |- _ => inversion X; subst end.
        change (c :: s1 ++ s2) with ((c :: s1) ++ s2). constructor; auto.
      * change (c :: s) with ([] ++ c :: s).
        constructor; auto using nullable_matches_nil.
    + inversion H; subst.
      change (c :: s1 ++ s2) with ((c :: s1) ++ s2). constructor; auto.
  - inversion H; subst; [apply m_alt_l | apply m_alt_r]; auto.
  - inversion H; subst.
    change (c :: s1 ++ s2) with ((c :: s1) ++ s2). constructor; auto.
Qed.

Lemma deriv_complete (c : code_unit) (r : regex) (s' : jsstring) :
  matches r s' -> forall s, s' = c :: s -> matches (deriv c r) s.
Proof.
  induction 1; intros t E; simpl; try discriminate.
  - injection E as E1 E2. subst. rewrite H. constructor.
  - destruct s1 as [|c1 s1]; simpl in E.
    + subst s2. rewrite (matches_nil_nullable H eq_refl).
      apply m_alt_r. auto.
    + injection E as E1 E2. subst.
      destruct (nullable r1); [apply m_alt_l|]; constructor; auto.
  - apply m_alt_l. auto.
  - apply m_alt_r. auto.
  - destruct s1 as [|c1 s1]; simpl in E.
    + auto.
    + injection E as E1 E2. subst. constructor; auto.
Qed.

Lemma RegExp_test_matches (r : regex) (s : jsstring) :
  RegExp_test r s = true <-> matches r s.
Proof.
  revert r. induction s as [|c s IH]; intros r.
  - change (RegExp_test r []) with (nullable r).
    split; [apply nullable_matches_nil | intros H; exact (matches_nil_nullable H eq_refl)].
  - change (RegExp_test r (c :: s)) with (RegExp_test (deriv c r) s).
    rewrite IH. split; [apply deriv_sound | intros H; exact (deriv_complete H eq_refl)].
Qed.

(** [[p]+] matches the non-empty strings made of units in [p]. *)
Lemma matches_star_class (p : code_unit -> bool) (s : jsstring) :
  matches (Star (Class p)) s <-> forallb p s = true.
Proof.
  split.
  - intros H. remember (Star (Class p)) as r eqn:E.
    induction H; try discriminate; injection E as ->.
    + reflexivity.
    + inversion H; subst. simpl.
      match goal with X : p _ = true |- _ => rewrite X end. auto.
  - induction s as [|c s IH]; simpl; intros H.
    + constructor.
    + apply andb_true_iff in H. destruct H as [H1 H2].
      change (c :: s) with ([c] ++ s). constructor; [constructor|]; auto.
Qed.

Lemma matches_plus_class (p : code_unit -> bool) (s : jsstring) :
  matches (Plus (Class p)) s <-> s <> [] /\ forallb p s = true.
Proof.
  unfold Plus. split.
  - intros H. inversion H; subst.
    match goal with X : matches (Class _) _ |- _ => inversion X; subst end.
    match goal with X : matches (Star _) _ |- _ => apply matches_star_class in X; rename X into HS end.
    simpl. split; [discriminate|].
    match goal with X : p _ = true |- _ => rewrite X end. exact HS.
  - intros [Hne H]. destruct s as [|c s]; [congruence|]. simpl in H.
    apply andb_true_iff in H. destruct H as [H1 H2].
    change (c :: s) with ([c] ++ s).
    constructor; [constructor; auto | apply matches_star_class; auto].
Qed.

Lemma matches_unit (c : code_unit) (s : jsstring) :
  matches (Class (N.eqb c)) s <-> s = [c].
Proof.
  split.
  - intros H. inversion H; subst.
    match goal with X : (_ =? _)%N = true |- _ => apply N.eqb_eq in X; subst end.
    reflexivity.
  - intros ->. constructor. apply N.eqb_refl.
Qed.

(** The shape of the addresses the contact form accepts:
    [local@domain.tld], each part non-empty and free of white space and
    [@]. *)
Lemma emailRegex_shape (s : jsstring) :
  RegExp_test emailRegex s = true <->
  exists a b c,
    s = a ++ [64%N] ++ b ++ [46%N] ++ c /\
    (a <> [] /\ forallb not_space_or_at a = true) /\
    (b <> [] /\ forallb not_space_or_at b = true) /\
    (c <> [] /\ forallb not_space_or_at c = true).
Proof.
  rewrite RegExp_test_matches. unfold emailRegex. split.
  - intros H.
    inversion H as [| |? ? a r1 Ha H1| | | |]; subst.
    inversion H1 as [| |? ? x r2 Hx H2| | | |]; subst.
    inversion H2 as [| |? ? b r3 Hb H3| | | |]; subst.
    inversion H3 as [| |? ? y c Hy Hc| | | |]; subst.
    apply matches_unit in Hx, Hy. subst x y.
    apply matches_plus_class in Ha, Hb, Hc.
    exists a, b, c. auto.
  - intros (a & b & c & -> & Ha & Hb & Hc).
    apply matches_plus_class in Ha, Hb, Hc.
    repeat constructor; auto; apply N.eqb_refl.
Qed.

(** *** Serialised text carries no markup *)

Lemma escape_text_cons (c : code_unit) (s : jsstring) :
  escape_text (c :: s) = escape_unit c ++ escape_text s.
Proof. reflexivity. Qed.

Lemma escape_unit_cases (c : code_unit) :
  (c = 38%N /\ escape_unit c = [38; 97; 109; 112; 59]%N) \/
  (c = 160%N /\ escape_unit c = [38; 110; 98; 115; 112; 59]%N) \/
  (c = 60%N /\ escape_unit c = [38; 108; 116; 59]%N) \/
  (c = 62%N /\ escape_unit c = [38; 103; 116; 59]%N) \/
  (c <> 38%N /\ c <> 160%N /\ c <> 60%N /\ c <> 62%N /\ escape_unit c = [c]).
Proof.
  unfold escape_unit.
  destruct (N.eqb_spec c 38); [left; subst; auto|].
  destruct (N.eqb_spec c 160); [right; left; subst; auto|].
  destruct (N.eqb_spec c 60); [right; right; left; subst; auto|].
  destruct (N.eqb_spec c 62); [right; right; right; left; subst; auto|].
  right; right; right; right. auto.
Qed.

Lemma escape_text_no_angle (s : jsstring) :
  ~ In 60%N (escape_text s) /\ ~ In 62%N (escape_text s).
Proof.
  induction s as [|c s [IH1 IH2]]; [split; intros []|].
  rewrite escape_text_cons.
  destruct (escape_unit_cases c)
    as [[-> ->]|[[-> ->]|[[-> ->]|[[-> ->]|(_ & _ & N1 & N2 & ->)]]]];
    split; intros H; apply in_app_or in H; destruct H as [H|H]; auto;
    simpl in H; repeat (destruct H as [H|H]; [try discriminate H; congruence|]);
    exact H.
Qed.

Lemma decode_text_other (c : code_unit) (r : jsstring) :
  c <> 38%N -> decode_text (c :: r) = c :: decode_text r.
Proof.
  intros H. destruct c as [|p]; [reflexivity|].
  do 6 (try (destruct p as [p|p|]; try reflexivity)).
  all: try (exfalso; apply H; reflexivity).
Qed.

(** Reading the serialised text back, as the HTML parser does, yields the
    text itself. *)
Lemma decode_escape_text (s : jsstring) : decode_text (escape_text s) = s.
Proof.
  induction s as [|c s IH]; [reflexivity|].
  rewrite escape_text_cons.
  destruct (escape_unit_cases c)
    as [[-> ->]|[[-> ->]|[[-> ->]|[[-> ->]|(N0 & _ & _ & _ & ->)]]]].
  - change (decode_text ([38; 97; 109; 112; 59]%N ++ escape_text s))
      with (38%N :: decode_text (escape_text s)). now rewrite IH.
  - change (decode_text ([38; 110; 98; 115; 112; 59]%N ++ escape_text s))
      with (160%N :: decode_text (escape_text s)). now rewrite IH.
  - change (decode_text ([38; 108; 116; 59]%N ++ escape_text s))
      with (60%N :: decode_text (escape_text s)). now rewrite IH.
  - change (decode_text ([38; 103; 116; 59]%N ++ escape_text s))
      with (62%N :: decode_text (escape_text s)). now rewrite IH.
  - simpl app. rewrite decode_text_other by assumption. now rewrite IH.
Qed.

End PlatformFacts.

(* ================================================================== *)
(** * The dashboard *)
(* ================================================================== *)

Section Metrics.

(** The loop keeps the number of bars, whether it throws or not. *)
Lemma bars_forEach_length (m : jsval) (bs : list bar) :
  forall k, List.length (fst (bars_forEach m k bs)) = List.length bs.
Proof.
  induction bs as [|b0 bs IH]; intros k; [reflexivity|].
  cbn [bars_forEach]. destruct (render_bar m k b0) as [b0' [e|]]; [reflexivity|].
  specialize (IH (S k)). destruct (bars_forEach m (S k) bs) as [r' x].
  simpl in *. now rewrite IH.
Qed.

(** When no turn throws, the loop does not: every bar is rendered, each
    from its own position. *)
Lemma bars_forEach_total (m : jsval) (bs : list bar) :
  (forall i b, snd (render_bar m i b) = None) ->
  forall k, exists bs',
    bars_forEach m k bs = (bs', None) /\
    forall i b, nth_error bs i = Some b ->
      nth_error bs' i = Some (fst (render_bar m (k + i) b)).
Proof.
  intros Total. induction bs as [|b0 bs IH]; intros k.
  - exists []. split; [reflexivity|]. intros [|i] b H; discriminate H.
  - destruct (IH (S k)) as (bs' & E & Hnth).
    cbn [bars_forEach]. pose proof (Total k b0) as T.
    destruct (render_bar m k b0) as [b0' x] eqn:R. simpl in T. subst x.
    rewrite E. exists (b0' :: bs'). split; [reflexivity|].
    intros [|i] b H; simpl in H.
    + injection H as <-. rewrite Nat.add_0_r, R. reflexivity.
    + rewrite Nat.add_succ_r. exact (Hnth i b H).
Qed.

(** When the loop did not throw, every bar it leaves was rendered from
    the bar at its position. *)
Lemma bars_forEach_done (m : jsval) (bs : list bar) :
  forall k bs',
    bars_forEach m k bs = (bs', None) ->
    List.length bs' = List.length bs /\
    (forall i b, nth_error bs i = Some b ->
       render_bar m (k + i) b = (fst (render_bar m (k + i) b), None) /\
       nth_error bs' i = Some (fst (render_bar m (k + i) b))) /\
    (forall i b', nth_error bs' i = Some b' ->
       exists b, nth_error bs i = Some b /\ render_bar m (k + i) b = (b', None)).
Proof.
  induction bs as [|b0 bs IH]; intros k bs' H.
  - injection H as <-. split; [reflexivity|].
    split; intros [|i] b N; discriminate N.
  - cbn [bars_forEach] in H.
    destruct (render_bar m k b0) as [b0' [e|]] eqn:R; [discriminate H|].
    destruct (bars_forEach m (S k) bs) as [r' y] eqn:E.
    injection H as <- ->.
    destruct (IH (S k) r' E) as (L & Fwd & Back).
    split; [simpl; now rewrite L|]. split.
    + intros [|i] b N; simpl in N.
      * injection N as <-. rewrite Nat.add_0_r, R. auto.
      * rewrite Nat.add_succ_r. exact (Fwd i b N).
    + intros [|i] b' N; simpl in N.
      * injection N as <-. exists b0. rewrite Nat.add_0_r. auto.
      * destruct (Back i b' N) as (b & N' & R').
        exists b. rewrite Nat.add_succ_r. auto.
Qed.

(** A property of an object with numeric fields holds a number. *)
Lemma lookup_numeric (ps : list (jsstring * jsval)) (key : jsstring) (x : jsval) :
  numeric_fields ps -> lookup key ps = Some x -> exists n, x = JNum n.
Proof.
  induction 1 as [|[k v] ps Hv _ IH]; simpl; intros L; [discriminate L|].
  destruct (jsstring_eqb key k).
  - injection L as ->. simpl in Hv. destruct x; try discriminate Hv. eexists; reflexivity.
  - exact (IH L).
Qed.

(** One turn of the loop on a number that JavaScript takes for true. *)
Lemma render_bar_number (m : jsval) (i : nat) (key : jsstring) (b : bar) (v : number) :
  nth_error keys i = Some key ->
  get_prop m key = inr (JNum v) ->
  num_truthy v = true ->
  render_bar m i b =
    (mkBar (percent (Math_max (int 5) (Math_min (int 100) v)))
           (match tip b with Some _ => Some (percent v) | None => None end),
     None).
Proof.
  intros K G T. unfold render_bar. rewrite K, G.
  unfold or_else. cbn [truthy]. rewrite T. cbn [ToNumber ToString].
  destruct (tip b); reflexivity.
Qed.

(** One turn of the loop on a value that is absent, or that JavaScript
    takes for false. *)
Lemma render_bar_default (m : jsval) (i : nat) (key : jsstring) (b : bar) (x : jsval) :
  nth_error keys i = Some key ->
  get_prop m key = inr x ->
  truthy x = false ->
  render_bar m i b =
    (mkBar (js "50%") (match tip b with Some _ => Some (js "50%") | None => None end),
     None).
Proof.
  intros K G T. unfold render_bar. rewrite K, G.
  unfold or_else. rewrite T. cbn [ToNumber ToString].
  rewrite Math_clamp_50.
  replace (percent (int 50)) with (js "50%") by (vm_compute; reflexivity).
  replace (number_toString (int 50) ++ js "%") with (js "50%") by (vm_compute; reflexivity).
  destruct (tip b); reflexivity.
Qed.

(** One turn of the loop on an object with numeric fields, whatever the
    position: it does not throw, the height is between 5 and 100 percent,
    and the bar has a label exactly when it had one. *)
Lemma render_bar_numeric (ps : list (jsstring * jsval)) (i : nat) (b : bar) :
  numeric_fields ps ->
  snd (render_bar (JObj ps) i b) = None /\
  (exists h, (double 5 <= h <= double 100)%Qc /\
             style_height (fst (render_bar (JObj ps) i b)) = percent (Fin h)) /\
  (tip (fst (render_bar (JObj ps) i b)) = None <-> tip b = None).
Proof.
  intros Num. unfold render_bar. cbn [get_prop].
  set (key := match nth_error keys i with Some k => k | None => js "undefined" end).
  assert (V : exists n, or_else (match lookup key ps with Some x => x | None => JUndefined end)
                                (JNum (int 50)) = JNum n /\ num_truthy n = true).
  { destruct (lookup key ps) as [x|] eqn:L.
    - destruct (lookup_numeric key Num L) as (n & ->).
      unfold or_else. cbn [truthy]. destruct (num_truthy n) eqn:T.
      + exists n. auto.
      + exists (int 50). auto.
    - exists (int 50). auto. }
  destruct V as (n & -> & T). cbn [ToNumber ToString].
  assert (N : n <> NaN) by (intros ->; discriminate T).
  destruct (Math_clamp_range N) as (h & E & R). rewrite E.
  destruct (tip b) as [t|]; cbn [fst snd style_height tip].
  - split; [reflexivity|]. split; [exists h; auto|]. split; discriminate.
  - split; [reflexivity|]. split; [exists h; auto|]. split; reflexivity.
Qed.

(** One turn of the loop on a value that has a string never throws. *)
Lemma render_bar_convertible (m : jsval) (i : nat) (b : bar)
    (key : jsstring) (x : jsval) (s : jsstring) :
  match nth_error keys i with Some k => k | None => js "undefined" end = key ->
  get_prop m key = inr x ->
  ToString (or_else x (JNum (int 50))) = inr s ->
  snd (render_bar m i b) = None.
Proof.
  intros K G S. unfold render_bar. rewrite K, G.
  destruct (ToNumber (or_else x (JNum (int 50)))) as [e|n] eqn:N.
  - exfalso. revert N S. generalize (or_else x (JNum (int 50))). intros v N S.
    destruct v as [| |[|]|n|t|items|qs]; try discriminate N;
      unfold ToNumber in N; rewrite S in N; discriminate N.
  - rewrite S. destruct (tip b); reflexivity.
Qed.

Lemma updateMetricsUI_total (V : Type) (m : jsval) (w : world) :
  (forall i b, snd (render_bar m i b) = None) ->
  exists bs',
    updateMetricsUI V m w = Done (set_bars bs' w) tt /\
    List.length bs' = List.length (bars w) /\
    forall i b, nth_error (bars w) i = Some b ->
      nth_error bs' i = Some (fst (render_bar m i b)).
Proof.
  intros Total.
  destruct (bars_forEach_total m (bars w) Total 0) as (bs' & E & H).
  exists bs'. unfold updateMetricsUI. rewrite E. split; [reflexivity|].
  split; [|exact H].
  pose proof (bars_forEach_length m (bars w) 0) as L. rewrite E in L. exact L.
Qed.

(** A metrics object none of whose properties throws when it is
    converted. *)
Lemma lookup_convertible (ps : list (jsstring * jsval)) (key : jsstring) (x : jsval) :
  convertible_fields ps -> lookup key ps = Some x -> exists s, ToString x = inr s.
Proof.
  induction 1 as [|[k v] ps Hv _ IH]; simpl; intros L; [discriminate L|].
  destruct (jsstring_eqb key k).
  - injection L as ->. simpl in Hv. unfold convertible in Hv.
    destruct (ToString x) as [e|s]; [discriminate Hv|]. eexists; reflexivity.
  - exact (IH L).
Qed.

Lemma render_bar_object (ps : list (jsstring * jsval)) (i : nat) (b : bar) :
  convertible_fields ps -> snd (render_bar (JObj ps) i b) = None.
Proof.
  intros C.
  set (key := match nth_error keys i with Some k => k | None => js "undefined" end).
  destruct (lookup key ps) as [x|] eqn:L.
  - destruct (lookup_convertible key C L) as (s & S).
    assert (S' : exists s', ToString (or_else x (JNum (int 50))) = inr s').
    { unfold or_else. destruct (truthy x); eexists; [exact S | reflexivity]. }
    destruct S' as (s' & S').
    apply (@render_bar_convertible (JObj ps) i b key x s' eq_refl); [|exact S'].
    cbn [get_prop]. rewrite L. reflexivity.
  - apply (@render_bar_convertible (JObj ps) i b key JUndefined
             (number_toString (int 50)) eq_refl); [|reflexivity].
    cbn [get_prop]. rewrite L. reflexivity.
Qed.

Lemma double_nonzero (x : Q) : Qeq_bool x 0 = false -> double x <> double 0.
Proof.
  intros H E. apply (f_equal this) in E.
  change (Qred (Qred x) = Qred (Qred 0)) in E.
  assert (Q : (x == 0)%Q).
  { rewrite <- (Qred_correct x), <- (Qred_correct (Qred x)), E.
    rewrite !Qred_correct. reflexivity. }
  apply Qeq_bool_iff in Q. congruence.
Qed.

(** ** C2, as amended *)

(** C2 (amended).  For a metrics object none of whose values throws when
    converted (numbers never do), every chart key and the bar at its
    position: [updateMetricsUI] returns, and when the object holds a
    non-zero number under the key, the bar's height is that number
    clamped to [5, 100], printed and followed by [%], while the tooltip
    label, if the bar has one, is the number itself, not clamped, printed
    and followed by [%]; when the key is missing, both are [50%].  The
    non-zero numbers are the finite ones other than 0, whose height is
    [clamp(q, 5, 100)], and the two infinities, whose heights are [100%]
    and [5%]. *)
Theorem C2_height_clamped_label_unclamped
    (V : Type) (ps : list (jsstring * jsval)) (w : world)
    (i : nat) (key : jsstring) (b : bar) :
  convertible_fields ps ->
  nth_error keys i = Some key ->
  nth_error (bars w) i = Some b ->
  exists w',
    updateMetricsUI V (JObj ps) w = Done w' tt /\
    (forall q, lookup key ps = Some (JNum (Fin q)) -> q <> double 0 ->
       nth_error (bars w') i =
         Some (mkBar (number_toString (Fin (clamp q (double 5) (double 100))) ++ js "%")
                     (match tip b with
                      | Some _ => Some (number_toString (Fin q) ++ js "%")
                      | None => None
                      end))) /\
    (lookup key ps = Some (JNum PosInf) ->
       nth_error (bars w') i =
         Some (mkBar (js "100%")
                     (match tip b with Some _ => Some (js "Infinity%") | None => None end))) /\
    (lookup key ps = Some (JNum NegInf) ->
       nth_error (bars w') i =
         Some (mkBar (js "5%")
                     (match tip b with Some _ => Some (js "-Infinity%") | None => None end))) /\
    (lookup key ps = None ->
       nth_error (bars w') i =
         Some (mkBar (js "50%")
                     (match tip b with Some _ => Some (js "50%") | None => None end))).
Proof.
  intros C K B.
  destruct (@updateMetricsUI_total V (JObj ps) w (fun i b => render_bar_object i b C))
    as (bs' & E & _ & H).
  exists (set_bars bs' w). split; [exact E|]. cbn [bars set_bars]. rewrite (H i b B).
  repeat split.
  - intros q L Z.
    rewrite (@render_bar_number (JObj ps) i key b (Fin q) K);
      [|cbn [get_prop]; rewrite L; reflexivity | apply num_truthy_Fin; exact Z].
    cbn [fst]. rewrite Math_clamp_Fin. reflexivity.
  - intros L.
    rewrite (@render_bar_number (JObj ps) i key b PosInf K);
      [|cbn [get_prop]; rewrite L; reflexivity | reflexivity].
    cbn [fst]. destruct (tip b); vm_compute; reflexivity.
  - intros L.
    rewrite (@render_bar_number (JObj ps) i key b NegInf K);
      [|cbn [get_prop]; rewrite L; reflexivity | reflexivity].
    cbn [fst]. destruct (tip b); vm_compute; reflexivity.
  - intros L.
    rewrite (@render_bar_default (JObj ps) i key b JUndefined K);
      [reflexivity | cbn [get_prop]; rewrite L; reflexivity | reflexivity].
Qed.

Lemma C2_height_clamped_label_unclamped_witness :
  exists w',
    updateMetricsUI unit
      (JObj [(js "itse", JNum (int 3));
             (js "pozo", JNum (Fin (double 72.5)));
             (js "mant", JNum (int (10 ^ 21)))])
      four_bars = Done w' tt /\
    nth_error (bars w') 0 = Some (mkBar (js "5%") (Some (js "3%"))) /\
    nth_error (bars w') 1 = Some (mkBar (js "72.5%") (Some (js "72.5%"))) /\
    nth_error (bars w') 2 = Some (mkBar (js "100%") (Some (js "1e+21%"))) /\
    nth_error (bars w') 3 = Some (mkBar (js "50%") (Some (js "50%"))).
Proof.
  set (ps := [(js "itse", JNum (int 3));
              (js "pozo", JNum (Fin (double 72.5)));
              (js "mant", JNum (int (10 ^ 21)))]).
  assert (C : convertible_fields ps) by (repeat constructor).
  destruct (@C2_height_clamped_label_unclamped unit ps four_bars 0 (js "itse")
              (mkBar [] (Some [])) C eq_refl eq_refl) as (w' & E & F0 & _).
  destruct (@C2_height_clamped_label_unclamped unit ps four_bars 1 (js "pozo")
              (mkBar [] (Some [])) C eq_refl eq_refl) as (w1 & E1 & F1 & _).
  destruct (@C2_height_clamped_label_unclamped unit ps four_bars 2 (js "mant")
              (mkBar [] (Some [])) C eq_refl eq_refl) as (w2 & E2 & F2 & _).
  destruct (@C2_height_clamped_label_unclamped unit ps four_bars 3 (js "inc")
              (mkBar [] (Some [])) C eq_refl eq_refl) as (w3 & E3 & _ & _ & _ & F3).
  rewrite E in E1, E2, E3.
  injection E1 as <-. injection E2 as <-. injection E3 as <-.
  exists w'. split; [exact E|].
  split; [rewrite (F0 (double 3) eq_refl (@double_nonzero 3 eq_refl)); vm_compute; reflexivity|].
  split; [rewrite (F1 (double 72.5) eq_refl (@double_nonzero 72.5 eq_refl));
          vm_compute; reflexivity|].
  split; [rewrite (F2 (double (inject_Z (10 ^ 21))) eq_refl
                      (@double_nonzero (inject_Z (10 ^ 21)) eq_refl));
          vm_compute; reflexivity|].
  rewrite (F3 eq_refl). reflexivity.
Defined.

(** C2 as stated fails: a backend value of 150 gives the bar the height
    [100%], the clamped value, but the label [150%]. *)
Lemma C2_label_not_clamped :
  exists w',
    updateMetricsUI unit (JObj [(js "itse", JNum (int 150))]) four_bars = Done w' tt /\
    nth_error (bars w') 0 = Some (mkBar (js "100%") (Some (js "150%"))) /\
    percent (Fin (clamp (double 150) (double 5) (double 100))) = js "100%" /\
    js "150%" <> percent (Fin (clamp (double 150) (double 5) (double 100))).
Proof.
  eexists. split; [vm_compute; reflexivity|]. split; [vm_compute; reflexivity|].
  split; [vm_compute; reflexivity|]. vm_compute. discriminate.
Qed.

(** ** C10 *)

(** C10.  For every chart key the metrics object holds with a number that
    JavaScript takes for false (zero, [NaN]), [updateMetricsUI] renders
    the bar as for a missing key: height [50%], and label [50%] when the
    bar has one.  For zero that is not the clamped value, which would be
    5 percent. *)
Theorem C10_falsy_value_renders_default
    (V : Type) (ps : list (jsstring * jsval)) (w : world)
    (i : nat) (key : jsstring) (b : bar) (v : number) :
  convertible_fields ps ->
  nth_error keys i = Some key ->
  nth_error (bars w) i = Some b ->
  lookup key ps = Some (JNum v) ->
  num_truthy v = false ->
  (v = int 0 \/ v = NaN) /\
  exists w',
    updateMetricsUI V (JObj ps) w = Done w' tt /\
    nth_error (bars w') i =
      Some (mkBar (js "50%")
                  (match tip b with Some _ => Some (js "50%") | None => None end)) /\
    js "50%" <> percent (Fin (clamp (double 0) (double 5) (double 100))).
Proof.
  intros C K B L T. split; [apply num_falsy; exact T|].
  destruct (@updateMetricsUI_total V (JObj ps) w (fun i b => render_bar_object i b C))
    as (bs' & E & _ & H).
  exists (set_bars bs' w). split; [exact E|]. split.
  - cbn [bars set_bars]. rewrite (H i b B).
    rewrite (@render_bar_default (JObj ps) i key b (JNum v) K);
      [reflexivity | cbn [get_prop]; rewrite L; reflexivity | exact T].
  - vm_compute. discriminate.
Qed.

Lemma C10_falsy_value_renders_default_witness :
  (int 0 = int 0 \/ int 0 = NaN) /\
  exists w',
    updateMetricsUI unit (JObj [(js "itse", JNum (int 0))]) four_bars = Done w' tt /\
    nth_error (bars w') 0 = Some (mkBar (js "50%") (Some (js "50%"))) /\
    js "50%" <> percent (Fin (clamp (double 0) (double 5) (double 100))).
Proof.
  apply (@C10_falsy_value_renders_default unit [(js "itse", JNum (int 0))] four_bars 0
           (js "itse") (mkBar [] (Some [])) (int 0));
    try reflexivity.
  repeat constructor.
Defined.

End Metrics.
(* ================================================================== *)
(** * Running asynchronous functions *)
(* ================================================================== *)

Section Running.

Variable V : Type.
Variable net : request -> settled (response V).

Lemma run_bind {A B} (t : task V A) (f : A -> M V B) :
  run net (bind_task t f) =
    let '(rs, w', x) := run net t in
    match x with
    | inl e => (rs, w', inl e)
    | inr a => let '(rs2, w2, y) := run net (f a w') in (rs ++ rs2, w2, y)
    end.
Proof.
  induction t as [w a|w e|w r k IH]; simpl.
  - destruct (run net (f a w)) as [[rs2 w2] y]. reflexivity.
  - reflexivity.
  - rewrite IH. destruct (run net (k (net r) w)) as [[rs w'] [e|a]].
    + reflexivity.
    + destruct (run net (f a w')) as [[rs2 w2] y]. reflexivity.
Qed.

Lemma run_catch {A} (t : task V A) (h : exn -> M V A) :
  run net (catch_task t h) =
    let '(rs, w', x) := run net t in
    match x with
    | inl e => let '(rs2, w2, y) := run net (h e w') in (rs ++ rs2, w2, y)
    | inr a => (rs, w', inr a)
    end.
Proof.
  induction t as [w a|w e|w r k IH]; simpl.
  - reflexivity.
  - destruct (run net (h e w)) as [[rs2 w2] y]. reflexivity.
  - rewrite IH. destruct (run net (k (net r) w)) as [[rs w'] [e|a]].
    + destruct (run net (h e w')) as [[rs2 w2] y]. reflexivity.
    + reflexivity.
Qed.

Lemma run_finally {A} (t : task V A) (f : M V unit) :
  run net (finally_task t f) =
    let '(rs, w', x) := run net t in
    let '(rs2, w2, y) := run net (f w') in
    (rs ++ rs2, w2, match y with inl e => inl e | inr _ => x end).
Proof.
  induction t as [w a|w e|w r k IH]; simpl.
  - rewrite run_bind. destruct (run net (f w)) as [[rs2 w2] [e|[]]]; simpl;
      rewrite ?app_nil_r; reflexivity.
  - rewrite run_bind. destruct (run net (f w)) as [[rs2 w2] [e'|[]]]; simpl;
      rewrite ?app_nil_r; reflexivity.
  - rewrite IH. destruct (run net (k (net r) w)) as [[rs w'] x].
    destruct (run net (f w')) as [[rs2 w2] y]. reflexivity.
Qed.

Lemma resume_bind {A B} (t : task V A) (f : A -> M V B) p o w' :
  pending t = Some p ->
  resume (bind_task t f) o w' = bind_task (resume t o w') f.
Proof. destruct t; simpl; intros H; try discriminate H. reflexivity. Qed.

Lemma resume_catch {A} (t : task V A) (h : exn -> M V A) p o w' :
  pending t = Some p ->
  resume (catch_task t h) o w' = catch_task (resume t o w') h.
Proof. destruct t; simpl; intros H; try discriminate H. reflexivity. Qed.

Lemma resume_finally {A} (t : task V A) (f : M V unit) p o w' :
  pending t = Some p ->
  resume (finally_task t f) o w' = finally_task (resume t o w') f.
Proof. destruct t; simpl; intros H; try discriminate H. reflexivity. Qed.

Lemma pending_bind {A B} (t : task V A) (f : A -> M V B) p :
  pending t = Some p -> pending (bind_task t f) = Some p.
Proof. destruct t; simpl; intros H; try discriminate H. exact H. Qed.

Lemma pending_catch {A} (t : task V A) (h : exn -> M V A) p :
  pending t = Some p -> pending (catch_task t h) = Some p.
Proof. destruct t; simpl; intros H; try discriminate H. exact H. Qed.

Lemma pending_finally {A} (t : task V A) (f : M V unit) p :
  pending t = Some p -> pending (finally_task t f) = Some p.
Proof. destruct t; simpl; intros H; try discriminate H. exact H. Qed.

End Running.

(** ** What [fetchApi] does *)

Section FetchApi.

Variable V : Type.
Variable api : ApiService.

Lemma fetchApi_pending (endpoint : jsstring) (options : fetch_options) (w : world) :
  pending (fetchApi V api endpoint options w) =
    Some (w, fetchApi_request api endpoint options).
Proof. reflexivity. Qed.

(** Once [fetch] has settled, [fetchApi] is over: it returns, or it logs
    the error and throws it again. *)
Lemma fetchApi_resume (endpoint : jsstring) (options : fetch_options) (w : world)
    (o : settled (response V)) (w' : world) :
  resume (fetchApi V api endpoint options w) o w' =
    match fetchApi_outcome o with
    | inl e => Fail (console_error (js "Error en la petición:") e w') e
    | inr v => Done w' v
    end.
Proof.
  destruct o as [[st [|] ja j]|e]; simpl.
  - destruct (st =? 204)%Z; [reflexivity|]. destruct j; reflexivity.
  - destruct ja as [[| | | | | |ps]|e]; try reflexivity.
    simpl. destruct (lookup (js "message") ps) as [m|]; [|reflexivity].
    unfold thrown_Error.
    destruct (new_Error (or_else m (JStr default_error_message))); reflexivity.
  - reflexivity.
Qed.

Lemma run_fetchApi (net : request -> settled (response V))
    (endpoint : jsstring) (options : fetch_options) (w : world) :
  run net (fetchApi V api endpoint options w) =
    match fetchApi_outcome (net (fetchApi_request api endpoint options)) with
    | inl e =>
        ([fetchApi_request api endpoint options],
         console_error (js "Error en la petición:") e w, inl e)
    | inr v => ([fetchApi_request api endpoint options], w, inr v)
    end.
Proof.
  change (run net (fetchApi V api endpoint options w))
    with (let '(rs, w', x) :=
            run net (resume (fetchApi V api endpoint options w)
                       (net (fetchApi_request api endpoint options)) w)
          in (fetchApi_request api endpoint options :: rs, w', x)).
  rewrite fetchApi_resume.
  destruct (fetchApi_outcome _); reflexivity.
Qed.

End FetchApi.

(* ================================================================== *)
(** * The API client *)
(* ================================================================== *)

Section ApiClient.

Variable V : Type.
Variable api : ApiService.

(** On an error status whose body decodes to something that has
    properties, or does not decode at all, the error thrown is made from
    the body's [message] when that is truthy and from the default text
    otherwise. *)
Lemma fetchApi_error_status (endpoint : jsstring) (options : fetch_options) (w w' : world)
    (r : response V) :
  ok r = false ->
  (json_any r <> Resolved JNull /\ json_any r <> Resolved JUndefined) ->
  exists m,
    resume (fetchApi V api endpoint options w) (Resolved r) w' =
      Fail (console_error (js "Error en la petición:") (thrown_Error m) w')
           (thrown_Error m) /\
    (m = JStr default_error_message \/
     exists body, json_any r = Resolved body /\ get_prop body (js "message") = inr m /\
                  truthy m = true).
Proof.
  intros Hok [N1 N2]. rewrite fetchApi_resume. simpl. rewrite Hok. simpl.
  destruct (json_any r) as [[| | | | | |ps]|e] eqn:J; try congruence;
    try (exists (JStr default_error_message); split; [reflexivity | left; reflexivity]).
  destruct (lookup (js "message") ps) as [m|] eqn:L.
  - unfold or_else. destruct (truthy m) eqn:T.
    + exists m. split; [reflexivity|]. right. exists (JObj ps).
      simpl. rewrite L. auto.
    + exists (JStr default_error_message). split; [reflexivity | left; reflexivity].
  - exists (JStr default_error_message). split; [reflexivity | left; reflexivity].
Qed.

(** On 204 the result is [null], whatever decoding the body would give. *)
Lemma fetchApi_no_content (endpoint : jsstring) (options : fetch_options) (w w' : world)
    (r : response V) :
  ok r = true -> status r = 204%Z ->
  resume (fetchApi V api endpoint options w) (Resolved r) w' = Done w' None.
Proof.
  intros Hok Hst. rewrite fetchApi_resume. simpl. rewrite Hok, Hst. reflexivity.
Qed.

(** When [fetch] itself rejects, the rejection is logged and thrown on
    as it is. *)
Lemma fetchApi_network_failure (endpoint : jsstring) (options : fetch_options) (w w' : world)
    (e : exn) :
  resume (fetchApi V api endpoint options w) (Rejected e) w' =
    Fail (console_error (js "Error en la petición:") e w') e.
Proof. rewrite fetchApi_resume. reflexivity. Qed.

End ApiClient.

(** C7, at an error response whose body is the JSON text [null].
    [fetchApi] reads [message] from [null]: what it throws is the engine's
    [TypeError], whose message is neither a message of the server nor the
    default text. *)
Theorem C7_null_error_body :
  let r := mkResponse 500 false (Resolved JNull) (Resolved JNull) in
  well_formed r /\
  resume (fetchApi jsval local_api (js "/api/leads") no_options home_page)
         (Resolved r) home_page =
    Fail (console_error (js "Error en la petición:")
            (TypeError_read (js "null") (js "message")) home_page)
         (TypeError_read (js "null") (js "message")) /\
  exn_class (TypeError_read (js "null") (js "message")) = ClsTypeError /\
  message (TypeError_read (js "null") (js "message")) <> default_error_message.
Proof.
  cbv zeta. split; [reflexivity|]. split; [reflexivity|]. split; [reflexivity|].
  vm_compute. discriminate.
Qed.

(* ================================================================== *)
(** * Start-up *)
(* ================================================================== *)

Section Startup.

Variable api : ApiService.
Variable net : request -> settled (response jsval).

Lemma run_fetchApi_failure (endpoint : jsstring) (options : fetch_options)
    (w w1 : world) (rs : list request) (e : exn) :
  run net (fetchApi jsval api endpoint options w) = (rs, w1, inl e) ->
  rs = [fetchApi_request api endpoint options] /\
  w1 = console_error (js "Error en la petición:") e w.
Proof.
  rewrite run_fetchApi. destruct (fetchApi_outcome _) as [e'|v]; intros H.
  - injection H as <- <- <-. auto.
  - discriminate H.
Qed.

Lemma render_bar_fallback (i : nat) (b : bar) :
  render_bar fallback_metrics i b =
    (mkBar (nth i [js "80%"; js "65%"; js "90%"; js "50%"] (js "50%"))
           (match tip b with
            | Some _ => Some (nth i [js "80%"; js "65%"; js "90%"; js "50%"] (js "50%"))
            | None => None
            end),
     None).
Proof.
  destruct b as [h [t|]];
    do 4 (destruct i as [|i]; [vm_compute; reflexivity|]);
    destruct i; vm_compute; reflexivity.
Qed.

Lemma render_bar_fallback_total (i : nat) (b : bar) :
  snd (render_bar fallback_metrics i b) = None.
Proof. rewrite render_bar_fallback. reflexivity. Qed.

(** ** C6 *)

(** C6.  If the metrics call fails, [loadMetrics] ends without throwing;
    every bar is rendered from the fallback object: the heights and the
    labels of the first four bars are [80%], [65%], [90%] and [50%]
    ([50%] for any further bar); the failure leaves two [console.error]
    entries and nothing else: no notification, and the rest of the page
    is as it was. *)
Theorem C6_metrics_failure_renders_fallback
    (w w1 : world) (rs : list request) (e : exn) :
  run net (getMetrics jsval api w) = (rs, w1, inl e) ->
  exists w2,
    run net (loadMetrics api w) = (rs, w2, inr tt) /\
    List.length (bars w2) = List.length (bars w) /\
    (forall i b, nth_error (bars w) i = Some b ->
       nth_error (bars w2) i =
         Some (mkBar (nth i [js "80%"; js "65%"; js "90%"; js "50%"] (js "50%"))
                     (match tip b with
                      | Some _ =>
                          Some (nth i [js "80%"; js "65%"; js "90%"; js "50%"] (js "50%"))
                      | None => None
                      end))) /\
    console w2 =
      console w ++ [ConsoleError (js "Error en la petición:") e;
                    ConsoleError (js "Error al cargar métricas:") e] /\
    connection_status w2 = connection_status w /\
    contact w2 = contact w /\ chat w2 = chat w /\ chat_messages w2 = chat_messages w /\
    transcript_scrolls w2 = transcript_scrolls w.
Proof.
  intros H. pose proof H as H0. unfold getMetrics in H0.
  apply run_fetchApi_failure in H0. destruct H0 as [_ ->].
  unfold loadMetrics, try_catch, bind.
  rewrite run_catch, run_bind, H. cbn [bind_task effect].
  set (w1 := console_error (js "Error al cargar métricas:") e
               (console_error (js "Error en la petición:") e w)).
  destruct (@updateMetricsUI_total jsval fallback_metrics w1 render_bar_fallback_total)
    as (bs' & E & L & Hb).
  rewrite E. exists (set_bars bs' w1).
  split; [cbn [run]; rewrite app_nil_r; reflexivity|].
  split; [exact L|]. split.
  - intros i b B. cbn [bars set_bars]. rewrite (Hb i b B), render_bar_fallback. reflexivity.
  - simpl. rewrite <- app_assoc. auto 10.
Qed.

End Startup.

Lemma C6_metrics_failure_renders_fallback_witness :
  exists w2,
    run network_down (loadMetrics local_api home_page) =
      ([fetchApi_request local_api (js "/api/metrics") no_options], w2, inr tt) /\
    bars w2 =
      [mkBar (js "80%") (Some (js "80%")); mkBar (js "65%") (Some (js "65%"));
       mkBar (js "90%") (Some (js "90%")); mkBar (js "50%") (Some (js "50%"))] /\
    console w2 =
      [ConsoleError (js "Error en la petición:") failed_to_fetch;
       ConsoleError (js "Error al cargar métricas:") failed_to_fetch].
Proof.
  destruct (@C6_metrics_failure_renders_fallback local_api network_down home_page
              (console_error (js "Error en la petición:") failed_to_fetch home_page)
              [fetchApi_request local_api (js "/api/metrics") no_options]
              failed_to_fetch eq_refl)
    as (w2 & E & L & B & C & _).
  exists w2. split; [exact E|]. split; [|exact C].
  pose proof (B 0 _ eq_refl) as B0. pose proof (B 1 _ eq_refl) as B1.
  pose proof (B 2 _ eq_refl) as B2. pose proof (B 3 _ eq_refl) as B3.
  destruct (bars w2) as [|b0 [|b1 [|b2 [|b3 [|b4 r]]]]]; try discriminate L.
  cbn in B0, B1, B2, B3.
  injection B0 as ->. injection B1 as ->. injection B2 as ->. injection B3 as ->.
  reflexivity.
Defined.

Section StartupHealth.

Variable api : ApiService.
Variable net : request -> settled (response jsval).

(** ** C1, as amended *)

(** C1 (amended).  If the startup health check fails, [initializeApp]
    sets the connection status (when the page has the element) to
    Disconnected and surfaces the error notification; it ends there
    without throwing: the health request is the only one made, the bars
    are not rendered and no submit handler is bound to the contact form or
    to the chat form. *)
Theorem C1_health_failure_stops_startup
    (w w1 : world) (rs : list request) (e : exn) :
  run net (checkHealth jsval api w) = (rs, w1, inl e) ->
  exists w2,
    run net (initializeApp api w) =
      ([fetchApi_request api (HEALTH (endpoints api)) no_options], w2, inr tt) /\
    connection_status w2 =
      match connection_status w with
      | Some _ => Some (mkStatus (js "Sin conexión al servidor") (js "status-disconnected"))
      | None => None
      end /\
    console w2 =
      console w ++ [ConsoleError (js "Error en la petición:") e;
                    ConsoleError (js "No se pudo conectar al backend:") e;
                    ConsoleError (js "Error al inicializar la aplicación:") e;
                    notification msg_no_server (js "error")] /\
    bars w2 = bars w /\
    contact w2 = contact w /\ chat w2 = chat w /\ chat_messages w2 = chat_messages w.
Proof.
  intros H. pose proof H as H0. unfold checkHealth in H0.
  apply run_fetchApi_failure in H0. destruct H0 as [-> ->].
  unfold initializeApp, try_catch, bind, checkBackendConnection, try_catch, bind.
  rewrite run_catch, run_bind, run_catch, run_bind, H.
  cbn [bind_task effect updateConnectionStatus throw run showNotification app].
  eexists. split; [reflexivity|].
  destruct (connection_status w) eqn:S; simpl; rewrite ?S; simpl;
    repeat rewrite <- app_assoc; simpl; auto 10.
Qed.

(** With a healthy backend, start-up does reach the binding of the
    handlers. *)
Lemma startup_binds_handlers_when_healthy :
  let up := fun _ : request =>
    Resolved (mkResponse 200 true (Resolved (JObj [])) (Resolved fallback_metrics)) in
  exists w2 rs,
    run up (initializeApp local_api home_page) = (rs, w2, inr tt) /\
    option_map contact_listeners (contact w2) = Some 1 /\
    option_map chat_listeners (chat w2) = Some 1.
Proof. cbv zeta. eexists. eexists. split; [reflexivity|]. split; reflexivity. Qed.

End StartupHealth.

Lemma C1_health_failure_stops_startup_witness :
  exists w2,
    run network_down (initializeApp local_api home_page) =
      ([fetchApi_request local_api (HEALTH (endpoints local_api)) no_options], w2, inr tt) /\
    connection_status w2 =
      match connection_status home_page with
      | Some _ => Some (mkStatus (js "Sin conexión al servidor") (js "status-disconnected"))
      | None => None
      end /\
    console w2 =
      console home_page ++
        [ConsoleError (js "Error en la petición:") failed_to_fetch;
         ConsoleError (js "No se pudo conectar al backend:") failed_to_fetch;
         ConsoleError (js "Error al inicializar la aplicación:") failed_to_fetch;
         notification msg_no_server (js "error")] /\
    bars w2 = bars home_page /\
    contact w2 = contact home_page /\ chat w2 = chat home_page /\
    chat_messages w2 = chat_messages home_page.
Proof.
  apply (@C1_health_failure_stops_startup local_api network_down home_page
           (console_error (js "Error en la petición:") failed_to_fetch home_page)
           [fetchApi_request local_api (HEALTH (endpoints local_api)) no_options]
           failed_to_fetch).
  reflexivity.
Defined.

(** C1 as stated fails: with the network down the health check fails, and
    when [initializeApp] is over neither form has a submit handler. *)
Lemma C1_handlers_not_bound :
  snd (run network_down (checkHealth jsval local_api home_page)) = inl failed_to_fetch /\
  exists w2 rs,
    run network_down (initializeApp local_api home_page) = (rs, w2, inr tt) /\
    option_map contact_listeners (contact home_page) = Some 0 /\
    option_map chat_listeners (chat home_page) = Some 0 /\
    option_map contact_listeners (contact w2) = Some 0 /\
    option_map chat_listeners (chat w2) = Some 0.
Proof.
  split; [reflexivity|]. eexists. eexists.
  split; [reflexivity|]. repeat split; reflexivity.
Qed.

(* ================================================================== *)
(** * The chat *)
(* ================================================================== *)

Section Transcript.

Lemma messages_app (a b : list chat_node) : messages (a ++ b) = messages a ++ messages b.
Proof. apply filter_app. Qed.

Lemma typing_count_app (a b : list chat_node) :
  typing_count (a ++ b) = typing_count a + typing_count b.
Proof. unfold typing_count. now rewrite filter_app, length_app. Qed.

Lemma messages_remove_first_typing (ns : list chat_node) :
  messages (remove_first_typing ns) = messages ns.
Proof.
  induction ns as [|[s h t|] ns IH]; simpl; [reflexivity| |reflexivity].
  unfold messages in *. simpl. now rewrite IH.
Qed.

Lemma typing_count_remove_first_typing (ns : list chat_node) :
  typing_count (remove_first_typing ns) = pred (typing_count ns).
Proof.
  induction ns as [|[s h t|] ns IH]; simpl; [reflexivity| |reflexivity].
  unfold typing_count in *. simpl. exact IH.
Qed.

Lemma transcript_at_suspension (ns : list chat_node) (user : chat_node) :
  is_message user = true ->
  messages (ns ++ [user; TypingEl]) = messages ns ++ [user] /\
  typing_count (ns ++ [user; TypingEl]) = S (typing_count ns).
Proof.
  intros U. split.
  - rewrite messages_app. unfold messages at 2. simpl. rewrite U. reflexivity.
  - rewrite typing_count_app. unfold typing_count at 2. simpl. rewrite U. simpl. lia.
Qed.

Lemma appendMessage_transcript (V : Type) (text : jsval) (sender : jsstring)
    (w : world) (ns : list chat_node) (html : jsstring) :
  chat_messages w = Some ns ->
  escapeHtml text = inr html ->
  appendMessage V text sender w =
    Done (scroll_to_end
            (set_chat_messages (Some (ns ++ [MessageEl sender html (clock w)])) w)) tt.
Proof. intros H E. unfold appendMessage. rewrite H, E. reflexivity. Qed.

Lemma appendMessage_throws (V : Type) (text : jsval) (sender : jsstring)
    (w : world) (ns : list chat_node) (e : exn) :
  chat_messages w = Some ns ->
  escapeHtml text = inl e ->
  appendMessage V text sender w = Fail w e.
Proof. intros H E. unfold appendMessage. rewrite H, E. reflexivity. Qed.

Lemma hideTypingIndicator_transcript (V : Type) (w : world) (ns : list chat_node) :
  chat_messages w = Some ns ->
  hideTypingIndicator V w = Done (set_chat_messages (Some (remove_first_typing ns)) w) tt.
Proof. intros H. unfold hideTypingIndicator, effect. rewrite H. reflexivity. Qed.

Lemma escapeHtml_string (s : jsstring) : escapeHtml (JStr s) = inr (escape_text s).
Proof. reflexivity. Qed.

Lemma escapeHtml_chat_fallback :
  escapeHtml (JStr chat_fallback) =
    inr (js "Lo siento, ha ocurrido un error al procesar tu mensaje. Por favor, inténtalo de nuevo más tarde.").
Proof. vm_compute. reflexivity. Qed.

End Transcript.

Section Chat.

Variable api : ApiService.

(** ** C8 *)

(** C8.  When the text of the chat input trims to the empty string,
    [handleChatSubmit] returns at once and leaves the page exactly as it
    was: no transcript entry, the input not cleared; it is not suspended
    on the network and, run to its end, has made no request. *)
Theorem C8_blank_chat_input_is_noop (w : world) (form : chat_form) (value : jsstring) :
  chat w = Some form ->
  input_value form = Some value ->
  trim value = [] ->
  handleChatSubmit api w = Done w tt /\
  pending (handleChatSubmit api w) = None /\
  forall net, run net (handleChatSubmit api w) = ([], w, inr tt).
Proof.
  intros Hc Hi Ht.
  assert (E : handleChatSubmit api w = Done w tt).
  { unfold handleChatSubmit, bind, read. cbn [bind_task]. rewrite Hc, Hi, Ht. reflexivity. }
  rewrite E. repeat split; reflexivity.
Qed.

(** ** C9 *)

(** C9.  [appendMessage] is the one place that adds a message to the
    transcript.  The text it is given is first turned into a string
    ([null] and [undefined] into the empty one); the markup it inserts is
    the serialisation of that string as a text node: free of [<] and [>],
    and read back by the HTML parser as the string itself.  A text that
    has no string (the conversion throws) adds nothing: [appendMessage]
    throws and the page is as it was.  C3 shows that the user's text, the
    server's reply and the fallback all go through it. *)
Theorem C9_message_text_is_escaped
    (V : Type) (text : jsval) (sender : jsstring) (w : world) (ns : list chat_node) :
  chat_messages w = Some ns ->
  let string_of_text :=
    match text with JNull | JUndefined => inr [] | _ => ToString text end in
  (forall shown, string_of_text = inr shown ->
     appendMessage V text sender w =
       Done (scroll_to_end
               (set_chat_messages
                  (Some (ns ++ [MessageEl sender (escape_text shown) (clock w)])) w)) tt /\
     escapeHtml text = inr (escape_text shown) /\
     ~ In 60%N (escape_text shown) /\
     ~ In 62%N (escape_text shown) /\
     decode_text (escape_text shown) = shown) /\
  (forall e, string_of_text = inl e ->
     escapeHtml text = inl e /\
     appendMessage V text sender w = Fail w e).
Proof.
  intros Hm string_of_text.
  assert (E : escapeHtml text =
              match string_of_text with inl e => inl e | inr s => inr (escape_text s) end).
  { subst string_of_text. unfold escapeHtml.
    destruct text as [| |b|n|s|items|ps]; try reflexivity. }
  split.
  - intros shown S. rewrite S in E.
    split; [apply appendMessage_transcript; assumption|].
    split; [exact E|].
    destruct (escape_text_no_angle shown) as [N1 N2].
    repeat split; auto using decode_escape_text.
  - intros e S. rewrite S in E.
    split; [exact E | eapply appendMessage_throws; eassumption].
Qed.

(** ** C3 *)

(** C3.  For a chat input that does not trim to the empty string, on a
    page that has the transcript.  When [handleChatSubmit] is suspended on
    the chat request, the transcript has gained exactly the user's entry,
    with the trimmed text escaped, and shows one typing indicator more.
    However the request settles, and whatever the transcript [ns'] is by
    then, the handler ends without throwing and has added exactly one bot
    entry and taken a typing indicator away.  The bot entry carries the
    escaped reply when the call returned a value whose [reply] can be read
    and has a string; in every other case (the call failed, it returned
    [null], or the reply has no string) it carries the fixed apology. *)
Theorem C3_one_user_entry_then_one_bot_entry
    (w : world) (form : chat_form) (value : jsstring) (ns : list chat_node) :
  chat w = Some form ->
  input_value form = Some value ->
  trim value <> [] ->
  chat_messages w = Some ns ->
  let user := MessageEl (js "user") (escape_text (trim value)) (clock w) in
  let apology :=
    js "Lo siento, ha ocurrido un error al procesar tu mensaje. Por favor, inténtalo de nuevo más tarde." in
  exists w1,
    pending (handleChatSubmit api w) =
      Some (w1, fetchApi_request api (CHAT (endpoints api))
                  (mkOptions (Some (js "POST")) None
                     (Some (JObj [(js "message", JStr (trim value));
                                  (js "use_ai", JBool true)])))) /\
    chat_messages w1 = Some (ns ++ [user; TypingEl]) /\
    messages (ns ++ [user; TypingEl]) = messages ns ++ [user] /\
    typing_count (ns ++ [user; TypingEl]) = S (typing_count ns) /\
    forall o w' ns',
      chat_messages w' = Some ns' ->
      exists w2 ns2 bot_html,
        resume (handleChatSubmit api w) o w' = Done w2 tt /\
        chat_messages w2 = Some ns2 /\
        messages ns2 = messages ns' ++ [MessageEl (js "bot") bot_html (clock w')] /\
        typing_count ns2 <= pred (typing_count ns') /\
        (forall v reply html,
           fetchApi_outcome o = inr v ->
           get_prop (returned v) (js "reply") = inr reply ->
           escapeHtml reply = inr html ->
           bot_html = html /\ typing_count ns2 = pred (typing_count ns')) /\
        (forall e,
           fetchApi_outcome o = inl e ->
           bot_html = apology /\ typing_count ns2 = pred (typing_count ns')) /\
        (forall v e,
           fetchApi_outcome o = inr v ->
           get_prop (returned v) (js "reply") = inl e ->
           bot_html = apology) /\
        (forall v reply e,
           fetchApi_outcome o = inr v ->
           get_prop (returned v) (js "reply") = inr reply ->
           escapeHtml reply = inl e ->
           bot_html = apology).
Proof.
  intros Hc Hi Ht Hm user apology.
  unfold handleChatSubmit, bind, read. cbn [bind_task]. rewrite Hc, Hi.
  destruct (trim value) as [|c msg] eqn:T; [congruence|].
  rewrite (@appendMessage_transcript jsval (JStr (c :: msg)) (js "user") w ns
             (escape_text (c :: msg)) Hm eq_refl).
  cbn [bind_task effect showTypingIndicator try_catch catch_task].
  cbn [chat set_chat_messages scroll_to_end chat_messages set_chat]. rewrite Hc.
  cbn [chat set_chat_messages scroll_to_end chat_messages set_chat].
  rewrite <- app_assoc. cbn [app]. fold user.
  eexists. split; [reflexivity|]. split; [reflexivity|].
  destruct (@transcript_at_suspension ns user eq_refl) as [Ms Ts].
  split; [exact Ms|]. split; [exact Ts|].
  intros o w' ns' Hm'.
  erewrite resume_catch by reflexivity.
  erewrite resume_bind by reflexivity.
  unfold sendChatMessage. rewrite fetchApi_resume.
  (* the transcript after one removal, or two, and the bot's entry *)
  assert (One : forall bot, is_message bot = true ->
            messages (remove_first_typing ns' ++ [bot]) = messages ns' ++ [bot] /\
            typing_count (remove_first_typing ns' ++ [bot]) = pred (typing_count ns')).
  { intros bot B. split.
    - rewrite messages_app, messages_remove_first_typing.
      unfold messages at 2. simpl. rewrite B. reflexivity.
    - rewrite typing_count_app, typing_count_remove_first_typing.
      unfold typing_count at 2. simpl. rewrite B. simpl. lia. }
  assert (Two : forall bot, is_message bot = true ->
            messages (remove_first_typing (remove_first_typing ns') ++ [bot])
              = messages ns' ++ [bot] /\
            typing_count (remove_first_typing (remove_first_typing ns') ++ [bot])
              <= pred (typing_count ns')).
  { intros bot B. split.
    - rewrite messages_app, !messages_remove_first_typing.
      unfold messages at 2. simpl. rewrite B. reflexivity.
    - rewrite typing_count_app, !typing_count_remove_first_typing.
      unfold typing_count at 2. simpl. rewrite B. simpl. lia. }
  (* the end of the handler when the [try] block has thrown [e] after the
     indicator was hidden once *)
  assert (Caught : forall e,
            exists w2,
              catch_task (Fail (set_chat_messages (Some (remove_first_typing ns')) w') e)
                (fun error =>
                   effect (console_error (js "Error en el chat:") error) ;;
                   hideTypingIndicator jsval ;;
                   appendMessage jsval (JStr chat_fallback) (js "bot")) = Done w2 tt /\
              chat_messages w2 =
                Some (remove_first_typing (remove_first_typing ns') ++
                        [MessageEl (js "bot") apology (clock w')])).
  { intros e. unfold bind. cbn [catch_task bind_task effect].
    erewrite hideTypingIndicator_transcript by reflexivity.
    cbn [bind_task].
    erewrite appendMessage_transcript by (reflexivity || exact escapeHtml_chat_fallback).
    eexists. split; reflexivity. }
  destruct (fetchApi_outcome o) as [e|v] eqn:O.
  - (* the call failed *)
    cbn [bind_task catch_task effect bind].
    erewrite hideTypingIndicator_transcript by (cbn; exact Hm').
    cbn [bind_task].
    erewrite appendMessage_transcript by (reflexivity || exact escapeHtml_chat_fallback).
    eexists. eexists. exists apology.
    split; [reflexivity|]. split; [reflexivity|].
    destruct (One (MessageEl (js "bot") apology (clock w')) eq_refl) as [M C].
    split; [exact M|]. split; [exact (Nat.eq_le_incl _ _ C)|].
    split; [intros v reply html E; discriminate E|].
    split; [intros e' _; split; [reflexivity | exact C]|].
    split; [intros v e' E; discriminate E | intros v reply e' E; discriminate E].
  - (* the call returned *)
    cbn [bind_task catch_task bind].
    erewrite hideTypingIndicator_transcript by exact Hm'.
    cbn [bind_task].
    destruct (get_prop (returned v) (js "reply")) as [te|reply] eqn:G.
    + (* the reply cannot be read *)
      cbn [throw]. destruct (Caught te) as (w2 & R & M2).
      exists w2. eexists. exists apology.
      split; [exact R|]. split; [exact M2|].
      destruct (Two (MessageEl (js "bot") apology (clock w')) eq_refl) as [M C].
      split; [exact M|]. split; [exact C|].
      split; [intros v' reply html E G'; injection E as <-; congruence|].
      split; [intros e E; discriminate E|].
      split; [reflexivity | intros v' reply e' E G'; injection E as <-; congruence].
    + destruct (escapeHtml reply) as [te|html] eqn:H.
      * (* the reply has no string *)
        erewrite appendMessage_throws by (reflexivity || exact H).
        destruct (Caught te) as (w2 & R & M2).
        exists w2. eexists. exists apology.
        split; [exact R|]. split; [exact M2|].
        destruct (Two (MessageEl (js "bot") apology (clock w')) eq_refl) as [M C].
        split; [exact M|]. split; [exact C|].
        split; [intros v' reply' html E G' H'; injection E as <-; congruence|].
        split; [intros e E; discriminate E|].
        split; reflexivity.
      * erewrite appendMessage_transcript by (reflexivity || exact H).
        eexists. eexists. exists html.
        split; [reflexivity|]. split; [reflexivity|].
        destruct (One (MessageEl (js "bot") html (clock w')) eq_refl) as [M C].
        split; [exact M|]. split; [exact (Nat.eq_le_incl _ _ C)|].
        split; [intros v' reply' html' E G' H'; injection E as <-;
                split; [congruence | exact C]|].
        split; [intros e E; discriminate E|].
        split; [intros v' e E G'; injection E as <-; congruence
               | intros v' reply' e E G' H'; injection E as <-; congruence].
Qed.

End Chat.

Lemma C8_blank_chat_input_is_noop_witness :
  trim (js "   ") = [] /\
  handleChatSubmit local_api (with_chat_input (js "   ") home_page)
    = Done (with_chat_input (js "   ") home_page) tt.
Proof.
  split; [reflexivity|].
  apply (@C8_blank_chat_input_is_noop local_api (with_chat_input (js "   ") home_page)
           (mkChat (Some (js "   ")) 0) (js "   ")); reflexivity.
Defined.

Lemma C9_message_text_is_escaped_witness :
  escapeHtml (JStr (js "<script>alert(1)</script>"))
    = inr (js "&lt;script&gt;alert(1)&lt;/script&gt;") /\
  ~ In 60%N (js "&lt;script&gt;alert(1)&lt;/script&gt;") /\
  appendMessage unit (JObj [(js "toString", JNull)]) (js "bot") home_page
    = Fail home_page TypeError_convert.
Proof.
  destruct (@C9_message_text_is_escaped unit (JStr (js "<script>alert(1)</script>"))
              (js "bot") home_page [] eq_refl) as [Shown _].
  destruct (Shown (js "<script>alert(1)</script>") eq_refl) as (_ & E & N & _).
  destruct (@C9_message_text_is_escaped unit (JObj [(js "toString", JNull)])
              (js "bot") home_page [] eq_refl) as [_ Thrown].
  destruct (Thrown TypeError_convert eq_refl) as [_ F].
  split; [exact E|]. split; [exact N | exact F].
Defined.

Lemma C3_one_user_entry_then_one_bot_entry_witness :
  trim (js " <b>Hola</b> ") = js "<b>Hola</b>" /\
  exists w1 r,
    pending (handleChatSubmit local_api home_page) = Some (w1, r) /\
    chat_messages w1 =
      Some [MessageEl (js "user") (js "&lt;b&gt;Hola&lt;/b&gt;") (js "10:30"); TypingEl] /\
    (exists w2 ns2,
       resume (handleChatSubmit local_api home_page)
              (Resolved (mkResponse 200 true
                           (Resolved (JObj [(js "reply", JStr (js "Buenas"))]))
                           (Resolved (JObj [(js "reply", JStr (js "Buenas"))])))) w1
         = Done w2 tt /\
       chat_messages w2 = Some ns2 /\
       messages ns2 =
         [MessageEl (js "user") (js "&lt;b&gt;Hola&lt;/b&gt;") (js "10:30");
          MessageEl (js "bot") (js "Buenas") (clock w1)] /\
       typing_count ns2 = 0) /\
    (exists w2 ns2,
       resume (handleChatSubmit local_api home_page) (Rejected failed_to_fetch) w1
         = Done w2 tt /\
       chat_messages w2 = Some ns2 /\
       messages ns2 =
         [MessageEl (js "user") (js "&lt;b&gt;Hola&lt;/b&gt;") (js "10:30");
          MessageEl (js "bot")
            (js "Lo siento, ha ocurrido un error al procesar tu mensaje. Por favor, inténtalo de nuevo más tarde.")
            (clock w1)] /\
       typing_count ns2 = 0) /\
    (exists w2 ns2,
       resume (handleChatSubmit local_api home_page) (Resolved no_content) w1
         = Done w2 tt /\
       chat_messages w2 = Some ns2 /\
       messages ns2 =
         [MessageEl (js "user") (js "&lt;b&gt;Hola&lt;/b&gt;") (js "10:30");
          MessageEl (js "bot")
            (js "Lo siento, ha ocurrido un error al procesar tu mensaje. Por favor, inténtalo de nuevo más tarde.")
            (clock w1)] /\
       typing_count ns2 = 0).
Proof.
  split; [reflexivity|].
  destruct (@C3_one_user_entry_then_one_bot_entry local_api home_page
              (mkChat (Some (js " <b>Hola</b> ")) 0) (js " <b>Hola</b> ") [])
    as (w1 & P & T & _ & _ & After).
  - reflexivity.
  - reflexivity.
  - vm_compute. discriminate.
  - reflexivity.
  - exists w1. eexists. split; [exact P|]. split; [exact T|].
    split; [|split].
    + destruct (After (Resolved (mkResponse 200 true
                                   (Resolved (JObj [(js "reply", JStr (js "Buenas"))]))
                                   (Resolved (JObj [(js "reply", JStr (js "Buenas"))]))))
                      w1 _ T)
        as (w2 & ns2 & bot_html & R & M2 & Ms & _ & Ok & _).
      destruct (Ok (Some (JObj [(js "reply", JStr (js "Buenas"))])) (JStr (js "Buenas"))
                   (js "Buenas") eq_refl eq_refl eq_refl) as [B C].
      exists w2, ns2.
      split; [exact R|]. split; [exact M2|].
      split; [rewrite Ms, B; reflexivity | exact C].
    + destruct (After (Rejected failed_to_fetch) w1 _ T)
        as (w2 & ns2 & bot_html & R & M2 & Ms & _ & _ & Failed & _).
      destruct (Failed failed_to_fetch eq_refl) as [B C].
      exists w2, ns2.
      split; [exact R|]. split; [exact M2|].
      split; [rewrite Ms, B; reflexivity | exact C].
    + destruct (After (Resolved no_content) w1 _ T)
        as (w2 & ns2 & bot_html & R & M2 & Ms & Le & _ & _ & Unreadable & _).
      pose proof (Unreadable None (TypeError_read (js "null") (js "reply"))
                    eq_refl eq_refl) as B.
      exists w2, ns2.
      split; [exact R|]. split; [exact M2|].
      split; [rewrite Ms, B; reflexivity|].
      simpl in Le. apply Nat.le_0_r. exact Le.
Defined.

(* ================================================================== *)
(** * The contact form *)
(* ================================================================== *)

Section Contact.

Variable V : Type.
Variable api : ApiService.

Lemma contact_update_button (f : button -> button) (w : world) (c : contact_form) :
  contact w = Some c ->
  contact (update_button f w) =
    Some (mkContact (fields c) (option_map f (submit_button c)) (contact_listeners c)).
Proof. intros H. unfold update_button. rewrite H. reflexivity. Qed.

Lemma console_update_button (f : button -> button) (w : world) :
  console (update_button f w) = console w.
Proof. unfold update_button. destruct (contact w); reflexivity. Qed.

Lemma truthy_get_trimmed (form : contact_form) (name : jsstring) :
  truthy (get_trimmed (new_FormData form) name) = false <-> trimmed form name = [].
Proof.
  unfold get_trimmed, trimmed.
  destruct (FormData_get (new_FormData form) name) as [s|]; simpl.
  - destruct (trim s); split; congruence.
  - split; reflexivity.
Qed.

Lemma ToString_get_trimmed (form : contact_form) (name : jsstring) :
  truthy (get_trimmed (new_FormData form) name) = true ->
  ToString (get_trimmed (new_FormData form) name) = inr (trimmed form name).
Proof.
  unfold get_trimmed, trimmed.
  destruct (FormData_get (new_FormData form) name) as [s|]; simpl;
    [reflexivity | discriminate].
Qed.

Lemma message_or_default (m d : jsstring) :
  m <> [] -> match m with [] => d | c :: l => c :: l end = m.
Proof. destruct m; congruence. Qed.

(** The page when [handleContactSubmit] has turned the form down with the
    message [msg]: the one about the required fields when one of them is
    empty, the one about the address otherwise. *)
Lemma handleContactSubmit_rejected (w : world) (form : contact_form) (b : button) :
  contact w = Some form ->
  submit_button form = Some b ->
  rejected_by_validation form ->
  exists msg,
    (trimmed form (js "name") = [] \/ trimmed form (js "email") = [] \/
     trimmed form (js "phone") = [] -> msg = msg_required) /\
    (trimmed form (js "name") <> [] -> trimmed form (js "email") <> [] ->
     trimmed form (js "phone") <> [] -> msg = msg_email) /\
    handleContactSubmit V api w =
      Done (update_button (fun x => mkButton (disabled x) (button_textContent b))
             (update_button (fun x => mkButton false (button_textContent x))
               (console_push (notification msg (js "error"))
                 (console_error (js "Error al enviar el formulario:") (Error msg)
                   (update_button (fun x => mkButton (disabled x) busy_label)
                     (update_button (fun x => mkButton true (button_textContent x)) w))))))
           tt.
Proof.
  intros Hc Hb R.
  unfold handleContactSubmit, bind, read. cbn [bind_task]. rewrite Hc, Hb.
  unfold try_finally, try_catch, bind. cbn [bind_task effect catch_task finally_task].
  destruct (negb (truthy (get_trimmed (new_FormData form) (js "name")))
            || negb (truthy (get_trimmed (new_FormData form) (js "email")))
            || negb (truthy (get_trimmed (new_FormData form) (js "phone")))) eqn:Missing.
  - exists msg_required. split; [reflexivity|]. split.
    + intros Nn Ne Np. exfalso.
      apply orb_true_iff in Missing. destruct Missing as [Missing|H].
      * apply orb_true_iff in Missing. destruct Missing as [H|H];
          apply negb_true_iff, truthy_get_trimmed in H; contradiction.
      * apply negb_true_iff, truthy_get_trimmed in H; contradiction.
    + cbn [throw catch_task finally_task showNotification effect bind_task ret].
      cbn [message Error].
      rewrite message_or_default by (vm_compute; discriminate). reflexivity.
  - apply orb_false_iff in Missing. destruct Missing as [Missing Hphone].
    apply orb_false_iff in Missing. destruct Missing as [Hname Hemail].
    apply negb_false_iff in Hname, Hemail, Hphone.
    rewrite (ToString_get_trimmed _ _ Hemail). cbv beta iota.
    destruct R as [R|[R|[R|R]]];
      try (apply truthy_get_trimmed in R; congruence).
    rewrite R. exists msg_email. split.
    + intros [E|[E|E]]; apply truthy_get_trimmed in E; congruence.
    + split; [reflexivity|].
      cbn [negb throw catch_task finally_task showNotification effect bind_task ret].
      cbn [message Error].
      rewrite message_or_default by (vm_compute; discriminate). reflexivity.
Qed.

End Contact.

Section ContactSubmission.

Variable V : Type.
Variable api : ApiService.

Lemma contact_form_reset (w : world) (c : contact_form) :
  contact w = Some c ->
  contact (form_reset w) =
    Some (mkContact (map reset_field (fields c)) (submit_button c) (contact_listeners c)).
Proof. intros H. unfold form_reset. rewrite H. reflexivity. Qed.

Lemma console_form_reset (w : world) : console (form_reset w) = console w.
Proof. unfold form_reset. destruct (contact w); reflexivity. Qed.

(** A form that passes validation: the handler is suspended on the lead
    request with the button disabled, and resumes into the [try] block
    around [sendLead]. *)
Lemma handleContactSubmit_accepted (w : world) (form : contact_form) (b : button) :
  contact w = Some form ->
  submit_button form = Some b ->
  ~ rejected_by_validation form ->
  let w1 := update_button (fun x => mkButton (disabled x) busy_label)
              (update_button (fun x => mkButton true (button_textContent x)) w) in
  exists lead,
    pending (handleContactSubmit V api w) =
      Some (w1, fetchApi_request api (LEADS (endpoints api))
                  (mkOptions (Some (js "POST")) None (Some lead))) /\
    forall o w',
      resume (handleContactSubmit V api w) o w' =
        finally_task
          (catch_task
             (bind_task (resume (sendLead V api lead w1) o w')
                (fun _ => showNotification V msg_sent (js "success") ;; effect form_reset))
             (fun error =>
                effect (console_error (js "Error al enviar el formulario:") error) ;;
                showNotification V
                  (match message error with [] => msg_send_failed | m => m end)
                  (js "error")))
          (effect (update_button (fun x => mkButton false (button_textContent x))) ;;
           effect (update_button (fun x => mkButton (disabled x) (button_textContent b)))).
Proof.
  intros Hc Hb NR w1.
  unfold handleContactSubmit, bind, read. cbn [bind_task]. rewrite Hc, Hb.
  unfold try_finally, try_catch, bind. cbn [bind_task effect catch_task finally_task].
  fold w1.
  destruct (negb (truthy (get_trimmed (new_FormData form) (js "name")))
            || negb (truthy (get_trimmed (new_FormData form) (js "email")))
            || negb (truthy (get_trimmed (new_FormData form) (js "phone")))) eqn:Missing.
  { exfalso. apply NR. unfold rejected_by_validation.
    apply orb_true_iff in Missing. destruct Missing as [Missing|H].
    - apply orb_true_iff in Missing. destruct Missing as [H|H];
        apply negb_true_iff, truthy_get_trimmed in H; auto.
    - apply negb_true_iff, truthy_get_trimmed in H; auto. }
  apply orb_false_iff in Missing. destruct Missing as [Missing Hphone].
  apply orb_false_iff in Missing. destruct Missing as [Hname Hemail].
  apply negb_false_iff in Hname, Hemail, Hphone.
  rewrite (ToString_get_trimmed _ _ Hemail). cbv beta iota.
  destruct (RegExp_test emailRegex (trimmed form (js "email"))) eqn:Re.
  2:{ exfalso. apply NR. unfold rejected_by_validation. auto. }
  cbn [negb]. eexists. split.
  - erewrite pending_finally; [reflexivity|].
    erewrite pending_catch; [reflexivity|].
    erewrite pending_bind; [reflexivity|].
    apply fetchApi_pending.
  - intros o w'.
    erewrite resume_finally by
      (erewrite pending_catch; [reflexivity|];
       erewrite pending_bind; [reflexivity|]; apply fetchApi_pending).
    erewrite resume_catch by
      (erewrite pending_bind; [reflexivity|]; apply fetchApi_pending).
    erewrite resume_bind by apply fetchApi_pending.
    reflexivity.
Qed.

(** ** C4 *)

(** C4.  For every submission of a contact form (one that has its submit
    button) in which the trimmed name, email or phone is empty, or the
    trimmed email does not match the pattern, [handleContactSubmit] ends
    without ever being suspended on the network, so no lead is sent, and
    it has shown the validation message as an error notification: the
    console gains the error and the line [[ERROR]] followed by the
    message, which is the one about the required fields when one of them
    is empty and the one about the address otherwise. *)
Theorem C4_invalid_form_is_not_sent (w : world) (form : contact_form) (b : button) :
  contact w = Some form ->
  submit_button form = Some b ->
  rejected_by_validation form ->
  exists w' msg,
    handleContactSubmit V api w = Done w' tt /\
    pending (handleContactSubmit V api w) = None /\
    (forall net, run net (handleContactSubmit V api w) = ([], w', inr tt)) /\
    console w' =
      console w ++ [ConsoleError (js "Error al enviar el formulario:") (mkExn ClsError msg);
                    ConsoleLog (js "[ERROR] " ++ msg)] /\
    (trimmed form (js "name") = [] \/ trimmed form (js "email") = [] \/
     trimmed form (js "phone") = [] ->
     msg = js "Por favor complete todos los campos obligatorios") /\
    (trimmed form (js "name") <> [] -> trimmed form (js "email") <> [] ->
     trimmed form (js "phone") <> [] ->
     msg = js "Por favor ingrese un correo electrónico válido").
Proof.
  intros Hc Hb R.
  destruct (handleContactSubmit_rejected V api w Hc Hb R) as (msg & Hreq & Hmail & E).
  rewrite E. eexists. exists msg.
  split; [reflexivity|]. split; [reflexivity|]. split; [reflexivity|].
  rewrite msg_required_text in Hreq. rewrite msg_email_text in Hmail.
  split; [|split; [exact Hreq | exact Hmail]].
  rewrite !console_update_button. cbn [console console_push console_error].
  rewrite !console_update_button, notification_error. rewrite <- app_assoc. reflexivity.
Qed.

(** ** C5 *)

Lemma contact_restored (w : world) (c : contact_form) (b0 : button) (original : jsstring) :
  contact w = Some c ->
  submit_button c = Some b0 ->
  contact (update_button (fun x => mkButton (disabled x) original)
            (update_button (fun x => mkButton false (button_textContent x)) w)) =
    Some (mkContact (fields c) (Some (mkButton false original)) (contact_listeners c)).
Proof.
  intros Hc Hb.
  erewrite contact_update_button by (erewrite contact_update_button by exact Hc; reflexivity).
  cbn. rewrite Hb. reflexivity.
Qed.

(** C5.  For every submission of a contact form that has its submit
    button.  When validation turns the form down, the handler ends at once
    with the button enabled, its label as before, and the fields
    untouched.  Otherwise, while the handler is suspended on the lead
    request the button is disabled and reads [Enviando...]; however the
    request settles, and whatever the form holds by then, the handler ends
    with the button enabled and its label as it was at the start; when the
    call returned, every field holds its default value again and the
    success notification was shown; when it failed, the fields are
    untouched and an error notification was shown. *)
Theorem C5_button_restored_on_every_path (w : world) (form : contact_form) (b : button) :
  contact w = Some form ->
  submit_button form = Some b ->
  let restored := Some (mkButton false (button_textContent b)) in
  (rejected_by_validation form ->
     exists w',
       handleContactSubmit V api w = Done w' tt /\
       contact w' = Some (mkContact (fields form) restored (contact_listeners form)))
  /\
  (~ rejected_by_validation form ->
     exists w1 r,
       pending (handleContactSubmit V api w) = Some (w1, r) /\
       contact w1 =
         Some (mkContact (fields form) (Some (mkButton true (js "Enviando...")))
                         (contact_listeners form)) /\
       forall o w' form' b',
         contact w' = Some form' ->
         submit_button form' = Some b' ->
         exists w2,
           resume (handleContactSubmit V api w) o w' = Done w2 tt /\
           (forall v, fetchApi_outcome o = inr v ->
              contact w2 =
                Some (mkContact
                        (map (fun x => mkField (field_name x) (field_default x)
                                               (field_default x))
                             (fields form'))
                        restored (contact_listeners form')) /\
              console w2 =
                console w' ++ [ConsoleLog (js "[SUCCESS] ¡Mensaje enviado con éxito!")]) /\
           (forall e, fetchApi_outcome o = inl e ->
              contact w2 =
                Some (mkContact (fields form') restored (contact_listeners form')) /\
              console w2 =
                console w' ++
                  [ConsoleError (js "Error en la petición:") e;
                   ConsoleError (js "Error al enviar el formulario:") e;
                   ConsoleLog
                     (js "[ERROR] " ++
                      match message e with
                      | [] => js "Error al enviar el mensaje. Por favor, intente nuevamente."
                      | m => m
                      end)])).
Proof.
  intros Hc Hb restored.
  assert (H1 : contact (update_button (fun x => mkButton (disabled x) busy_label)
                 (update_button (fun x => mkButton true (button_textContent x)) w))
               = Some (mkContact (fields form) (Some (mkButton true busy_label))
                                 (contact_listeners form))).
  { erewrite contact_update_button by (erewrite contact_update_button by exact Hc; reflexivity).
    cbn. rewrite Hb. reflexivity. }
  split.
  - intros R.
    destruct (handleContactSubmit_rejected V api w Hc Hb R) as (msg & _ & _ & E).
    rewrite E. eexists. split; [reflexivity|].
    rewrite contact_restored
      with (c := mkContact (fields form) (Some (mkButton true busy_label))
                           (contact_listeners form))
           (b0 := mkButton true busy_label);
      [reflexivity | cbn [contact console_push console_error]; exact H1 | reflexivity].
  - intros NR.
    destruct (handleContactSubmit_accepted w Hc Hb NR) as (lead & P & Res).
    eexists. eexists. split; [exact P|].
    split; [rewrite <- busy_label_text; exact H1|].
    intros o w' form' b' Hc' Hb'. rewrite Res. unfold sendLead. rewrite fetchApi_resume.
    destruct (fetchApi_outcome o) as [e|v] eqn:O.
    + eexists. split; [reflexivity|]. split; [intros v E; discriminate E|].
      intros e' E. injection E as <-. split.
      * rewrite contact_restored with (c := form') (b0 := b');
          [reflexivity | cbn [contact console_push console_error]; exact Hc' | exact Hb'].
      * rewrite !console_update_button. cbn [console console_push console_error].
        rewrite notification_error, msg_send_failed_text.
        repeat rewrite <- app_assoc. reflexivity.
    + eexists. split; [reflexivity|]. split; [|intros e E; discriminate E].
      intros v' _. split.
      * rewrite contact_restored
          with (c := mkContact (map reset_field (fields form')) (submit_button form')
                               (contact_listeners form'))
               (b0 := b');
          [reflexivity
          | erewrite contact_form_reset by (cbn [contact console_push]; exact Hc');
            reflexivity
          | exact Hb'].
      * rewrite !console_update_button, console_form_reset.
        cbn [console console_push]. rewrite notification_success, success_line.
        reflexivity.
Qed.

End ContactSubmission.

Lemma C4_invalid_form_is_not_sent_witness :
  RegExp_test emailRegex (js "ana@example") = false /\
  exists w',
    handleContactSubmit unit local_api
      (page_with_form (js "Ana") (js " ana@example ") (js "999")) = Done w' tt /\
    console w' =
      [ConsoleError (js "Error al enviar el formulario:")
         (mkExn ClsError (js "Por favor ingrese un correo electrónico válido"));
       ConsoleLog (js "[ERROR] Por favor ingrese un correo electrónico válido")].
Proof.
  split; [vm_compute; reflexivity|].
  destruct (@C4_invalid_form_is_not_sent unit local_api
              (page_with_form (js "Ana") (js " ana@example ") (js "999"))
              (mkContact
                 [mkField (js "name") (js "Ana") [];
                  mkField (js "email") (js " ana@example ") [];
                  mkField (js "phone") (js "999") []]
                 (Some (mkButton false (js "Enviar"))) 1)
              (mkButton false (js "Enviar")))
    as (w' & msg & E & _ & _ & C & _ & M).
  - reflexivity.
  - reflexivity.
  - right. right. right. vm_compute. reflexivity.
  - exists w'. split; [exact E|]. rewrite C.
    rewrite M; [vm_compute; reflexivity | | |]; vm_compute; discriminate.
Defined.

Lemma C5_button_restored_on_every_path_witness :
  exists w1 r,
    pending (handleContactSubmit unit local_api
               (page_with_form (js "Ana") (js "ana@example.com") (js "999")))
      = Some (w1, r) /\
    option_map submit_button (contact w1) =
      Some (Some (mkButton true (js "Enviando..."))) /\
    (exists w2,
       resume (handleContactSubmit unit local_api
                 (page_with_form (js "Ana") (js "ana@example.com") (js "999")))
              (Resolved (mkResponse 201 true (Resolved (JObj [])) (Resolved tt))) w1
         = Done w2 tt /\
       option_map submit_button (contact w2) = Some (Some (mkButton false (js "Enviar"))) /\
       option_map fields (contact w2) =
         Some [mkField (js "name") [] [];
               mkField (js "email") [] [];
               mkField (js "phone") [] []] /\
       console w2 = [ConsoleLog (js "[SUCCESS] ¡Mensaje enviado con éxito!")]) /\
    (exists w2,
       resume (handleContactSubmit unit local_api
                 (page_with_form (js "Ana") (js "ana@example.com") (js "999")))
              (Rejected failed_to_fetch) w1 = Done w2 tt /\
       option_map submit_button (contact w2) = Some (Some (mkButton false (js "Enviar"))) /\
       option_map fields (contact w2) =
         Some [mkField (js "name") (js "Ana") [];
               mkField (js "email") (js "ana@example.com") [];
               mkField (js "phone") (js "999") []] /\
       console w2 =
         [ConsoleError (js "Error en la petición:") failed_to_fetch;
          ConsoleError (js "Error al enviar el formulario:") failed_to_fetch;
          ConsoleLog (js "[ERROR] Failed to fetch")]).
Proof.
  destruct (@C5_button_restored_on_every_path unit local_api
              (page_with_form (js "Ana") (js "ana@example.com") (js "999"))
              (mkContact
                 [mkField (js "name") (js "Ana") [];
                  mkField (js "email") (js "ana@example.com") [];
                  mkField (js "phone") (js "999") []]
                 (Some (mkButton false (js "Enviar"))) 1)
              (mkButton false (js "Enviar")))
    as [_ Accepted].
  - reflexivity.
  - reflexivity.
  - destruct Accepted as (w1 & r & P & C & After).
    + intros [H|[H|[H|H]]]; vm_compute in H; discriminate H.
    + assert (K : console w1 = []).
      { vm_compute in P. injection P as <- _. reflexivity. }
      exists w1, r. split; [exact P|]. split; [rewrite C; reflexivity|]. split.
      * destruct (After (Resolved (mkResponse 201 true (Resolved (JObj [])) (Resolved tt)))
                        w1 _ (mkButton true (js "Enviando...")) C eq_refl)
          as (w2 & R & Returned & _).
        destruct (Returned (Some tt) eq_refl) as [C2 K2].
        exists w2. split; [exact R|]. rewrite C2, K2, K. repeat split.
      * destruct (After (Rejected failed_to_fetch) w1 _ (mkButton true (js "Enviando..."))
                        C eq_refl)
          as (w2 & R & _ & Failed).
        destruct (Failed failed_to_fetch eq_refl) as [C2 K2].
        exists w2. split; [exact R|]. rewrite C2, K2, K. repeat split.
Defined.

(* ================================================================== *)
(** * More on the API client *)
(* ================================================================== *)

Section ApiClientMore.

Variable V : Type.
Variable api : ApiService.

Lemma same_but_console_refl (w : world) : same_but_console w w.
Proof. repeat split. Qed.

Lemma same_but_console_push (e : console_entry) (w w' : world) :
  same_but_console w w' -> same_but_console w (console_push e w').
Proof. intros H. exact H. Qed.

(** X1.  Whatever the network answers, one call of [fetchApi] makes exactly
    one request, the one for its endpoint and options: there is no retry.
    It changes nothing on the page but the console, to which it adds one
    [console.error] entry, holding the error, exactly when it throws. *)
Theorem X1_fetchApi_one_request_logs_iff_throws
    (net : request -> settled (response V))
    (endpoint : jsstring) (options : fetch_options) (w : world) :
  exists w' x,
    run net (fetchApi V api endpoint options w) =
      ([fetchApi_request api endpoint options], w', x) /\
    same_but_console w w' /\
    match x with
    | inl e => console w' = console w ++ [ConsoleError (js "Error en la petición:") e]
    | inr _ => console w' = console w
    end.
Proof.
  rewrite run_fetchApi.
  destruct (fetchApi_outcome (net (fetchApi_request api endpoint options))) as [e|v].
  - eexists. exists (inl e). split; [reflexivity|]. split; [|reflexivity].
    apply same_but_console_push, same_but_console_refl.
  - exists w, (inr v). split; [reflexivity|]. split; [apply same_but_console_refl | reflexivity].
Qed.

(** X2.  On an error status, when the body decodes to an object whose
    [message] is a non-empty string, [fetchApi] throws an [Error] with
    exactly that message; when the body does not decode, or decodes to an
    object that has no [message] or an empty one, the message is the
    default text. *)
Theorem X2_fetchApi_error_message
    (endpoint : jsstring) (options : fetch_options) (w w' : world) (r : response V) :
  ok r = false ->
  (forall ps s,
     json_any r = Resolved (JObj ps) -> lookup (js "message") ps = Some (JStr s) -> s <> [] ->
     resume (fetchApi V api endpoint options w) (Resolved r) w' =
       Fail (console_error (js "Error en la petición:") (mkExn ClsError s) w')
            (mkExn ClsError s)) /\
  ((exists e, json_any r = Rejected e) \/
   (exists ps, json_any r = Resolved (JObj ps) /\
               (lookup (js "message") ps = None \/
                lookup (js "message") ps = Some (JStr []))) ->
   resume (fetchApi V api endpoint options w) (Resolved r) w' =
     Fail (console_error (js "Error en la petición:")
             (mkExn ClsError default_error_message) w')
          (mkExn ClsError default_error_message)).
Proof.
  intros Hok. split.
  - intros ps s J L Ne. rewrite fetchApi_resume. simpl. rewrite Hok, J, L. simpl.
    destruct s as [|c s]; [congruence|]. reflexivity.
  - intros [[e J]|(ps & J & [L|L])]; rewrite fetchApi_resume; simpl;
      rewrite Hok, J; simpl; rewrite ?L; reflexivity.
Qed.

(** X3.  The default [Content-Type: application/json] header is sent only
    when the caller's options carry no [headers] of their own: such
    headers replace the default ones, they are not merged with them.  The
    four API methods pass none, so each of their requests carries exactly
    the default header. *)
Theorem X3_own_headers_replace_the_default
    (endpoint : jsstring) (options : fetch_options) (w : world) :
  (forall h, opt_headers options = Some h ->
     exists r, pending (fetchApi V api endpoint options w) = Some (w, r) /\ headers r = h) /\
  (forall (message : jsstring) (useAi : bool) (lead : jsval) t,
     In t [checkHealth V api w; getMetrics V api w;
           sendChatMessage V api message useAi w; sendLead V api lead w] ->
     exists r, pending t = Some (w, r) /\
               headers r = [(js "Content-Type", js "application/json")]).
Proof.
  split.
  - intros h H. eexists. split; [apply fetchApi_pending|]. simpl. rewrite H. reflexivity.
  - intros message useAi lead t [<-|[<-|[<-|[<-|[]]]]];
      (eexists; split; [apply fetchApi_pending | reflexivity]).
Qed.

End ApiClientMore.

Lemma X2_fetchApi_error_message_witness :
  resume (fetchApi unit local_api (js "/api/leads") no_options home_page)
         (Resolved (mkResponse 422 false
                      (Resolved (JObj [(js "message", JStr (js "Correo duplicado"))]))
                      (Resolved tt)))
         home_page =
    Fail (console_error (js "Error en la petición:")
            (mkExn ClsError (js "Correo duplicado")) home_page)
         (mkExn ClsError (js "Correo duplicado")).
Proof.
  destruct (@X2_fetchApi_error_message unit local_api (js "/api/leads") no_options
              home_page home_page
              (mkResponse 422 false
                 (Resolved (JObj [(js "message", JStr (js "Correo duplicado"))]))
                 (Resolved tt)) eq_refl) as [Named _].
  apply (Named [(js "message", JStr (js "Correo duplicado"))] (js "Correo duplicado"));
    [reflexivity | reflexivity | vm_compute; discriminate].
Defined.

Lemma X3_own_headers_replace_the_default_witness :
  exists r,
    pending (fetchApi unit local_api (js "/api/leads")
               (mkOptions (Some (js "POST")) (Some [(js "X-Trace", js "1")]) None)
               home_page) = Some (home_page, r) /\
    headers r = [(js "X-Trace", js "1")].
Proof.
  destruct (@X3_own_headers_replace_the_default unit local_api (js "/api/leads")
              (mkOptions (Some (js "POST")) (Some [(js "X-Trace", js "1")]) None)
              home_page) as [Own _].
  apply Own. reflexivity.
Defined.

(* ================================================================== *)
(** * More on the dashboard *)
(* ================================================================== *)

Section MetricsMore.

(** Rendering a bar that was just rendered from the same metrics gives the
    same bar. *)
Lemma render_bar_again (m : jsval) (i : nat) (b b' : bar) :
  render_bar m i b = (b', None) -> render_bar m i b' = (b', None).
Proof.
  unfold render_bar.
  destruct (get_prop m _) as [e|x]; [discriminate|].
  destruct (ToNumber (or_else x (JNum (int 50)))) as [e|n]; [discriminate|].
  destruct (tip b) as [t|].
  - destruct (ToString (or_else x (JNum (int 50)))) as [e|s]; [discriminate|].
    intros H. injection H as <-. reflexivity.
  - intros H. injection H as <-. reflexivity.
Qed.

Lemma bars_forEach_again (m : jsval) (bs : list bar) :
  forall k bs',
    bars_forEach m k bs = (bs', None) ->
    bars_forEach m k bs' = (bs', None).
Proof.
  induction bs as [|b0 bs IH]; intros k bs' H.
  - injection H as <-. reflexivity.
  - cbn [bars_forEach] in H.
    destruct (render_bar m k b0) as [b0' [e|]] eqn:R; [discriminate H|].
    destruct (bars_forEach m (S k) bs) as [r' y] eqn:E.
    injection H as <- ->.
    cbn [bars_forEach]. rewrite (@render_bar_again m k b0 b0' R), (IH _ _ E). reflexivity.
Qed.

(** X4.  Whatever numbers the properties of the metrics object hold,
    [updateMetricsUI] does not throw, keeps the number of bars, and leaves
    every bar with a height that is a number between 5 and 100, printed
    and followed by [%]; nothing but the bars changes. *)
Theorem X4_heights_stay_within_bounds
    (V : Type) (ps : list (jsstring * jsval)) (w : world) :
  numeric_fields ps ->
  exists w',
    updateMetricsUI V (JObj ps) w = Done w' tt /\
    List.length (bars w') = List.length (bars w) /\
    (forall i b', nth_error (bars w') i = Some b' ->
       exists h, (double 5 <= h <= double 100)%Qc /\
                 style_height b' = number_toString (Fin h) ++ js "%") /\
    connection_status w' = connection_status w /\
    contact w' = contact w /\ chat w' = chat w /\
    chat_messages w' = chat_messages w /\
    transcript_scrolls w' = transcript_scrolls w /\
    console w' = console w.
Proof.
  intros Num.
  destruct (@updateMetricsUI_total V (JObj ps) w
              (fun i b => proj1 (render_bar_numeric i b Num)))
    as (bs' & E & L & H).
  exists (set_bars bs' w). split; [exact E|]. split; [exact L|].
  split; [|repeat split].
  intros i b' N. cbn [bars set_bars] in N.
  destruct (nth_error (bars w) i) as [b|] eqn:B.
  - rewrite (H i b B) in N. injection N as <-.
    destruct (render_bar_numeric i b Num) as (_ & R & _). exact R.
  - apply nth_error_None in B. rewrite <- L in B. apply nth_error_None in B. congruence.
Qed.

(** X5.  Rendering the same metrics a second time changes nothing: the
    page after the first call is the page after the second. *)
Theorem X5_rendering_twice_is_rendering_once (V : Type) (m : jsval) (w w1 : world) :
  updateMetricsUI V m w = Done w1 tt ->
  updateMetricsUI V m w1 = Done w1 tt.
Proof.
  unfold updateMetricsUI.
  destruct (bars_forEach m 0 (bars w)) as [bs' [e|]] eqn:E; [discriminate|].
  intros H. injection H as <-. cbn [bars set_bars].
  rewrite (@bars_forEach_again m (bars w) 0 bs' E). reflexivity.
Qed.

End MetricsMore.

Lemma X4_heights_stay_within_bounds_witness :
  exists w',
    updateMetricsUI unit
      (JObj [(js "itse", JNum (int 150));
             (js "pozo", JNum (int (-7)));
             (js "mant", JNum (Fin (double 72.5)))])
      four_bars = Done w' tt /\
    List.length (bars w') = 4 /\
    (forall i b', nth_error (bars w') i = Some b' ->
       exists h, (double 5 <= h <= double 100)%Qc /\
                 style_height b' = number_toString (Fin h) ++ js "%") /\
    map style_height (bars w') = [js "100%"; js "5%"; js "72.5%"; js "50%"].
Proof.
  destruct (@X4_heights_stay_within_bounds unit
              [(js "itse", JNum (int 150));
               (js "pozo", JNum (int (-7)));
               (js "mant", JNum (Fin (double 72.5)))] four_bars)
    as (w' & E & L & R & _).
  - repeat constructor.
  - exists w'. split; [exact E|]. split; [exact L|]. split; [exact R|].
    vm_compute in E. injection E as <-. reflexivity.
Defined.

Lemma X5_rendering_twice_is_rendering_once_witness :
  updateMetricsUI unit fallback_metrics
    (set_bars [mkBar (js "80%") (Some (js "80%")); mkBar (js "65%") None] four_bars)
  = Done (set_bars [mkBar (js "80%") (Some (js "80%")); mkBar (js "65%") None] four_bars) tt.
Proof.
  apply (@X5_rendering_twice_is_rendering_once unit fallback_metrics
           (set_bars [mkBar [] (Some []); mkBar [] None] four_bars)).
  vm_compute. reflexivity.
Defined.

(* ================================================================== *)
(** * More on start-up *)
(* ================================================================== *)

Section StartupMore.

Variable api : ApiService.
Variable net : request -> settled (response jsval).

(** Whatever it is given, [updateMetricsUI] returns or throws with the
    chart holding as many bars as before and the rest of the page
    untouched. *)
Lemma updateMetricsUI_outcome (V : Type) (m : jsval) (w : world) :
  exists bs',
    List.length bs' = List.length (bars w) /\
    (updateMetricsUI V m w = Done (set_bars bs' w) tt \/
     exists e, updateMetricsUI V m w = Fail (set_bars bs' w) e).
Proof.
  unfold updateMetricsUI.
  pose proof (bars_forEach_length m (bars w) 0) as L.
  destruct (bars_forEach m 0 (bars w)) as [bs' [e|]]; exists bs';
    (split; [exact L|]); [right; exists e; reflexivity | left; reflexivity].
Qed.

Lemma updateMetricsUI_fallback (V : Type) (w : world) :
  exists bs',
    updateMetricsUI V fallback_metrics w = Done (set_bars bs' w) tt /\
    List.length bs' = List.length (bars w) /\
    forall i b, nth_error (bars w) i = Some b ->
      nth_error bs' i =
        Some (mkBar (nth i [js "80%"; js "65%"; js "90%"; js "50%"] (js "50%"))
                    (match tip b with
                     | Some _ =>
                         Some (nth i [js "80%"; js "65%"; js "90%"; js "50%"] (js "50%"))
                     | None => None
                     end)).
Proof.
  destruct (@updateMetricsUI_total V fallback_metrics w render_bar_fallback_total)
    as (bs' & E & L & H).
  exists bs'. split; [exact E|]. split; [exact L|].
  intros i b B. rewrite (H i b B), render_bar_fallback. reflexivity.
Qed.

(** Without a metrics object the loop throws at the first bar, before it
    has changed anything; without bars it has nothing to do. *)
Lemma updateMetricsUI_null (V : Type) (w : world) :
  updateMetricsUI V JNull w =
    match bars w with
    | [] => Done (set_bars [] w) tt
    | b :: r => Fail (set_bars (b :: r) w) (TypeError_read (js "null") (js "itse"))
    end.
Proof. unfold updateMetricsUI. destruct (bars w); reflexivity. Qed.

(** [loadMetrics] against any network. *)
Lemma loadMetrics_always (w : world) :
  exists w2 errs,
    run net (loadMetrics api w) =
      ([fetchApi_request api (METRICS (endpoints api)) no_options], w2, inr tt) /\
    console w2 = console w ++ errs /\
    forallb is_console_error errs = true /\
    connection_status w2 = connection_status w /\
    contact w2 = contact w /\ chat w2 = chat w /\
    chat_messages w2 = chat_messages w /\
    transcript_scrolls w2 = transcript_scrolls w /\
    clock w2 = clock w /\
    List.length (bars w2) = List.length (bars w).
Proof.
  unfold loadMetrics, try_catch, bind. rewrite run_catch, run_bind.
  unfold getMetrics. rewrite run_fetchApi.
  destruct (fetchApi_outcome _) as [e|v].
  - (* the call failed *)
    cbn [bind_task effect].
    destruct (updateMetricsUI_fallback jsval
                (console_error (js "Error al cargar métricas:") e
                   (console_error (js "Error en la petición:") e w)))
      as (bs' & E & L & _).
    rewrite E. cbn [run].
    eexists. exists [ConsoleError (js "Error en la petición:") e;
                     ConsoleError (js "Error al cargar métricas:") e].
    split; [reflexivity|].
    split; [cbn; rewrite <- app_assoc; reflexivity|].
    repeat split; exact L.
  - (* the call returned *)
    destruct (updateMetricsUI_outcome jsval (returned v) w) as (bs1 & L1 & [E|[e E]]);
      rewrite E.
    + cbn [run].
      eexists. exists []. split; [reflexivity|].
      split; [cbn; rewrite app_nil_r; reflexivity|].
      repeat split; exact L1.
    + cbn [run bind_task effect].
      destruct (updateMetricsUI_fallback jsval
                  (console_error (js "Error al cargar métricas:") e (set_bars bs1 w)))
        as (bs' & E' & L & _).
      rewrite E'. cbn [run].
      eexists. exists [ConsoleError (js "Error al cargar métricas:") e].
      split; [reflexivity|]. split; [reflexivity|].
      repeat split; try reflexivity.
      cbn [bars set_bars console_error console_push] in L |- *.
      rewrite L. exact L1.
Qed.

(** X6.  Whatever the network answers, [loadMetrics] makes one request,
    never throws and never notifies: all it may leave on the console are
    [console.error] entries.  Afterwards the chart has as many bars as
    before, and nothing but the bars and the console has changed. *)
Theorem X6_loadMetrics_never_throws (w : world) :
  exists rs w2 errs,
    run net (loadMetrics api w) = (rs, w2, inr tt) /\
    List.length rs = 1 /\
    console w2 = console w ++ errs /\
    forallb is_console_error errs = true /\
    List.length (bars w2) = List.length (bars w) /\
    connection_status w2 = connection_status w /\
    contact w2 = contact w /\ chat w2 = chat w /\
    chat_messages w2 = chat_messages w /\
    transcript_scrolls w2 = transcript_scrolls w.
Proof.
  destruct (loadMetrics_always w) as (w2 & errs & E & C & F & S1 & S2 & S3 & S4 & S5 & _ & L).
  eexists. exists w2, errs. split; [exact E|]. repeat split; auto.
Qed.

(** X7.  When the metrics call returns [null] (a 204) and the chart has
    bars, reading the first key throws inside [loadMetrics]'s own [try]:
    the failure is logged and the chart is rendered from the fallback
    values, [80%], [65%], [90%] and [50%], as when the call fails. *)
Theorem X7_null_metrics_render_fallback
    (w w1 : world) (rs : list request) :
  run net (getMetrics jsval api w) = (rs, w1, inr None) ->
  bars w <> [] ->
  exists w2,
    run net (loadMetrics api w) = (rs, w2, inr tt) /\
    console w2 =
      console w ++ [ConsoleError (js "Error al cargar métricas:")
                      (TypeError_read (js "null") (js "itse"))] /\
    (forall i b, nth_error (bars w) i = Some b ->
       nth_error (bars w2) i =
         Some (mkBar (nth i [js "80%"; js "65%"; js "90%"; js "50%"] (js "50%"))
                     (match tip b with
                      | Some _ =>
                          Some (nth i [js "80%"; js "65%"; js "90%"; js "50%"] (js "50%"))
                      | None => None
                      end))).
Proof.
  intros H Hb. pose proof H as H0. unfold getMetrics in H0. rewrite run_fetchApi in H0.
  destruct (fetchApi_outcome _) as [e|v]; [discriminate H0|].
  injection H0 as <- <- ->.
  unfold loadMetrics, try_catch, bind. rewrite run_catch, run_bind, H.
  cbn [returned]. rewrite updateMetricsUI_null.
  destruct (bars w) as [|b0 r] eqn:B; [congruence|].
  cbn [run bind_task effect].
  set (w' := console_error (js "Error al cargar métricas:")
               (TypeError_read (js "null") (js "itse")) (set_bars (b0 :: r) w)).
  destruct (updateMetricsUI_fallback jsval w') as (bs' & E & _ & Hn).
  rewrite E. cbn [run]. exists (set_bars bs' w').
  split; [rewrite app_nil_r; reflexivity|]. split; [reflexivity|].
  intros i b N. exact (Hn i b N).
Qed.

End StartupMore.

Lemma X7_null_metrics_render_fallback_witness :
  exists w2,
    run (fun _ => Resolved no_content) (loadMetrics local_api home_page) =
      ([fetchApi_request local_api (js "/api/metrics") no_options], w2, inr tt) /\
    console w2 =
      [ConsoleError (js "Error al cargar métricas:") (TypeError_read (js "null") (js "itse"))] /\
    nth_error (bars w2) 1 = Some (mkBar (js "65%") (Some (js "65%"))).
Proof.
  destruct (@X7_null_metrics_render_fallback local_api (fun _ => Resolved no_content)
              home_page home_page
              [fetchApi_request local_api (js "/api/metrics") no_options])
    as (w2 & E & C & B).
  - reflexivity.
  - discriminate.
  - exists w2. split; [exact E|]. split; [exact C|].
    rewrite (B 1 (mkBar [] (Some [])) eq_refl). reflexivity.
Defined.

Lemma X6_loadMetrics_never_throws_witness :
  exists rs w2 errs,
    run (network_up (JObj [(js "itse", JStr (js "abc"));
                           (js "pozo", JObj [(js "toString", JNull)])]))
        (loadMetrics local_api home_page) = (rs, w2, inr tt) /\
    console w2 = console home_page ++ errs /\
    forallb is_console_error errs = true /\
    errs = [ConsoleError (js "Error al cargar métricas:") TypeError_convert] /\
    bars w2 =
      [mkBar (js "80%") (Some (js "80%")); mkBar (js "65%") (Some (js "65%"));
       mkBar (js "90%") (Some (js "90%")); mkBar (js "50%") (Some (js "50%"))].
Proof.
  destruct (@X6_loadMetrics_never_throws local_api
              (network_up (JObj [(js "itse", JStr (js "abc"));
                                 (js "pozo", JObj [(js "toString", JNull)])]))
              home_page)
    as (rs & w2 & errs & E & _ & C & F & _).
  exists rs, w2, errs. split; [exact E|]. split; [exact C|]. split; [exact F|].
  vm_compute in E. injection E as <- <-. vm_compute in C.
  split; [symmetry; exact C | vm_compute; reflexivity].
Defined.

Section StartupWhole.

Variable api : ApiService.
Variable net : request -> settled (response jsval).

(** [initializeApp] against any network, by the way the health check
    went. *)
Lemma run_initializeApp (w : world) :
  match fetchApi_outcome (net (fetchApi_request api (HEALTH (endpoints api)) no_options)) with
  | inl e =>
      exists w2,
        run net (initializeApp api w) =
          ([fetchApi_request api (HEALTH (endpoints api)) no_options], w2, inr tt) /\
        contact w2 = contact w /\ chat w2 = chat w
  | inr _ =>
      exists w2 errs,
        run net (initializeApp api w) =
          ([fetchApi_request api (HEALTH (endpoints api)) no_options;
            fetchApi_request api (METRICS (endpoints api)) no_options], w2, inr tt) /\
        connection_status w2 =
          match connection_status w with
          | Some _ => Some (mkStatus (js "Conectado al servidor") (js "status-connected"))
          | None => None
          end /\
        contact w2 = option_map one_more_contact_listener (contact w) /\
        chat w2 = option_map one_more_chat_listener (chat w) /\
        chat_messages w2 = chat_messages w /\
        console w2 =
          console w ++ errs ++ [ConsoleLog (js "Aplicación inicializada correctamente")] /\
        forallb is_console_error errs = true /\
        List.length (bars w2) = List.length (bars w)
  end.
Proof.
  unfold initializeApp, try_catch, bind, checkBackendConnection, try_catch, bind.
  rewrite run_catch, run_bind, run_catch, run_bind.
  unfold checkHealth. rewrite run_fetchApi.
  destruct (fetchApi_outcome _) as [e|v].
  - cbn [bind_task effect updateConnectionStatus throw run showNotification app].
    eexists. split; [reflexivity|].
    destruct (connection_status w) eqn:S; simpl; rewrite ?S; simpl; auto.
  - cbn [bind_task effect updateConnectionStatus run app].
    set (w1 := match connection_status w with
               | Some _ => set_connection_status
                             (Some (mkStatus (js "Conectado al servidor")
                                             (js "status-connected"))) w
               | None => w
               end).
    assert (F1 : connection_status w1 =
                   match connection_status w with
                   | Some _ => Some (mkStatus (js "Conectado al servidor")
                                              (js "status-connected"))
                   | None => None
                   end /\
                 contact w1 = contact w /\ chat w1 = chat w /\
                 chat_messages w1 = chat_messages w /\ console w1 = console w /\
                 bars w1 = bars w).
    { subst w1. destruct (connection_status w) eqn:S; cbn; rewrite ?S; auto 10. }
    destruct F1 as (Fs & Fc & Fh & Fm & Fo & Fb).
    rewrite run_bind.
    destruct (loadMetrics_always api net w1)
      as (w2 & errs & E & C & F & Ss & Sc & Sh & Sm & _ & _ & L).
    rewrite E. cbn [initializeEventListeners bind bind_task effect run app].
    eexists. exists errs. split; [reflexivity|].
    assert (Ec : contact w2 = contact w) by congruence.
    assert (Eh : chat w2 = chat w) by congruence.
    assert (Em : chat_messages w2 = chat_messages w) by congruence.
    assert (Es : connection_status w2 =
                   match connection_status w with
                   | Some _ => Some (mkStatus (js "Conectado al servidor")
                                              (js "status-connected"))
                   | None => None
                   end) by congruence.
    rewrite Fo in C. rewrite Fb in L.
    destruct (contact w) as [c|], (chat w) as [h|];
      rewrite Ec; simpl; rewrite ?Eh; simpl;
      rewrite ?Es, ?Em, ?Ec, ?Eh, ?C, ?L, <- ?app_assoc;
      repeat split; auto.
Qed.

(** X8.  Whatever the network answers, [initializeApp] never throws, and
    it makes the health request alone, or the health request and then the
    metrics request: there is no third request and no retry. *)
Theorem X8_initializeApp_never_throws (w : world) :
  exists rs w2,
    run net (initializeApp api w) = (rs, w2, inr tt) /\
    (rs = [fetchApi_request api (HEALTH (endpoints api)) no_options] \/
     rs = [fetchApi_request api (HEALTH (endpoints api)) no_options;
           fetchApi_request api (METRICS (endpoints api)) no_options]).
Proof.
  pose proof (run_initializeApp w) as H.
  destruct (fetchApi_outcome _) as [e|v].
  - destruct H as (w2 & E & _). eexists. exists w2. split; [exact E | left; reflexivity].
  - destruct H as (w2 & errs & E & _). eexists. exists w2.
    split; [exact E | right; reflexivity].
Qed.

(** X9.  When the health check succeeds, [initializeApp] sets the status
    (when the page has the element) to Connected, loads the metrics,
    binds one more submit listener to each form the page has, and ends
    with its log line; whatever the metrics call does, the console gains
    nothing else but [console.error] entries, no notification is shown,
    and the chart keeps its number of bars. *)
Theorem X9_healthy_startup_binds_the_handlers
    (w w1 : world) (rs : list request) (v : option jsval) :
  run net (checkHealth jsval api w) = (rs, w1, inr v) ->
  exists w2 errs,
    run net (initializeApp api w) =
      ([fetchApi_request api (HEALTH (endpoints api)) no_options;
        fetchApi_request api (METRICS (endpoints api)) no_options], w2, inr tt) /\
    connection_status w2 =
      match connection_status w with
      | Some _ => Some (mkStatus (js "Conectado al servidor") (js "status-connected"))
      | None => None
      end /\
    contact w2 = option_map one_more_contact_listener (contact w) /\
    chat w2 = option_map one_more_chat_listener (chat w) /\
    chat_messages w2 = chat_messages w /\
    console w2 =
      console w ++ errs ++ [ConsoleLog (js "Aplicación inicializada correctamente")] /\
    forallb is_console_error errs = true /\
    List.length (bars w2) = List.length (bars w).
Proof.
  intros H. unfold checkHealth in H. rewrite run_fetchApi in H.
  pose proof (run_initializeApp w) as R.
  destruct (fetchApi_outcome _) as [e|v']; [discriminate H | exact R].
Qed.

End StartupWhole.

Lemma X9_healthy_startup_binds_the_handlers_witness :
  exists w2 errs,
    run (network_up (JObj [(js "itse", JNum (int 72))])) (initializeApp local_api home_page) =
      ([fetchApi_request local_api (js "/healthz") no_options;
        fetchApi_request local_api (js "/api/metrics") no_options], w2, inr tt) /\
    option_map contact_listeners (contact w2) = Some 1 /\
    option_map chat_listeners (chat w2) = Some 1 /\
    console w2 = errs ++ [ConsoleLog (js "Aplicación inicializada correctamente")] /\
    connection_status w2 =
      Some (mkStatus (js "Conectado al servidor") (js "status-connected")).
Proof.
  destruct (@X9_healthy_startup_binds_the_handlers local_api
              (network_up (JObj [(js "itse", JNum (int 72))])) home_page home_page
              [fetchApi_request local_api (js "/healthz") no_options]
              (Some (JObj [(js "itse", JNum (int 72))])))
    as (w2 & errs & E & S & C & H & _ & L & _).
  - reflexivity.
  - exists w2, errs. split; [exact E|].
    rewrite C, H, L, S. repeat split.
Defined.

(** X10.  [initializeEventListeners] never throws, and every call binds
    one listener more to each form the page has: after two calls each form
    has two more listeners than before, so binding is not idempotent.
    Nothing else on the page changes. *)
Theorem X10_each_call_binds_one_more_listener (V : Type) (w : world) :
  exists w1 w2,
    initializeEventListeners V w = Done w1 tt /\
    initializeEventListeners V w1 = Done w2 tt /\
    contact w1 = option_map one_more_contact_listener (contact w) /\
    chat w1 = option_map one_more_chat_listener (chat w) /\
    contact w2 =
      option_map one_more_contact_listener
        (option_map one_more_contact_listener (contact w)) /\
    chat w2 =
      option_map one_more_chat_listener (option_map one_more_chat_listener (chat w)) /\
    (connection_status w2, bars w2, chat_messages w2, console w2) =
      (connection_status w, bars w, chat_messages w, console w) /\
    transcript_scrolls w2 = transcript_scrolls w.
Proof.
  unfold initializeEventListeners, bind, effect. cbn [bind_task].
  eexists. eexists. split; [reflexivity|]. split; [reflexivity|].
  destruct (contact w) as [c|] eqn:C, (chat w) as [h|] eqn:H;
    cbn; rewrite ?C, ?H; cbn; rewrite ?C, ?H; cbn; rewrite ?C, ?H; cbn; auto 10.
Qed.

(* ================================================================== *)
(** * More on the contact form *)
(* ================================================================== *)

Section ContactMore.

Variable V : Type.
Variable api : ApiService.

Lemma get_trimmed_truthy (form : contact_form) (name : jsstring) :
  truthy (get_trimmed (new_FormData form) name) = true ->
  get_trimmed (new_FormData form) name = JStr (trimmed form name).
Proof.
  unfold get_trimmed, trimmed.
  destruct (FormData_get (new_FormData form) name) as [s|]; simpl;
    [reflexivity | discriminate].
Qed.

Lemma get_trimmed_or_else (form : contact_form) (name d : jsstring) :
  or_else (get_trimmed (new_FormData form) name) (JStr d) =
    JStr (match trimmed form name with [] => d | m => m end).
Proof.
  unfold get_trimmed, trimmed, or_else.
  destruct (FormData_get (new_FormData form) name) as [s|]; simpl; [|reflexivity].
  destruct (trim s); reflexivity.
Qed.

(** X11.  For a form that passes validation, the lead sent is a POST to
    the leads endpoint, with the default header, whose body holds the
    trimmed name, email and phone, the trimmed message or, when that is
    empty or the form has no such field, the placeholder text, and the
    fixed source. *)
Theorem X11_lead_sent (w : world) (form : contact_form) (b : button) :
  contact w = Some form ->
  submit_button form = Some b ->
  ~ rejected_by_validation form ->
  exists w1,
    pending (handleContactSubmit V api w) =
      Some (w1,
            mkRequest (baseUrl api ++ LEADS (endpoints api))
              (Some (js "POST"))
              [(js "Content-Type", js "application/json")]
              (Some (JObj
                 [(js "name", JStr (trimmed form (js "name")));
                  (js "email", JStr (trimmed form (js "email")));
                  (js "phone", JStr (trimmed form (js "phone")));
                  (js "message",
                   JStr (match trimmed form (js "message") with
                         | [] => js "Sin mensaje adicional"
                         | m => m
                         end));
                  (js "source", JStr (js "formulario-web"))]))).
Proof.
  intros Hc Hb NR.
  unfold handleContactSubmit, bind, read. cbn [bind_task]. rewrite Hc, Hb.
  unfold try_finally, try_catch, bind. cbn [bind_task effect catch_task finally_task].
  destruct (negb (truthy (get_trimmed (new_FormData form) (js "name")))
            || negb (truthy (get_trimmed (new_FormData form) (js "email")))
            || negb (truthy (get_trimmed (new_FormData form) (js "phone")))) eqn:Missing.
  { exfalso. apply NR. unfold rejected_by_validation.
    apply orb_true_iff in Missing. destruct Missing as [Missing|H].
    - apply orb_true_iff in Missing. destruct Missing as [H|H];
        apply negb_true_iff, truthy_get_trimmed in H; auto.
    - apply negb_true_iff, truthy_get_trimmed in H; auto. }
  apply orb_false_iff in Missing. destruct Missing as [Missing Hphone].
  apply orb_false_iff in Missing. destruct Missing as [Hname Hemail].
  apply negb_false_iff in Hname, Hemail, Hphone.
  rewrite (ToString_get_trimmed _ _ Hemail). cbv beta iota.
  destruct (RegExp_test emailRegex (trimmed form (js "email"))) eqn:Re.
  2:{ exfalso. apply NR. unfold rejected_by_validation. auto. }
  cbn [negb].
  rewrite (get_trimmed_truthy _ _ Hname), (get_trimmed_truthy _ _ Hemail),
    (get_trimmed_truthy _ _ Hphone), get_trimmed_or_else.
  eexists.
  erewrite pending_finally; [reflexivity|].
  erewrite pending_catch; [reflexivity|].
  erewrite pending_bind; [reflexivity|].
  apply fetchApi_pending.
Qed.

(** X12.  On a form without a submit button [handleContactSubmit] throws
    before its [try] block: the [TypeError] escapes the handler, the page
    is exactly as it was (nothing logged, no notification), and no
    request is made. *)
Theorem X12_form_without_submit_button (w : world) (form : contact_form) :
  contact w = Some form ->
  submit_button form = None ->
  handleContactSubmit V api w = Fail w (TypeError_read (js "null") (js "textContent")) /\
  forall net,
    run net (handleContactSubmit V api w) =
      ([], w, inl (TypeError_read (js "null") (js "textContent"))).
Proof.
  intros Hc Hb.
  assert (E : handleContactSubmit V api w =
                Fail w (TypeError_read (js "null") (js "textContent"))).
  { unfold handleContactSubmit, bind, read. cbn [bind_task]. rewrite Hc, Hb. reflexivity. }
  rewrite E. split; reflexivity.
Qed.

(** The page when the lead request of an accepted form has settled. *)
Lemma handleContactSubmit_settled (w : world) (form : contact_form) (b : button)
    (o : settled (response V)) (w' : world) :
  contact w = Some form ->
  submit_button form = Some b ->
  ~ rejected_by_validation form ->
  resume (handleContactSubmit V api w) o w' =
    Done
      (update_button (fun x => mkButton (disabled x) (button_textContent b))
         (update_button (fun x => mkButton false (button_textContent x))
            match fetchApi_outcome o with
            | inl e =>
                console_push
                  (notification (match message e with [] => msg_send_failed | m => m end)
                                (js "error"))
                  (console_error (js "Error al enviar el formulario:") e
                     (console_error (js "Error en la petición:") e w'))
            | inr _ => form_reset (console_push (notification msg_sent (js "success")) w')
            end))
      tt.
Proof.
  intros Hc Hb NR.
  destruct (handleContactSubmit_accepted V api w Hc Hb NR) as (lead & _ & Res).
  rewrite Res. unfold sendLead. rewrite fetchApi_resume.
  destruct (fetchApi_outcome o) as [e|v]; reflexivity.
Qed.

(** X13.  A success status is not enough for the form to report success:
    when the lead request is answered with a success status other than
    204 and a body that does not decode as JSON (an empty 201, say), the
    handler shows an error notification, with the decoder's message, and
    leaves the fields as they are. *)
Theorem X13_undecodable_success_is_reported_as_failure
    (w : world) (form : contact_form) (b : button)
    (r : response V) (e : exn) (w' : world) (form' : contact_form) (b' : button) :
  contact w = Some form ->
  submit_button form = Some b ->
  ~ rejected_by_validation form ->
  ok r = true -> status r <> 204%Z -> json r = Rejected e ->
  contact w' = Some form' ->
  submit_button form' = Some b' ->
  exists w2,
    resume (handleContactSubmit V api w) (Resolved r) w' = Done w2 tt /\
    contact w2 =
      Some (mkContact (fields form') (Some (mkButton false (button_textContent b)))
                      (contact_listeners form')) /\
    console w2 =
      console w' ++
        [ConsoleError (js "Error en la petición:") e;
         ConsoleError (js "Error al enviar el formulario:") e;
         notification (match message e with [] => msg_send_failed | m => m end)
                      (js "error")].
Proof.
  intros Hc Hb NR Hok Hst Hj Hc' Hb'.
  rewrite (handleContactSubmit_settled w (Resolved r) w' Hc Hb NR).
  assert (O : fetchApi_outcome (Resolved r) = inl e).
  { simpl. rewrite Hok, Hj. simpl.
    destruct (Z.eqb_spec (status r) 204); [contradiction | reflexivity]. }
  rewrite O. eexists. split; [reflexivity|]. split.
  - rewrite contact_restored with (c := form') (b0 := b');
      [reflexivity | cbn [contact console_push console_error]; exact Hc' | exact Hb'].
  - rewrite !console_update_button. cbn [console console_push console_error].
    repeat rewrite <- app_assoc. reflexivity.
Qed.

Lemma trimmed_after_reset (fs : list field) (btn : option button) (n : nat)
    (name : jsstring) :
  Forall (fun f => trim (field_default f) = []) fs ->
  trimmed (mkContact (map reset_field fs) btn n) name = [].
Proof.
  unfold trimmed, FormData_get, new_FormData. cbn [fields].
  induction 1 as [|f fs Hf _ IH]; [reflexivity|].
  cbn [map lookup reset_field field_name field_value].
  destruct (jsstring_eqb name (field_name f)); [exact Hf | exact IH].
Qed.

(** X14.  After a lead has been sent with success, on a form whose fields
    all have blank default values, submitting again at once sends
    nothing: the reset form is turned down by validation, and the handler
    ends without a request. *)
Theorem X14_resubmitting_the_reset_form_sends_nothing
    (w : world) (form : contact_form) (b : button)
    (o : settled (response V)) (v : option V) :
  contact w = Some form ->
  submit_button form = Some b ->
  ~ rejected_by_validation form ->
  Forall (fun f => trim (field_default f) = []) (fields form) ->
  fetchApi_outcome o = inr v ->
  exists w1 r w2 w3,
    pending (handleContactSubmit V api w) = Some (w1, r) /\
    resume (handleContactSubmit V api w) o w1 = Done w2 tt /\
    option_map fields (contact w2) = Some (map reset_field (fields form)) /\
    handleContactSubmit V api w2 = Done w3 tt /\
    pending (handleContactSubmit V api w2) = None.
Proof.
  intros Hc Hb NR Blank O.
  destruct (handleContactSubmit_accepted V api w Hc Hb NR) as (lead & P & _).
  set (w1 := update_button (fun x => mkButton (disabled x) busy_label)
               (update_button (fun x => mkButton true (button_textContent x)) w)) in *.
  assert (H1 : contact w1 = Some (mkContact (fields form) (Some (mkButton true busy_label))
                                            (contact_listeners form))).
  { subst w1.
    erewrite contact_update_button by (erewrite contact_update_button by exact Hc; reflexivity).
    cbn. rewrite Hb. reflexivity. }
  pose proof (handleContactSubmit_settled w o w1 Hc Hb NR) as R. rewrite O in R.
  set (w2 := update_button (fun x => mkButton (disabled x) (button_textContent b))
               (update_button (fun x => mkButton false (button_textContent x))
                  (form_reset (console_push (notification msg_sent (js "success")) w1)))) in *.
  assert (H2 : contact w2 =
                 Some (mkContact (map reset_field (fields form))
                         (Some (mkButton false (button_textContent b)))
                         (contact_listeners form))).
  { subst w2.
    rewrite contact_restored
      with (c := mkContact (map reset_field (fields form)) (Some (mkButton true busy_label))
                           (contact_listeners form))
           (b0 := mkButton true busy_label);
      [reflexivity
      | erewrite contact_form_reset by (cbn [contact console_push]; exact H1); reflexivity
      | reflexivity]. }
  assert (Rej : rejected_by_validation
                  (mkContact (map reset_field (fields form))
                     (Some (mkButton false (button_textContent b)))
                     (contact_listeners form))).
  { left. apply trimmed_after_reset. exact Blank. }
  destruct (handleContactSubmit_rejected V api w2 H2 eq_refl Rej) as (msg & _ & _ & E).
  exists w1. eexists. exists w2. eexists.
  split; [exact P|]. split; [exact R|]. split; [rewrite H2; reflexivity|].
  rewrite E. split; reflexivity.
Qed.

End ContactMore.

Lemma X11_lead_sent_witness :
  exists w1,
    pending (handleContactSubmit unit local_api
               (page_with_form (js " Ana ") (js "ana@example.com") (js "999")))
      = Some (w1,
              mkRequest (js "http://127.0.0.1:8000/api/leads")
                (Some (js "POST"))
                [(js "Content-Type", js "application/json")]
                (Some (JObj
                   [(js "name", JStr (js "Ana"));
                    (js "email", JStr (js "ana@example.com"));
                    (js "phone", JStr (js "999"));
                    (js "message", JStr (js "Sin mensaje adicional"));
                    (js "source", JStr (js "formulario-web"))]))).
Proof.
  destruct (@X11_lead_sent unit local_api
              (page_with_form (js " Ana ") (js "ana@example.com") (js "999"))
              (mkContact
                 [mkField (js "name") (js " Ana ") [];
                  mkField (js "email") (js "ana@example.com") [];
                  mkField (js "phone") (js "999") []]
                 (Some (mkButton false (js "Enviar"))) 1)
              (mkButton false (js "Enviar")))
    as (w1 & P).
  - reflexivity.
  - reflexivity.
  - intros [H|[H|[H|H]]]; vm_compute in H; discriminate H.
  - exists w1. rewrite P. reflexivity.
Defined.

Lemma X12_form_without_submit_button_witness :
  handleContactSubmit unit local_api (set_contact (Some (mkContact [] None 1)) home_page)
    = Fail (set_contact (Some (mkContact [] None 1)) home_page)
           (TypeError_read (js "null") (js "textContent")).
Proof.
  apply (@X12_form_without_submit_button unit local_api
           (set_contact (Some (mkContact [] None 1)) home_page) (mkContact [] None 1));
    reflexivity.
Defined.

Lemma X13_undecodable_success_is_reported_as_failure_witness :
  exists w2,
    resume (handleContactSubmit unit local_api
              (page_with_form (js "Ana") (js "ana@example.com") (js "999")))
           (Resolved (mkResponse 201 true (Rejected end_of_input) (Rejected end_of_input)))
           (page_with_form (js "Ana") (js "ana@example.com") (js "999"))
      = Done w2 tt /\
    console w2 =
      [ConsoleError (js "Error en la petición:") end_of_input;
       ConsoleError (js "Error al enviar el formulario:") end_of_input;
       notification (js "Unexpected end of JSON input") (js "error")].
Proof.
  destruct (@X13_undecodable_success_is_reported_as_failure unit local_api
              (page_with_form (js "Ana") (js "ana@example.com") (js "999"))
              (mkContact
                 [mkField (js "name") (js "Ana") [];
                  mkField (js "email") (js "ana@example.com") [];
                  mkField (js "phone") (js "999") []]
                 (Some (mkButton false (js "Enviar"))) 1)
              (mkButton false (js "Enviar"))
              (mkResponse 201 true (Rejected end_of_input) (Rejected end_of_input))
              end_of_input
              (page_with_form (js "Ana") (js "ana@example.com") (js "999"))
              (mkContact
                 [mkField (js "name") (js "Ana") [];
                  mkField (js "email") (js "ana@example.com") [];
                  mkField (js "phone") (js "999") []]
                 (Some (mkButton false (js "Enviar"))) 1)
              (mkButton false (js "Enviar")))
    as (w2 & R & _ & C).
  - reflexivity.
  - reflexivity.
  - intros [H|[H|[H|H]]]; vm_compute in H; discriminate H.
  - reflexivity.
  - discriminate.
  - reflexivity.
  - reflexivity.
  - reflexivity.
  - exists w2. split; [exact R|]. rewrite C. vm_compute. reflexivity.
Defined.

Lemma X14_resubmitting_the_reset_form_sends_nothing_witness :
  exists w1 r w2 w3,
    pending (handleContactSubmit unit local_api
               (page_with_form (js "Ana") (js "ana@example.com") (js "999")))
      = Some (w1, r) /\
    resume (handleContactSubmit unit local_api
              (page_with_form (js "Ana") (js "ana@example.com") (js "999")))
           (Resolved no_content) w1 = Done w2 tt /\
    handleContactSubmit unit local_api w2 = Done w3 tt.
Proof.
  destruct (@X14_resubmitting_the_reset_form_sends_nothing unit local_api
              (page_with_form (js "Ana") (js "ana@example.com") (js "999"))
              (mkContact
                 [mkField (js "name") (js "Ana") [];
                  mkField (js "email") (js "ana@example.com") [];
                  mkField (js "phone") (js "999") []]
                 (Some (mkButton false (js "Enviar"))) 1)
              (mkButton false (js "Enviar"))
              (Resolved no_content) None)
    as (w1 & r & w2 & w3 & P & R & _ & E & _).
  - reflexivity.
  - reflexivity.
  - intros [H|[H|[H|H]]]; vm_compute in H; discriminate H.
  - repeat constructor.
  - reflexivity.
  - exists w1, r, w2, w3. auto.
Defined.

(* ================================================================== *)
(** * More on the chat *)
(* ================================================================== *)

Section ChatMore.

Variable api : ApiService.

Lemma appendMessage_no_transcript (V : Type) (text : jsval) (sender : jsstring) (w : world) :
  chat_messages w = None -> appendMessage V text sender w = Done w tt.
Proof. intros H. unfold appendMessage. rewrite H. reflexivity. Qed.

Lemma hideTypingIndicator_no_transcript (V : Type) (w : world) :
  chat_messages w = None -> hideTypingIndicator V w = Done w tt.
Proof. intros H. unfold hideTypingIndicator, effect. rewrite H. reflexivity. Qed.

(** X15.  On a page without the transcript container a chat message is
    still sent and the input still cleared, but nothing is ever shown:
    neither the user's text, nor the typing indicator, nor the reply, nor
    the apology.  However the request settles the handler ends without
    throwing, and all it leaves behind are the [console.error] entries of
    a failure. *)
Theorem X15_chat_without_transcript
    (w : world) (form : chat_form) (value : jsstring) :
  chat w = Some form ->
  input_value form = Some value ->
  trim value <> [] ->
  chat_messages w = None ->
  pending (handleChatSubmit api w) =
    Some (set_chat (Some (mkChat (Some []) (chat_listeners form))) w,
          fetchApi_request api (CHAT (endpoints api))
            (mkOptions (Some (js "POST")) None
               (Some (JObj [(js "message", JStr (trim value));
                            (js "use_ai", JBool true)])))) /\
  forall o w',
    chat_messages w' = None ->
    exists w2 errs,
      resume (handleChatSubmit api w) o w' = Done w2 tt /\
      same_but_console w' w2 /\
      console w2 = console w' ++ errs /\
      forallb is_console_error errs = true.
Proof.
  intros Hc Hi Ht Hm.
  unfold handleChatSubmit, bind, read. cbn [bind_task]. rewrite Hc, Hi.
  destruct (trim value) as [|c msg] eqn:T; [congruence|].
  rewrite appendMessage_no_transcript by exact Hm.
  cbn [bind_task effect showTypingIndicator try_catch catch_task].
  rewrite Hc. cbn [chat_messages set_chat]. rewrite Hm.
  split; [reflexivity|].
  intros o w' Hm'.
  erewrite resume_catch by reflexivity.
  erewrite resume_bind by reflexivity.
  unfold sendChatMessage. rewrite fetchApi_resume.
  destruct (fetchApi_outcome o) as [e|v] eqn:O.
  - cbn [bind_task catch_task effect].
    rewrite hideTypingIndicator_no_transcript by exact Hm'. cbn [bind_task].
    rewrite appendMessage_no_transcript by exact Hm'.
    eexists. exists [ConsoleError (js "Error en la petición:") e;
                     ConsoleError (js "Error en el chat:") e].
    split; [reflexivity|]. split; [repeat split|].
    split; [cbn; rewrite <- app_assoc; reflexivity | reflexivity].
  - cbn [bind_task catch_task].
    rewrite hideTypingIndicator_no_transcript by exact Hm'. cbn [bind_task].
    destruct (get_prop (returned v) (js "reply")) as [te|reply] eqn:G.
    + cbn [throw catch_task bind_task effect].
      rewrite hideTypingIndicator_no_transcript by exact Hm'. cbn [bind_task].
      rewrite appendMessage_no_transcript by exact Hm'.
      eexists. exists [ConsoleError (js "Error en el chat:") te].
      split; [reflexivity|]. split; [repeat split|]. split; reflexivity.
    + rewrite appendMessage_no_transcript by exact Hm'.
      exists w', []. split; [reflexivity|]. split; [repeat split|].
      split; [rewrite app_nil_r; reflexivity | reflexivity].
Qed.

(** X16.  When a chat message is sent, with or without a transcript on
    the page, the input is empty by the time the handler is suspended on
    the request, the request carries the trimmed text with [use_ai] set,
    and status, bars, contact form, listeners and console are as they
    were. *)
Theorem X16_input_cleared_when_sent
    (w : world) (form : chat_form) (value : jsstring) :
  chat w = Some form ->
  input_value form = Some value ->
  trim value <> [] ->
  exists w1 r,
    pending (handleChatSubmit api w) = Some (w1, r) /\
    chat w1 = Some (mkChat (Some []) (chat_listeners form)) /\
    body r = Some (JObj [(js "message", JStr (trim value)); (js "use_ai", JBool true)]) /\
    method r = Some (js "POST") /\
    (connection_status w1, bars w1, contact w1, console w1) =
      (connection_status w, bars w, contact w, console w).
Proof.
  intros Hc Hi Ht.
  unfold handleChatSubmit, bind, read. cbn [bind_task]. rewrite Hc, Hi.
  destruct (trim value) as [|c msg] eqn:T; [congruence|].
  destruct (chat_messages w) as [ns|] eqn:Hm.
  - rewrite (@appendMessage_transcript jsval (JStr (c :: msg)) (js "user") w ns
               (escape_text (c :: msg)) Hm eq_refl).
    cbn [bind_task effect showTypingIndicator try_catch catch_task].
    cbn [chat set_chat_messages scroll_to_end chat_messages set_chat]. rewrite Hc.
    cbn [chat set_chat_messages scroll_to_end chat_messages set_chat].
    eexists. eexists. split; [reflexivity|]. repeat split.
  - rewrite appendMessage_no_transcript by exact Hm.
    cbn [bind_task effect showTypingIndicator try_catch catch_task].
    rewrite Hc. cbn [chat_messages set_chat]. rewrite Hm.
    eexists. eexists. split; [reflexivity|]. repeat split.
Qed.

(** X17.  On a chat form without a text input [handleChatSubmit] throws a
    [TypeError] that escapes the handler: the page is exactly as it was
    and no request is made. *)
Theorem X17_chat_form_without_input (w : world) (form : chat_form) :
  chat w = Some form ->
  input_value form = None ->
  handleChatSubmit api w = Fail w (TypeError_read (js "null") (js "value")) /\
  forall net,
    run net (handleChatSubmit api w) = ([], w, inl (TypeError_read (js "null") (js "value"))).
Proof.
  intros Hc Hi.
  assert (E : handleChatSubmit api w = Fail w (TypeError_read (js "null") (js "value"))).
  { unfold handleChatSubmit, bind, read. cbn [bind_task]. rewrite Hc, Hi. reflexivity. }
  rewrite E. split; reflexivity.
Qed.

End ChatMore.

Section TypingIndicator.

Lemma remove_first_typing_none (ns : list chat_node) :
  typing_count ns = 0 -> remove_first_typing ns = ns.
Proof.
  induction ns as [|[s h t|] ns IH]; intros H; [reflexivity| |discriminate H].
  simpl. f_equal. apply IH. exact H.
Qed.

Lemma remove_first_typing_added (ns : list chat_node) :
  typing_count ns = 0 -> remove_first_typing (ns ++ [TypingEl]) = ns.
Proof.
  induction ns as [|[s h t|] ns IH]; intros H; [reflexivity| |discriminate H].
  simpl. f_equal. apply IH. exact H.
Qed.

Lemma set_chat_messages_same (w : world) (ns : list chat_node) :
  chat_messages w = Some ns -> set_chat_messages (Some ns) w = w.
Proof. destruct w. simpl. intros ->. reflexivity. Qed.

(** X18.  Showing the typing indicator and then hiding it leaves the
    transcript's messages and its number of indicators as they were, and
    the transcript scrolled to its end once more.  When no indicator was
    showing, the transcript is exactly as before and that scroll is the
    only difference on the page.  Hiding when no indicator shows changes
    nothing. *)
Theorem X18_show_then_hide_typing_indicator (V : Type) (w : world) (ns : list chat_node) :
  chat_messages w = Some ns ->
  exists w1 w2 ns2,
    showTypingIndicator V w = Done w1 tt /\
    chat_messages w1 = Some (ns ++ [TypingEl]) /\
    transcript_scrolls w1 = S (transcript_scrolls w) /\
    hideTypingIndicator V w1 = Done w2 tt /\
    chat_messages w2 = Some ns2 /\
    messages ns2 = messages ns /\
    typing_count ns2 = typing_count ns /\
    transcript_scrolls w2 = S (transcript_scrolls w) /\
    (typing_count ns = 0 ->
       ns2 = ns /\ w2 = scroll_to_end w /\ hideTypingIndicator V w = Done w tt).
Proof.
  intros Hm.
  unfold showTypingIndicator, effect. rewrite Hm.
  eexists. eexists. exists (remove_first_typing (ns ++ [TypingEl])).
  split; [reflexivity|]. split; [reflexivity|]. split; [reflexivity|].
  split; [apply hideTypingIndicator_transcript; reflexivity|].
  split; [reflexivity|].
  split; [rewrite messages_remove_first_typing, messages_app; apply app_nil_r|].
  split.
  - rewrite typing_count_remove_first_typing, typing_count_app.
    change (typing_count [TypingEl]) with 1. lia.
  - split; [reflexivity|].
    intros Z. rewrite (remove_first_typing_added ns Z). split; [reflexivity|]. split.
    + destruct w. simpl in Hm. subst. reflexivity.
    + rewrite (hideTypingIndicator_transcript V w Hm).
      rewrite (remove_first_typing_none ns Z), (set_chat_messages_same w Hm). reflexivity.
Qed.

End TypingIndicator.

Lemma X15_chat_without_transcript_witness :
  exists w2 errs,
    resume (handleChatSubmit local_api (set_chat_messages None home_page))
           (Rejected failed_to_fetch) (set_chat_messages None home_page) = Done w2 tt /\
    chat_messages w2 = None /\
    console w2 = errs /\
    forallb is_console_error errs = true.
Proof.
  destruct (@X15_chat_without_transcript local_api (set_chat_messages None home_page)
              (mkChat (Some (js " <b>Hola</b> ")) 0) (js " <b>Hola</b> "))
    as [_ After].
  - reflexivity.
  - reflexivity.
  - vm_compute. discriminate.
  - reflexivity.
  - destruct (After (Rejected failed_to_fetch) (set_chat_messages None home_page) eq_refl)
      as (w2 & errs & R & (_ & _ & _ & _ & M & _) & C & F).
    exists w2, errs. split; [exact R|]. split; [rewrite M; reflexivity|].
    split; [rewrite C; reflexivity | exact F].
Defined.

Lemma X16_input_cleared_when_sent_witness :
  exists w1 r,
    pending (handleChatSubmit local_api home_page) = Some (w1, r) /\
    chat w1 = Some (mkChat (Some []) 0) /\
    body r = Some (JObj [(js "message", JStr (js "<b>Hola</b>")); (js "use_ai", JBool true)]).
Proof.
  destruct (@X16_input_cleared_when_sent local_api home_page
              (mkChat (Some (js " <b>Hola</b> ")) 0) (js " <b>Hola</b> "))
    as (w1 & r & P & C & B & _).
  - reflexivity.
  - reflexivity.
  - vm_compute. discriminate.
  - exists w1, r. split; [exact P|]. split; [exact C|]. rewrite B. reflexivity.
Defined.

Lemma X17_chat_form_without_input_witness :
  handleChatSubmit local_api (set_chat (Some (mkChat None 1)) home_page)
    = Fail (set_chat (Some (mkChat None 1)) home_page)
           (TypeError_read (js "null") (js "value")).
Proof.
  apply (@X17_chat_form_without_input local_api
           (set_chat (Some (mkChat None 1)) home_page) (mkChat None 1));
    reflexivity.
Defined.

Lemma X18_show_then_hide_typing_indicator_witness :
  exists w1 w2,
    showTypingIndicator unit home_page = Done w1 tt /\
    chat_messages w1 = Some [TypingEl] /\
    hideTypingIndicator unit w1 = Done w2 tt /\
    chat_messages w2 = Some [] /\
    transcript_scrolls w2 = 1 /\
    w2 = scroll_to_end home_page.
Proof.
  destruct (@X18_show_then_hide_typing_indicator unit home_page [] eq_refl)
    as (w1 & w2 & ns2 & S & M1 & _ & H & M2 & _ & _ & T & Z).
  destruct (Z eq_refl) as (E & W & _).
  exists w1, w2. split; [exact S|]. split; [exact M1|]. split; [exact H|].
  split; [rewrite M2, E; reflexivity|]. split; [exact T | exact W].
Defined.

(* ================================================================== *)
(** * More on escaping and on the address pattern *)
(* ================================================================== *)

Section Text.

Lemma escape_text_plain (s : jsstring) : plain_text s = true -> escape_text s = s.
Proof.
  induction s as [|c s IH]; [reflexivity|].
  unfold plain_text. cbn [forallb]. intros H.
  apply andb_true_iff in H. destruct H as [Hc Hs].
  rewrite escape_text_cons, (IH Hs).
  apply negb_true_iff in Hc.
  apply orb_false_iff in Hc. destruct Hc as [Hc H62].
  apply orb_false_iff in Hc. destruct Hc as [Hc H60].
  apply orb_false_iff in Hc. destruct Hc as [H38 H160].
  unfold escape_unit. rewrite H38, H160, H60, H62. reflexivity.
Qed.

Lemma escape_text_length (s : jsstring) :
  List.length s <= List.length (escape_text s).
Proof.
  induction s as [|c s IH]; [apply le_n|].
  rewrite escape_text_cons, length_app.
  destruct (escape_unit_cases c)
    as [[_ ->]|[[_ ->]|[[_ ->]|[[_ ->]|(_ & _ & _ & _ & ->)]]]]; simpl; lia.
Qed.

(** X19.  [escapeHtml] on strings: text without [&], [<], [>] and the
    no-break space comes out unchanged; no text comes out shorter;
    different texts come out different, so the markup determines the
    text; [null] and [undefined] come out empty. *)
Theorem X19_escapeHtml_on_strings :
  (forall s, plain_text s = true -> escapeHtml (JStr s) = inr s) /\
  (forall s, exists html,
     escapeHtml (JStr s) = inr html /\ List.length s <= List.length html) /\
  (forall s1 s2, escapeHtml (JStr s1) = escapeHtml (JStr s2) -> s1 = s2) /\
  escapeHtml JNull = inr [] /\ escapeHtml JUndefined = inr [].
Proof.
  split; [intros s P; rewrite escapeHtml_string, (escape_text_plain s P); reflexivity|].
  split; [intros s; exists (escape_text s); split;
          [reflexivity | apply escape_text_length]|].
  split; [|split; reflexivity].
  intros s1 s2 H. rewrite !escapeHtml_string in H. injection H as H.
  apply (f_equal decode_text) in H. rewrite !decode_escape_text in H. exact H.
Qed.

Lemma not_space_or_at_facts (l : jsstring) :
  forallb not_space_or_at l = true ->
  count_occ N.eq_dec l 64%N = 0 /\ forallb (fun c => negb (is_space c)) l = true.
Proof.
  induction l as [|c l IH]; [split; reflexivity|].
  cbn [forallb]. intros H. apply andb_true_iff in H. destruct H as [Hc Hl].
  destruct (IH Hl) as [C S].
  unfold not_space_or_at in Hc. apply negb_true_iff, orb_false_iff in Hc.
  destruct Hc as [Hs Ha]. apply N.eqb_neq in Ha.
  split.
  - rewrite count_occ_cons_neq by exact Ha. exact C.
  - cbn [forallb]. rewrite Hs, S. reflexivity.
Qed.

(** X20.  An address the contact form accepts holds exactly one [@], no
    white space at all, and at least five code units. *)
Theorem X20_accepted_address (s : jsstring) :
  RegExp_test emailRegex s = true ->
  count_occ N.eq_dec s 64%N = 1 /\
  forallb (fun c => negb (is_space c)) s = true /\
  5 <= List.length s.
Proof.
  intros H. apply emailRegex_shape in H.
  destruct H as (a & b & c & -> & [Na Fa] & [Nb Fb] & [Nc Fc]).
  destruct (not_space_or_at_facts a Fa) as [Ca Sa].
  destruct (not_space_or_at_facts b Fb) as [Cb Sb].
  destruct (not_space_or_at_facts c Fc) as [Cc Sc].
  split; [|split].
  - rewrite !count_occ_app, Ca, Cb, Cc. reflexivity.
  - rewrite !forallb_app. unfold code_unit in *. rewrite Sa, Sb, Sc. reflexivity.
  - rewrite !length_app.
    destruct a; [congruence|]. destruct b; [congruence|]. destruct c; [congruence|].
    simpl. lia.
Qed.

End Text.

Lemma X19_escapeHtml_on_strings_witness :
  escapeHtml (JStr (js "Hola, mundo")) = inr (js "Hola, mundo").
Proof.
  destruct X19_escapeHtml_on_strings as [Plain _].
  apply Plain. reflexivity.
Defined.

Lemma X20_accepted_address_witness :
  count_occ N.eq_dec (js "ana@example.com") 64%N = 1 /\
  forallb (fun c => negb (is_space c)) (js "ana@example.com") = true /\
  5 <= List.length (js "ana@example.com").
Proof.
  apply (@X20_accepted_address (js "ana@example.com")). vm_compute. reflexivity.
Defined.

(* ================================================================== *)
(** * The configuration *)
(* ================================================================== *)

(** X21.  A client built from the configuration of a page served from
    [localhost] or [127.0.0.1] sends every request to
    [http://127.0.0.1:8000] followed by the endpoint; served from any
    other host, it requests the endpoint path alone, relative to the
    page's origin. *)
Theorem X21_requests_go_to_the_configured_base
    (V : Type) (hostname endpoint : jsstring) (options : fetch_options) (w : world) :
  exists r,
    pending (fetchApi V (new_ApiService (API_CONFIG hostname)) endpoint options w)
      = Some (w, r) /\
    ((hostname = js "localhost" \/ hostname = js "127.0.0.1") ->
       url r = js "http://127.0.0.1:8000" ++ endpoint) /\
    (hostname <> js "localhost" -> hostname <> js "127.0.0.1" -> url r = endpoint).
Proof.
  eexists. split; [apply fetchApi_pending|].
  cbn [url fetchApi_request baseUrl new_ApiService API_CONFIG BASE_URL].
  split.
  - intros [->| ->]; reflexivity.
  - intros N1 N2.
    destruct (jsstring_eqb hostname (js "localhost")) eqn:E1;
      [apply jsstring_eqb_eq in E1; contradiction|].
    destruct (jsstring_eqb hostname (js "127.0.0.1")) eqn:E2;
      [apply jsstring_eqb_eq in E2; contradiction|].
    reflexivity.
Qed.

Lemma X21_requests_go_to_the_configured_base_witness :
  exists r,
    pending (fetchApi unit (new_ApiService (API_CONFIG (js "tesla.example")))
               (js "/api/chat") no_options home_page) = Some (home_page, r) /\
    url r = js "/api/chat".
Proof.
  destruct (@X21_requests_go_to_the_configured_base unit (js "tesla.example")
              (js "/api/chat") no_options home_page) as (r & P & _ & Away).
  exists r. split; [exact P|].
  apply Away; vm_compute; discriminate.
Defined.
